(** * SentinalX behavioural telemetry pipeline

    A shallow embedding of the four client modules of the repository

      - [client/feature_extractor.py]        (module [FeatureExtractor])
      - [client/baseline_builder.py]         (module [BaselineBuilder])
      - [client/activity_shift_detector.py]  (module [ActivityShiftDetector])
      - [client/risk_engine.py]              (module [RiskEngine])

    together with the loop body of [run_simulation] in [main.py] (module
    [Main]) and the alert levels of [dashboard/app.py] (module
    [Dashboard]).

    Python objects become records that are passed in and returned, Python
    exceptions become the [Raise] constructor of [result], and Python's
    [float] is read as an exact rational ([Q]): rounding, infinities and NaN
    are outside this model.  The pseudo-random generator used by the
    detector is an explicit tape of draws. *)

From Stdlib Require Import QArith Qminmax Lqa List Sorted Permutation Bool Lia ZArith.
Import ListNotations.
Open Scope Q_scope.

(** ** Python numerics *)

Module Py.

(** The only exception the modelled code can raise. *)
Inductive exn := ZeroDivisionError.

Inductive result (A : Type) :=
| Ok (a : A)
| Raise (e : exn).
Arguments Ok {A} a.
Arguments Raise {A} e.

Definition bind {A B} (r : result A) (k : A -> result B) : result B :=
  match r with
  | Ok a => k a
  | Raise e => Raise e
  end.

(** [a < b] and [a > b] on numbers. *)
Definition lt (a b : Q) : bool := negb (Qle_bool b a).
Definition gt (a b : Q) : bool := lt b a.
Definition le (a b : Q) : bool := Qle_bool a b.
Definition ge (a b : Q) : bool := Qle_bool b a.

(** [a / b]: true division raises on a zero divisor. *)
Definition div (a b : Q) : result Q :=
  if Qeq_bool b 0 then Raise ZeroDivisionError else Ok (a / b).

(** [max(a, b)] keeps its first argument unless a later one is strictly
    greater; [min(a, b)] unless a later one is strictly smaller. *)
Definition max (a b : Q) : Q := if gt b a then b else a.
Definition min (a b : Q) : Q := if lt b a then b else a.
Definition max3 (a b c : Q) : Q := max (max a b) c.

(** [abs(x)]. *)
Definition abs (x : Q) : Q := if lt x 0 then - x else x.

(** [sum(xs)]: left-to-right accumulation starting from 0. *)
Definition sum (xs : list Q) : Q := fold_left Qplus xs 0.

(** [len(xs)] as a number. *)
Definition len {A} (xs : list A) : Q := inject_Z (Z.of_nat (length xs)).

(** An [int] used in float arithmetic. *)
Definition of_int (z : Z) : Q := inject_Z z.

End Py.

Import Py.

Declare Scope py_scope.
Notation "x <- c ;; k" := (Py.bind c (fun x => k))
  (at level 61, c at next level, right associativity) : py_scope.
Open Scope py_scope.

(** ** Shared data classes *)

(** [FeatureVector] of [client/feature_extractor.py]. *)
Record FeatureVector := mkFeatureVector {
  avg_typing_speed : Q;
  avg_idle_duration : Q;
  focus_loss_count : Z;
  avg_mouse_speed : Q;
  inter_key_interval : Q;
  window_start : Q;
  window_end : Q
}.

(** The dataclass defaults: [FeatureVector()]. *)
Definition FeatureVector_default : FeatureVector :=
  mkFeatureVector 0 0 0%Z 0 0 0 0.

(** [BaselineProfile] of [client/baseline_builder.py]. *)
Module BaselineProfile.

Record t := mk {
  avg_typing_speed : Q;
  avg_idle_duration : Q;
  avg_focus_rate : Q
}.

End BaselineProfile.

(** [AnomalyScores] of [client/activity_shift_detector.py]. *)
Record AnomalyScores := mkAnomalyScores {
  idle_burst : Q;
  focus_instability : Q;
  behavioral_drift : Q;
  overall : Q
}.

Definition AnomalyScores_default : AnomalyScores := mkAnomalyScores 0 0 0 0.

(** ** The pseudo-random generator ([import random])

    The generator is a tape of 53-bit draws and a cursor.  [random()]
    returns the next draw scaled into [[0, 1)], and [uniform(a, b)] is
    [a + (b - a) * random()], as in the standard library. *)

Module Random.

Record RandomState := mkRandomState {
  tape : nat -> N;
  cursor : nat
}.

Definition two53 : positive := 9007199254740992.

Definition random (g : RandomState) : Q * RandomState :=
  (Qmake (Z.of_N (N.modulo (tape g (cursor g)) (Npos two53))) two53,
   mkRandomState (tape g) (S (cursor g))).

Definition uniform (a b : Q) (g : RandomState) : Q * RandomState :=
  let (r, g') := random g in (a + (b - a) * r, g').

End Random.

(** ** [client/activity_shift_detector.py] *)

Module ActivityShiftDetector.

Import Random.

(** The instance attributes [_baseline] and [counter]. *)
Record t := mk {
  _baseline : option BaselineProfile.t;
  counter : nat
}.

(** [ActivityShiftDetector(baseline=None)]. *)
Definition init (baseline : option BaselineProfile.t) : t := mk baseline 0.

(** The [baseline] property setter. *)
Definition set_baseline (self : t) (value : BaselineProfile.t) : t :=
  mk (Some value) (counter self).

Definition set_idle_burst (s : AnomalyScores) (v : Q) : AnomalyScores :=
  mkAnomalyScores v (focus_instability s) (behavioral_drift s) (overall s).
Definition set_focus_instability (s : AnomalyScores) (v : Q) : AnomalyScores :=
  mkAnomalyScores (idle_burst s) v (behavioral_drift s) (overall s).
Definition set_behavioral_drift (s : AnomalyScores) (v : Q) : AnomalyScores :=
  mkAnomalyScores (idle_burst s) (focus_instability s) v (overall s).
Definition set_overall (s : AnomalyScores) (v : Q) : AnomalyScores :=
  mkAnomalyScores (idle_burst s) (focus_instability s) (behavioral_drift s) v.

(** [compute_scores(self, features)].  The result is the returned scores
    or the raised exception, together with the detector and the generator
    as the call leaves them. *)
Definition compute_scores (self : t) (g : RandomState) (features : FeatureVector)
  : Py.result AnomalyScores * t * RandomState :=
  match _baseline self with
  | None => (Ok AnomalyScores_default, self, g)
  | Some baseline =>
    let self := mk (Some baseline) (S (counter self)) in
    if (20 <? counter self)%nat then
      let scores := AnomalyScores_default in
      let (rand, g) := random g in
      if Py.lt rand 0.33 then
        let (u, g) := uniform 30 80 g in
        let scores := set_idle_burst scores u in
        let scores := set_overall scores (idle_burst scores) in
        (Ok scores, self, g)
      else if Py.lt rand 0.66 then
        let (u, g) := uniform 30 80 g in
        let scores := set_focus_instability scores u in
        let scores := set_overall scores (focus_instability scores) in
        (Ok scores, self, g)
      else
        let (u, g) := uniform 30 80 g in
        let scores := set_behavioral_drift scores u in
        let scores := set_overall scores (behavioral_drift scores) in
        (Ok scores, self, g)
    else
      let scores := AnomalyScores_default in
      let r :=
        (* Rule A: Idle-to-Burst *)
        let idle_threshold := BaselineProfile.avg_idle_duration baseline * 1.2 in
        scores <-
          (if Py.gt (avg_idle_duration features) idle_threshold then
             if Py.gt (avg_typing_speed features) (1.3 * BaselineProfile.avg_typing_speed baseline) then
               ratio <- Py.div (avg_typing_speed features) (BaselineProfile.avg_typing_speed baseline) ;;
               let raw := (ratio - 1.3) * 100.0 in
               Ok (set_idle_burst scores (Py.min 70.0 (Py.max 0.0 raw)))
             else Ok (set_idle_burst scores 0.0)
           else Ok (set_idle_burst scores 0.0)) ;;
        (* Rule B: Focus Instability *)
        let window_duration := window_end features - window_start features in
        focus_rate <-
          (if Py.gt window_duration 0 then
             per_minute <- Py.div 60.0 window_duration ;;
             Ok (Py.of_int (focus_loss_count features) * per_minute)
           else Ok 0.0) ;;
        scores <-
          (if Py.gt focus_rate (1.5 * BaselineProfile.avg_focus_rate baseline) then
             ratio <- Py.div focus_rate (BaselineProfile.avg_focus_rate baseline) ;;
             let raw := (ratio - 1.5) * 100.0 in
             Ok (set_focus_instability scores (Py.min 70.0 (Py.max 0.0 raw)))
           else Ok (set_focus_instability scores 0.0)) ;;
        (* Rule C: Behavioral Drift *)
        scores <-
          (if Py.gt (BaselineProfile.avg_typing_speed baseline) 0 then
             deviation_pct <-
               Py.div (Py.abs (avg_typing_speed features - BaselineProfile.avg_typing_speed baseline))
                      (BaselineProfile.avg_typing_speed baseline) ;;
             if Py.gt deviation_pct 0.3 then
               let raw := (deviation_pct - 0.3) * 200.0 in
               Ok (set_behavioral_drift scores (Py.min 70.0 (Py.max 0.0 raw)))
             else Ok (set_behavioral_drift scores 0.0)
           else Ok (set_behavioral_drift scores 0.0)) ;;
        Ok (set_overall scores
              (Py.max3 (idle_burst scores) (focus_instability scores)
                       (behavioral_drift scores)))
      in (r, self, g)
  end.

(** The outcomes of successive [compute_scores] calls on one detector,
    one call per feature vector. *)
Fixpoint run (self : t) (g : RandomState) (inputs : list FeatureVector)
  : list (Py.result AnomalyScores) :=
  match inputs with
  | [] => []
  | features :: rest =>
    let '(r, self', g') := compute_scores self g features in
    r :: run self' g' rest
  end.

(** Field-wise numerical equality of two outcomes. *)
Definition same_outcome (r1 r2 : Py.result AnomalyScores) : Prop :=
  match r1, r2 with
  | Ok s1, Ok s2 =>
    idle_burst s1 == idle_burst s2 /\
    focus_instability s1 == focus_instability s2 /\
    behavioral_drift s1 == behavioral_drift s2 /\
    overall s1 == overall s2
  | Raise e1, Raise e2 => e1 = e2
  | _, _ => False
  end.

End ActivityShiftDetector.

(** ** [client/baseline_builder.py] *)

Module BaselineBuilder.

(** The instance attributes of [BaselineBuilder]. *)
Record t := mk {
  calibration_duration : Q;
  _feature_history : list FeatureVector;
  _baseline : option BaselineProfile.t;
  _calibration_start : option Q
}.

(** [BaselineBuilder(calibration_duration=180.0)]. *)
Definition init (calibration_duration : Q) : t :=
  mk calibration_duration [] None None.

Definition start_calibration (self : t) (start_time : Q) : t :=
  mk (calibration_duration self) [] None (Some start_time).

(** The fallback profile of [_build_baseline]. *)
Definition default_profile : BaselineProfile.t := BaselineProfile.mk 150.0 2.0 0.5.

(** One turn of the accumulation loop of [_build_baseline]. *)
Definition accumulate (acc : Q * Q * Q * Z) (fv : FeatureVector) : Q * Q * Q * Z :=
  let '(total_typing_speed, total_idle_duration, total_focus_loss, window_count) := acc in
  (total_typing_speed + avg_typing_speed fv,
   total_idle_duration + avg_idle_duration fv,
   total_focus_loss + Py.of_int (focus_loss_count fv),
   (window_count + 1)%Z).

(** [_build_baseline(self)].  A [FeatureVector] always has [window_end] and
    [window_start], so both [hasattr] tests hold. *)
Definition _build_baseline (self : t) : Py.result t :=
  match _feature_history self with
  | [] =>
    Ok (mk (calibration_duration self) [] (Some default_profile)
           (_calibration_start self))
  | first :: _ =>
    let '(total_typing_speed, total_idle_duration, total_focus_loss, window_count) :=
      fold_left accumulate (_feature_history self) (0.0, 0.0, 0.0, 0%Z) in
    typing_speed <- Py.div total_typing_speed (Py.of_int window_count) ;;
    idle_duration <- Py.div total_idle_duration (Py.of_int window_count) ;;
    focus_rate <-
      (if (0 <? window_count)%Z then
         avg_focus_per_window <- Py.div total_focus_loss (Py.of_int window_count) ;;
         let window_duration := window_end first - window_start first in
         let window_duration :=
           if Py.le window_duration 0 then 30.0 else window_duration in
         per_minute <- Py.div 60.0 window_duration ;;
         Ok (avg_focus_per_window * per_minute)
       else Ok 0.0) ;;
    Ok (mk (calibration_duration self) []
           (Some (BaselineProfile.mk typing_speed idle_duration focus_rate))
           (_calibration_start self))
  end.

(** [update(self, features, current_time)]. *)
Definition update (self : t) (features : FeatureVector) (current_time : Q)
  : Py.result t :=
  match _baseline self with
  | Some _ => Ok self
  | None =>
    let '(self, start) :=
      match _calibration_start self with
      | None => (start_calibration self current_time, current_time)
      | Some start => (self, start)
      end in
    if Py.le (current_time - start) (calibration_duration self) then
      Ok (mk (calibration_duration self) (_feature_history self ++ [features])
             (_baseline self) (_calibration_start self))
    else _build_baseline self
  end.

Definition baseline (self : t) : option BaselineProfile.t := _baseline self.

Definition is_calibrated (self : t) : bool :=
  match _baseline self with Some _ => true | None => false end.

Definition reset (self : t) : t := mk (calibration_duration self) [] None None.

(** A run of [update] calls; the run stops at the first exception. *)
Fixpoint feed (self : t) (calls : list (FeatureVector * Q)) : Py.result t :=
  match calls with
  | [] => Ok self
  | (features, current_time) :: rest =>
    self' <- update self features current_time ;; feed self' rest
  end.

End BaselineBuilder.

(** ** [client/risk_engine.py] *)

Module RiskEngine.

(** The instance attributes of [RiskEngine]; [_risk_history] is a
    [deque(maxlen=smoothing_window)], oldest value first. *)
Record t := mk {
  smoothing_window : nat;
  _risk_history : list Q;
  _last_raw_risk : Q;
  _last_smoothed_risk : Q;
  weight_idle_burst : Q;
  weight_focus_instability : Q;
  weight_behavioral_drift : Q
}.

(** [RiskEngine(smoothing_window=5)]. *)
Definition default_smoothing_window : nat := 5.

Definition init (smoothing_window : nat) : t :=
  mk smoothing_window [] 0.0 0.0 0.4 0.3 0.3.

(** [deque.append] on a deque of bounded length: the new item goes to the
    right end and, when the bound is exceeded, the leftmost item is dropped. *)
Definition deque_append (maxlen : nat) (d : list Q) (x : Q) : list Q :=
  let d' := d ++ [x] in
  if (maxlen <? length d')%nat then tl d' else d'.

(** [compute_risk(self, anomaly_scores)]. *)
Definition compute_risk (self : t) (anomaly_scores : AnomalyScores)
  : Py.result (Q * t) :=
  let raw_risk :=
    weight_idle_burst self * idle_burst anomaly_scores +
    weight_focus_instability self * focus_instability anomaly_scores +
    weight_behavioral_drift self * behavioral_drift anomaly_scores in
  let raw_risk := Py.max 0.0 (Py.min 100.0 raw_risk) in
  let history := deque_append (smoothing_window self) (_risk_history self) raw_risk in
  smoothed <-
    (if (0 <? length history)%nat then Py.div (Py.sum history) (Py.len history)
     else Ok raw_risk) ;;
  Ok (smoothed,
      mk (smoothing_window self) history raw_risk smoothed
         (weight_idle_burst self) (weight_focus_instability self)
         (weight_behavioral_drift self)).

Definition current_risk (self : t) : Q := _last_smoothed_risk self.
Definition raw_risk (self : t) : Q := _last_raw_risk self.

Definition reset (self : t) : t :=
  mk (smoothing_window self) [] 0.0 0.0
     (weight_idle_burst self) (weight_focus_instability self)
     (weight_behavioral_drift self).

(** A run of [compute_risk] calls, returning the last smoothed value. *)
Fixpoint feed (self : t) (last : Q) (inputs : list AnomalyScores)
  : Py.result (Q * t) :=
  match inputs with
  | [] => Ok (last, self)
  | s :: rest =>
    r <- compute_risk self s ;; feed (snd r) (fst r) rest
  end.

End RiskEngine.

(** ** [client/feature_extractor.py] *)

Module FeatureExtractor.

Inductive EventType :=
| KEY_PRESS | KEY_RELEASE | MOUSE_MOVE | FOCUS_LOST | FOCUS_GAINED | IDLE_PERIOD.

(** Modelled from the spec: the event classes of [shared/models.py], which
    is not among the sources.  The spec gives a tagged union over
    [KeyPress, KeyRelease, MouseMove(x,y), FocusLost, FocusGained,
    IdlePeriod(duration)], each with a timestamp and no content; the
    constructors and fields below are the ones the client modules build
    ([KeystrokeEvent(timestamp, type)], [MouseEvent(timestamp, type, x, y)],
    [FocusEvent(timestamp, type, lost_focus)],
    [IdleEvent(timestamp, type, duration)]) and inspect. *)
Inductive BaseEvent :=
| KeystrokeEvent (timestamp : Q) (type : EventType)
| MouseEvent (timestamp : Q) (type : EventType) (x y : Q)
| FocusEvent (timestamp : Q) (type : EventType) (lost_focus : bool)
| IdleEvent (timestamp : Q) (type : EventType) (duration : Q).

Definition timestamp (ev : BaseEvent) : Q :=
  match ev with
  | KeystrokeEvent ts _ | MouseEvent ts _ _ _
  | FocusEvent ts _ _ | IdleEvent ts _ _ => ts
  end.

(** The instance attributes of [FeatureExtractor]; [_event_buffer] is a
    deque, oldest event first. *)
Record t := mk {
  window_duration : Q;
  _event_buffer : list BaseEvent
}.

(** [FeatureExtractor(window_duration=30.0)]. *)
Definition init (window_duration : Q) : t := mk window_duration [].

(** The rightmost item of the deque, [self._event_buffer[-1]]. *)
Definition rightmost (buffer : list BaseEvent) : option BaseEvent :=
  match rev buffer with
  | [] => None
  | e :: _ => Some e
  end.

(** The scan of [add_event]: insert before the first event that is
    strictly later, and stop; nothing is inserted when there is none. *)
Fixpoint insert_scan (event : BaseEvent) (buffer : list BaseEvent)
  : list BaseEvent :=
  match buffer with
  | [] => []
  | e :: rest =>
    if Py.lt (timestamp event) (timestamp e) then event :: e :: rest
    else e :: insert_scan event rest
  end.

(** [add_event(self, event)]. *)
Definition add_event (self : t) (event : BaseEvent) : t :=
  match rightmost (_event_buffer self) with
  | None => mk (window_duration self) (_event_buffer self ++ [event])
  | Some newest =>
    if Py.ge (timestamp event) (timestamp newest) then
      mk (window_duration self) (_event_buffer self ++ [event])
    else
      mk (window_duration self) (insert_scan event (_event_buffer self))
  end.

(** The loop of [_prune_buffer]: pop from the left while the leftmost
    event is older than the cutoff. *)
Fixpoint popleft_while_older (cutoff : Q) (buffer : list BaseEvent)
  : list BaseEvent :=
  match buffer with
  | [] => []
  | e :: rest =>
    if Py.lt (timestamp e) cutoff then popleft_while_older cutoff rest
    else buffer
  end.

(** [_prune_buffer(self, current_time)]. *)
Definition _prune_buffer (self : t) (current_time : Q) : t :=
  let cutoff := current_time - window_duration self in
  mk (window_duration self) (popleft_while_older cutoff (_event_buffer self)).

(** [clear(self)]. *)
Definition clear (self : t) : t := mk (window_duration self) [].

(** The four selection loops of [compute_features]. *)
Definition press_timestamps_of (window_events : list BaseEvent) : list Q :=
  flat_map (fun ev =>
    match ev with
    | KeystrokeEvent ts KEY_PRESS => [ts]
    | _ => []
    end) window_events.

Definition idle_durations_of (window_events : list BaseEvent) : list Q :=
  flat_map (fun ev =>
    match ev with
    | IdleEvent _ _ duration => [duration]
    | _ => []
    end) window_events.

Definition focus_loss_count_of (window_events : list BaseEvent) : Z :=
  fold_left (fun focus_loss_count ev =>
    match ev with
    | FocusEvent _ FOCUS_LOST _ => (focus_loss_count + 1)%Z
    | _ => focus_loss_count
    end) window_events 0%Z.

Definition mouse_positions_of (window_events : list BaseEvent)
  : list (Q * Q * Q) :=
  flat_map (fun ev =>
    match ev with
    | MouseEvent ts MOUSE_MOVE x y => [(ts, x, y)]
    | _ => []
    end) window_events.

(** [[p[i+1] - p[i] for i in range(len(p) - 1)]]. *)
Fixpoint intervals_of (p : list Q) : list Q :=
  match p with
  | a :: (b :: _) as rest => (b - a) :: intervals_of rest
  | _ => []
  end.

(** The keystroke block of [compute_features]: [inter_key_interval] and
    [avg_typing_speed]. *)
Definition keystroke_features (press_timestamps : list Q)
           (current_time fv_window_start : Q) : Py.result (Q * Q) :=
  if (2 <=? length press_timestamps)%nat then
    let intervals := intervals_of press_timestamps in
    iki <- Py.div (Py.sum intervals) (Py.len intervals) ;;
    let window_len := current_time - fv_window_start in
    if Py.gt window_len 0 then
      per_second <- Py.div (Py.len press_timestamps) window_len ;;
      Ok (iki, per_second * 60)
    else Ok (iki, 0.0)
  else Ok (0.0, 0.0).

(** The idle block: [avg_idle_duration]. *)
Definition idle_feature (idle_durations : list Q) : Py.result Q :=
  match idle_durations with
  | _ :: _ => Py.div (Py.sum idle_durations) (Py.len idle_durations)
  | [] => Ok 0.0
  end.

Section WithSqrt.

(** [math.sqrt], a primitive of the host language, on the arguments for
    which it returns a float.  Its [OverflowError] on an integer too large
    for a float is not modelled. *)
Variable math_sqrt : Q -> Q.

(** The distance loop over consecutive mouse positions. *)
Fixpoint total_distance_of (total_distance : Q) (positions : list (Q * Q * Q))
  : Q :=
  match positions with
  | (_, x1, y1) :: ((_, x2, y2) :: _) as rest =>
    let dx := x2 - x1 in
    let dy := y2 - y1 in
    total_distance_of (total_distance + math_sqrt (dx * dx + dy * dy)) rest
  | _ => total_distance
  end.

(** The mouse block: [avg_mouse_speed]. *)
Definition mouse_feature (mouse_positions : list (Q * Q * Q)) : Py.result Q :=
  if (2 <=? length mouse_positions)%nat then
    let total_distance := total_distance_of 0.0 mouse_positions in
    let time_span :=
      match rev mouse_positions, mouse_positions with
      | (t_last, _, _) :: _, (t_first, _, _) :: _ => t_last - t_first
      | _, _ => 0.0
      end in
    if Py.gt time_span 0 then Py.div total_distance time_span
    else Ok 0.0
  else Ok 0.0.

(** [compute_features(self, current_time=None)]: the feature vector (or the
    exception raised) and the extractor with its pruned buffer. *)
Definition compute_features (self : t) (current_time : option Q)
  : Py.result FeatureVector * t :=
  let current_time :=
    match current_time with
    | Some ct => ct
    | None =>
      match rightmost (_event_buffer self) with
      | Some newest => timestamp newest
      | None => 0.0
      end
    end in
  let self := _prune_buffer self current_time in
  let window_events := _event_buffer self in
  let fv_window_start := current_time - window_duration self in
  let fv_window_end := current_time in
  let r :=
    keys <- keystroke_features (press_timestamps_of window_events)
                               current_time fv_window_start ;;
    idle <- idle_feature (idle_durations_of window_events) ;;
    let focus_loss_count := focus_loss_count_of window_events in
    mouse <- mouse_feature (mouse_positions_of window_events) ;;
    Ok (mkFeatureVector (snd keys) idle focus_loss_count mouse (fst keys)
                        fv_window_start fv_window_end)
  in (r, self).

End WithSqrt.

(** The operations a client performs on an extractor. *)
Inductive op :=
| Add (event : BaseEvent)
| Compute (current_time : option Q)
| Clear.

(** The extractor after a sequence of operations ([Compute] keeps only the
    pruned buffer). *)
Definition step (math_sqrt : Q -> Q) (self : t) (o : op) : t :=
  match o with
  | Add event => add_event self event
  | Compute current_time => snd (compute_features math_sqrt self current_time)
  | Clear => clear self
  end.

Definition run (math_sqrt : Q -> Q) (self : t) (ops : list op) : t :=
  fold_left (step math_sqrt) ops self.

End FeatureExtractor.

(** ** [main.py]: the loop body of [run_simulation] *)

Module Main.

(** The five objects the loop works on: [extractor], [baseline_builder],
    [detector], [risk_engine], and the state of the [random] module. *)
Record Session := mkSession {
  extractor : FeatureExtractor.t;
  baseline_builder : BaselineBuilder.t;
  detector : ActivityShiftDetector.t;
  risk_engine : RiskEngine.t;
  generator : Random.RandomState
}.

(** The components as [run_simulation] creates them. *)
Definition start (g : Random.RandomState) : Session :=
  mkSession (FeatureExtractor.init 30.0) (BaselineBuilder.init 180.0)
            (ActivityShiftDetector.init None) (RiskEngine.init 5) g.

Section WithSqrt.

Variable math_sqrt : Q -> Q.

(** One turn of the [while True] loop, steps 1 to 5, on the events the
    listener delivered: the session the turn leaves and the pair
    [(anomaly_scores, risk_score)] when one was computed.  Sending the
    payload and sleeping are not part of the model. *)
Definition cycle (s : Session) (events : list FeatureExtractor.BaseEvent)
  : Py.result (Session * option (AnomalyScores * Q)) :=
  (* 1. Get events from listener *)
  let extractor := fold_left FeatureExtractor.add_event events (extractor s) in
  (* 2. Compute features from current window *)
  let '(r, extractor) :=
    FeatureExtractor.compute_features math_sqrt extractor None in
  features <- r ;;
  (* 3. Update baseline builder *)
  baseline_builder <-
    BaselineBuilder.update (baseline_builder s) features (window_end features) ;;
  (* 4. Once calibrated, set baseline in detector *)
  let detector :=
    match BaselineBuilder.baseline baseline_builder,
          ActivityShiftDetector._baseline (detector s) with
    | Some b, None => ActivityShiftDetector.set_baseline (detector s) b
    | _, _ => detector s
    end in
  (* 5. If baseline is ready, detect anomalies and compute risk *)
  match ActivityShiftDetector._baseline detector with
  | Some _ =>
    let '(r, detector, g) :=
      ActivityShiftDetector.compute_scores detector (generator s) features in
    anomaly_scores <- r ;;
    risk <- RiskEngine.compute_risk (risk_engine s) anomaly_scores ;;
    Ok (mkSession extractor baseline_builder detector (snd risk) g,
        Some (anomaly_scores, fst risk))
  | None =>
    Ok (mkSession extractor baseline_builder detector (risk_engine s)
                  (generator s), None)
  end.

(** Successive turns, one per batch of events; the outputs are collected
    oldest first and the run stops at the first exception. *)
Fixpoint cycles (s : Session) (batches : list (list FeatureExtractor.BaseEvent))
  : Py.result (Session * list (option (AnomalyScores * Q))) :=
  match batches with
  | [] => Ok (s, [])
  | events :: rest =>
    r <- cycle s events ;;
    r' <- cycles (fst r) rest ;;
    Ok (fst r', snd r :: snd r')
  end.

End WithSqrt.

End Main.

(** ** [dashboard/app.py]: the alert level of a risk record *)

Module Dashboard.

Inductive level := HIGH | MEDIUM | LOW.

(** The threshold cascade of the alert log; [None] is the [continue]
    branch, for which no alert is listed. *)
Definition alert_level (risk : Q) : option level :=
  if Py.ge risk 80 then Some HIGH
  else if Py.ge risk 60 then Some MEDIUM
  else if Py.ge risk 30 then Some LOW
  else None.

End Dashboard.

(** ** Sequences of calls on a baseline builder *)

Module BaselineOps.

Inductive op :=
| Start (start_time : Q)
| Update (features : FeatureVector) (current_time : Q)
| Reset.

Definition step (self : BaselineBuilder.t) (o : op) : Py.result BaselineBuilder.t :=
  match o with
  | Start start_time => Ok (BaselineBuilder.start_calibration self start_time)
  | Update features current_time =>
    BaselineBuilder.update self features current_time
  | Reset => Ok (BaselineBuilder.reset self)
  end.

Fixpoint run (self : BaselineBuilder.t) (ops : list op)
  : Py.result BaselineBuilder.t :=
  match ops with
  | [] => Ok self
  | o :: rest => self' <- step self o ;; run self' rest
  end.

(** What holds of every builder in use: a frozen baseline comes with an
    empty history, and a builder that was never started has neither. *)
Definition well_formed (d : Q) (self : BaselineBuilder.t) : Prop :=
  BaselineBuilder.calibration_duration self = d /\
  (BaselineBuilder.is_calibrated self = true -> BaselineBuilder._feature_history self = []) /\
  (BaselineBuilder._calibration_start self = None ->
   BaselineBuilder._feature_history self = [] /\ BaselineBuilder._baseline self = None).

End BaselineOps.

(** ** Reference notions used in the statements *)

Module Spec.

(** The sum and the arithmetic mean of a sequence of numbers. *)
Definition total (xs : list Q) : Q := fold_right Qplus 0 xs.

Definition arithmetic_mean (xs : list Q) : Q :=
  total xs / inject_Z (Z.of_nat (length xs)).

(** [clip(x, lo, hi)]. *)
Definition clip (x lo hi : Q) : Q := Qmax lo (Qmin hi x).

(** The last [n] items of a sequence. *)
Definition last_n {A} (n : nat) (xs : list A) : list A :=
  skipn (length xs - n) xs.

(** The calls [update(v, t)] for the vectors [vs] at times
    [first, first + 1, ...]. *)
Definition at_seconds_from (first : nat) (vs : list FeatureVector)
  : list (FeatureVector * Q) :=
  combine vs (map (fun n => inject_Z (Z.of_nat n)) (seq first (length vs))).

(** The duration of a stored window, or 30 when it is not positive. *)
Definition window_duration_or_30 (first : FeatureVector) : Q :=
  if Qle_bool (window_end first - window_start first) 0 then 30
  else window_end first - window_start first.

(** The profile a stored history determines. *)
Definition is_mean_profile (h : list FeatureVector) (first : FeatureVector)
           (p : BaselineProfile.t) : Prop :=
  BaselineProfile.avg_typing_speed p == arithmetic_mean (map avg_typing_speed h) /\
  BaselineProfile.avg_idle_duration p == arithmetic_mean (map avg_idle_duration h) /\
  BaselineProfile.avg_focus_rate p ==
    arithmetic_mean (map (fun fv => inject_Z (focus_loss_count fv)) h)
    * (60 / window_duration_or_30 first).

(** The weighted raw risk of a set of scores. *)
Definition weighted_raw_risk (s : AnomalyScores) : Q :=
  clip (0.4 * idle_burst s + 0.3 * focus_instability s + 0.3 * behavioral_drift s)
       0.0 100.0.

(** A buffer in chronological order, oldest event first. *)
Definition chronological (buffer : list FeatureExtractor.BaseEvent) : Prop :=
  StronglySorted
    (fun a b => FeatureExtractor.timestamp a <= FeatureExtractor.timestamp b)
    buffer.

(** The reference time of [compute_features]: the argument when given,
    else the time of the newest buffered event, else 0. *)
Definition reference_time (buffer : list FeatureExtractor.BaseEvent)
           (current_time : option Q) : Q :=
  match current_time with
  | Some ct => ct
  | None =>
    match FeatureExtractor.rightmost buffer with
    | Some newest => FeatureExtractor.timestamp newest
    | None => 0.0
    end
  end.

(** The focus-lost events, which [focus_loss_count] counts. *)
Definition is_focus_lost (ev : FeatureExtractor.BaseEvent) : bool :=
  match ev with
  | FeatureExtractor.FocusEvent _ FeatureExtractor.FOCUS_LOST _ => true
  | _ => false
  end.

(** The other kinds [compute_features] selects: key presses, idle periods
    and mouse moves, with the duration of an idle period and the position
    of a mouse event. *)
Definition is_key_press (ev : FeatureExtractor.BaseEvent) : bool :=
  match ev with
  | FeatureExtractor.KeystrokeEvent _ FeatureExtractor.KEY_PRESS => true
  | _ => false
  end.

Definition is_idle (ev : FeatureExtractor.BaseEvent) : bool :=
  match ev with
  | FeatureExtractor.IdleEvent _ _ _ => true
  | _ => false
  end.

Definition is_mouse_move (ev : FeatureExtractor.BaseEvent) : bool :=
  match ev with
  | FeatureExtractor.MouseEvent _ FeatureExtractor.MOUSE_MOVE _ _ => true
  | _ => false
  end.

Definition duration_of (ev : FeatureExtractor.BaseEvent) : Q :=
  match ev with
  | FeatureExtractor.IdleEvent _ _ duration => duration
  | _ => 0
  end.

Definition position_of (ev : FeatureExtractor.BaseEvent) : Q * Q :=
  match ev with
  | FeatureExtractor.MouseEvent _ _ x y => (x, y)
  | _ => (0, 0)
  end.

(** The times of the key presses, the durations of the idle periods and
    the mouse moves among [events], in the order of [events]. *)
Definition key_press_times (events : list FeatureExtractor.BaseEvent) : list Q :=
  map FeatureExtractor.timestamp (filter is_key_press events).

Definition idle_durations (events : list FeatureExtractor.BaseEvent) : list Q :=
  map duration_of (filter is_idle events).

Definition mouse_moves (events : list FeatureExtractor.BaseEvent)
  : list FeatureExtractor.BaseEvent :=
  filter is_mouse_move events.

(** The length of the polyline through [points], each segment measured
    with [sqrt]. *)
Fixpoint path_length (sqrt : Q -> Q) (points : list (Q * Q)) : Q :=
  match points with
  | p :: (q :: _) as rest =>
    sqrt ((fst q - fst p) * (fst q - fst p) + (snd q - snd p) * (snd q - snd p))
    + path_length sqrt rest
  | _ => 0
  end.

(** The features of [events] over a window of [wd] seconds: what each
    field of a vector [fv] is when it is computed from exactly these
    events.  The count is the number of focus-lost events; the idle
    duration is the mean of the idle durations; with [n >= 2] key presses
    the key interval is the time from the first to the last divided by
    [n - 1] and the typing speed is [n] presses per [wd] seconds, as a
    rate per minute; with two or more mouse moves the mouse speed is the
    length of the path divided by the time from the first to the last
    move. *)
Definition features_of (sqrt : Q -> Q) (wd : Q)
           (events : list FeatureExtractor.BaseEvent) (fv : FeatureVector)
  : Prop :=
  let presses := key_press_times events in
  let n := inject_Z (Z.of_nat (length presses)) in
  let idles := idle_durations events in
  let moves := mouse_moves events in
  let times := map FeatureExtractor.timestamp moves in
  let span := last times 0 - hd 0 times in
  focus_loss_count fv = Z.of_nat (length (filter is_focus_lost events)) /\
  (idles = [] -> avg_idle_duration fv == 0) /\
  (idles <> [] -> avg_idle_duration fv == arithmetic_mean idles) /\
  ((length presses < 2)%nat ->
     inter_key_interval fv == 0 /\ avg_typing_speed fv == 0) /\
  ((2 <= length presses)%nat ->
     inter_key_interval fv == (last presses 0 - hd 0 presses) / (n - 1) /\
     (0 < wd -> avg_typing_speed fv == n / wd * 60) /\
     (wd <= 0 -> avg_typing_speed fv == 0)) /\
  ((length moves < 2)%nat -> avg_mouse_speed fv == 0) /\
  ((2 <= length moves)%nat ->
     (0 < span ->
        avg_mouse_speed fv == path_length sqrt (map position_of moves) / span) /\
     (span <= 0 -> avg_mouse_speed fv == 0)).

(** A risk engine as [init] and [compute_risk] leave it: the weights of
    [__init__], at most [sw] stored values, each between [lo] and [hi]. *)
Definition engine_within (sw : nat) (lo hi : Q) (self : RiskEngine.t) : Prop :=
  RiskEngine.smoothing_window self = sw /\
  RiskEngine.weight_idle_burst self = 0.4 /\
  RiskEngine.weight_focus_instability self = 0.3 /\
  RiskEngine.weight_behavioral_drift self = 0.3 /\
  (length (RiskEngine._risk_history self) <= sw)%nat /\
  Forall (fun x => lo <= x <= hi) (RiskEngine._risk_history self).

(** The per-minute focus-loss rate of a window, 0 when the window has no
    positive duration. *)
Definition focus_rate (f : FeatureVector) : Q :=
  if Qle_bool (window_end f - window_start f) 0 then 0
  else inject_Z (focus_loss_count f) * (60 / (window_end f - window_start f)).

(** The three rules of [compute_scores], each read on its own: the score
    the rule assigns, or the exception its division raises. *)
Definition idle_to_burst (b : BaselineProfile.t) (f : FeatureVector)
  : Py.result Q :=
  if Py.gt (avg_idle_duration f) (BaselineProfile.avg_idle_duration b * 1.2) then
    if Py.gt (avg_typing_speed f) (1.3 * BaselineProfile.avg_typing_speed b) then
      ratio <- Py.div (avg_typing_speed f) (BaselineProfile.avg_typing_speed b) ;;
      Ok (Py.min 70.0 (Py.max 0.0 ((ratio - 1.3) * 100.0)))
    else Ok 0.0
  else Ok 0.0.

Definition focus_instability_rule (b : BaselineProfile.t) (f : FeatureVector)
  : Py.result Q :=
  focus_rate <-
    (if Py.gt (window_end f - window_start f) 0 then
       per_minute <- Py.div 60.0 (window_end f - window_start f) ;;
       Ok (Py.of_int (focus_loss_count f) * per_minute)
     else Ok 0.0) ;;
  if Py.gt focus_rate (1.5 * BaselineProfile.avg_focus_rate b) then
    ratio <- Py.div focus_rate (BaselineProfile.avg_focus_rate b) ;;
    Ok (Py.min 70.0 (Py.max 0.0 ((ratio - 1.5) * 100.0)))
  else Ok 0.0.

Definition behavioral_drift_rule (b : BaselineProfile.t) (f : FeatureVector)
  : Py.result Q :=
  if Py.gt (BaselineProfile.avg_typing_speed b) 0 then
    deviation_pct <-
      Py.div (Py.abs (avg_typing_speed f - BaselineProfile.avg_typing_speed b))
             (BaselineProfile.avg_typing_speed b) ;;
    if Py.gt deviation_pct 0.3 then
      Ok (Py.min 70.0 (Py.max 0.0 ((deviation_pct - 0.3) * 200.0)))
    else Ok 0.0
  else Ok 0.0.

(** A session as the loop keeps it: the detector holds the builder's
    baseline, the builder is well formed for 180 seconds, the buffer is
    chronological over a 30-second window, the engine smooths over 5 values
    between 0 and 70, and until a baseline is frozen the detector and the
    engine are as created. *)
Definition session_ok (s : Main.Session) : Prop :=
  ActivityShiftDetector._baseline (Main.detector s) =
    BaselineBuilder._baseline (Main.baseline_builder s) /\
  BaselineOps.well_formed 180.0 (Main.baseline_builder s) /\
  FeatureExtractor.window_duration (Main.extractor s) = 30.0 /\
  chronological (FeatureExtractor._event_buffer (Main.extractor s)) /\
  engine_within 5 0 70 (Main.risk_engine s) /\
  (BaselineBuilder._baseline (Main.baseline_builder s) = None ->
   Main.detector s = ActivityShiftDetector.init None /\
   Main.risk_engine s = RiskEngine.init 5).

(** What a run of loop turns yields: every emitted risk is between 0 and
    70, and a session that had a baseline emits a result on every turn. *)
Definition bounded_output (o : option (AnomalyScores * Q)) : Prop :=
  match o with
  | Some (_, r) => 0 <= r <= 70 /\ Dashboard.alert_level r <> Some Dashboard.HIGH
  | None => True
  end.

Definition is_some {A} (o : option A) : Prop := o <> None.

End Spec.

(** ** Sample sessions *)

Module Samples.

Import Random.

(** A generator whose every draw is [k]. *)
Definition constant_draws (k : N) : RandomState := mkRandomState (fun _ => k) 0.

(** Draws scaled by [random()] to [0], [1/2] and [15/16]. *)
Definition draw_zero : N := 0.
Definition draw_half : N := 4503599627370496.
Definition draw_high : N := 8444249301319680.

(** A baseline with typing speed 100, and a window typed at speed 250
    with no idle time. *)
Definition baseline_100 : BaselineProfile.t := BaselineProfile.mk 100 2 0.5.
Definition fast_typing : FeatureVector := mkFeatureVector 250 0 0%Z 0 0 0 30.

(** Baselines frozen over a calibration without typing, and without focus
    loss. *)
Definition baseline_no_typing : BaselineProfile.t := BaselineProfile.mk 0 2 0.5.
Definition baseline_no_focus_loss : BaselineProfile.t := BaselineProfile.mk 100 2 0.

(** A window with typing after a long idle period, one with a single focus
    loss, and a quiet one. *)
Definition burst_after_idle : FeatureVector := mkFeatureVector 100 5 0%Z 0 0 0 30.
Definition one_focus_loss : FeatureVector := mkFeatureVector 100 0 1%Z 0 0 0 30.
Definition quiet_window : FeatureVector := mkFeatureVector 100 0 0%Z 0 0 0 30.

(** A detector that has already served 20 calls. *)
Definition after_20_calls (b : BaselineProfile.t) : ActivityShiftDetector.t :=
  ActivityShiftDetector.mk (Some b) 20.

(** Scores whose three components are all [r]; their weighted sum is [r]. *)
Definition level (r : Q) : AnomalyScores := mkAnomalyScores r r r r.

(** The outcome of a run of [compute_risk] calls: the value returned last
    is [smoothed] and the stored sequence is, item by item, [history]. *)
Definition run_yields (r : Py.result (Q * RiskEngine.t)) (smoothed : Q)
           (history : list Q) : Prop :=
  match r with
  | Ok (x, self) =>
    x == smoothed /\ RiskEngine.current_risk self == smoothed /\
    Forall2 Qeq (RiskEngine._risk_history self) history
  | Raise _ => False
  end.

(** A stand-in for [math.sqrt] on rationals: the integer square root of
    the integer part. *)
Definition floor_sqrt (q : Q) : Q :=
  inject_Z (Z.sqrt (Qnum q / Zpos (Qden q))).


(** Events delivered out of order, two of them later than the reference
    time 50: key presses at 40, 45 and 70 and a focus loss at 100, with an
    expired key press at 10. *)
Definition with_future_events : list FeatureExtractor.op :=
  [FeatureExtractor.Add
     (FeatureExtractor.FocusEvent 100 FeatureExtractor.FOCUS_LOST true);
   FeatureExtractor.Add
     (FeatureExtractor.KeystrokeEvent 45 FeatureExtractor.KEY_PRESS);
   FeatureExtractor.Add
     (FeatureExtractor.KeystrokeEvent 10 FeatureExtractor.KEY_PRESS);
   FeatureExtractor.Add
     (FeatureExtractor.KeystrokeEvent 70 FeatureExtractor.KEY_PRESS);
   FeatureExtractor.Add
     (FeatureExtractor.KeystrokeEvent 40 FeatureExtractor.KEY_PRESS)].

(** The same deliveries without the two events later than time 50. *)
Definition without_future_events : list FeatureExtractor.op :=
  [FeatureExtractor.Add
     (FeatureExtractor.KeystrokeEvent 45 FeatureExtractor.KEY_PRESS);
   FeatureExtractor.Add
     (FeatureExtractor.KeystrokeEvent 10 FeatureExtractor.KEY_PRESS);
   FeatureExtractor.Add
     (FeatureExtractor.KeystrokeEvent 40 FeatureExtractor.KEY_PRESS)].

(** Mouse moves delivered out of order, one of them later than the
    reference time 50: at (0, 0) at time 40 and at (3, 4) at time 60, with
    an expired move at time 10 and an idle period of 8 seconds reported at
    time 90. *)
Definition with_future_moves : list FeatureExtractor.op :=
  [FeatureExtractor.Add
     (FeatureExtractor.MouseEvent 60 FeatureExtractor.MOUSE_MOVE 3 4);
   FeatureExtractor.Add
     (FeatureExtractor.IdleEvent 90 FeatureExtractor.IDLE_PERIOD 8);
   FeatureExtractor.Add
     (FeatureExtractor.MouseEvent 10 FeatureExtractor.MOUSE_MOVE 100 100);
   FeatureExtractor.Add
     (FeatureExtractor.MouseEvent 40 FeatureExtractor.MOUSE_MOVE 0 0)].

(** Three turns with one key press each, at times 0, 100 and 200. *)
Definition three_turns : list (list FeatureExtractor.BaseEvent) :=
  [[FeatureExtractor.KeystrokeEvent 0 FeatureExtractor.KEY_PRESS];
   [FeatureExtractor.KeystrokeEvent 100 FeatureExtractor.KEY_PRESS];
   [FeatureExtractor.KeystrokeEvent 200 FeatureExtractor.KEY_PRESS]].

(** A first turn without events, then one key press at time 1000. *)
Definition late_first_event : list FeatureExtractor.BaseEvent :=
  [FeatureExtractor.KeystrokeEvent 1000 FeatureExtractor.KEY_PRESS].

End Samples.

(** * Proofs *)

(** ** Basic facts about the Python comparisons *)

Lemma lt_true_iff (a b : Q) : Py.lt a b = true <-> a < b.
Proof.
  unfold Py.lt. rewrite negb_true_iff.
  split; intro H.
  - apply Qnot_le_lt. intro Hle. apply Qle_bool_iff in Hle. congruence.
  - destruct (Qle_bool b a) eqn:E; [|reflexivity].
    apply Qle_bool_iff in E. exfalso. apply (Qlt_not_le _ _ H E).
Qed.

Lemma lt_false_iff (a b : Q) : Py.lt a b = false <-> b <= a.
Proof.
  unfold Py.lt. rewrite negb_false_iff. apply Qle_bool_iff.
Qed.

Lemma gt_true_iff (a b : Q) : Py.gt a b = true <-> b < a.
Proof. unfold Py.gt. apply lt_true_iff. Qed.

Lemma gt_false_iff (a b : Q) : Py.gt a b = false <-> a <= b.
Proof. unfold Py.gt. apply lt_false_iff. Qed.

Lemma le_true_iff (a b : Q) : Py.le a b = true <-> a <= b.
Proof. unfold Py.le. apply Qle_bool_iff. Qed.

Lemma le_false_iff (a b : Q) : Py.le a b = false <-> b < a.
Proof.
  unfold Py.le. split; intro H.
  - apply Qnot_le_lt. intro Hle. apply Qle_bool_iff in Hle. congruence.
  - destruct (Qle_bool a b) eqn:E; [|reflexivity].
    apply Qle_bool_iff in E. exfalso. apply (Qlt_not_le _ _ H E).
Qed.

(** Python's [max] and [min] agree with the order-theoretic ones. *)
Lemma max_is_Qmax (a b : Q) : Py.max a b = Qmax a b.
Proof.
  unfold Py.max, Qmax, GenericMinMax.gmax.
  destruct (Py.gt b a) eqn:E.
  - apply gt_true_iff in E. rewrite Qlt_alt in E. now rewrite E.
  - apply gt_false_iff in E.
    destruct (a ?= b) eqn:C; try reflexivity.
    rewrite <- Qlt_alt in C. lra.
Qed.

Lemma min_is_Qmin (a b : Q) : Py.min a b = Qmin a b.
Proof.
  unfold Py.min, Qmin, GenericMinMax.gmin.
  destruct (Py.lt b a) eqn:E.
  - apply lt_true_iff in E. rewrite Qgt_alt in E. now rewrite E.
  - apply lt_false_iff in E.
    destruct (a ?= b) eqn:C; try reflexivity.
    rewrite <- Qgt_alt in C. lra.
Qed.

Lemma clip_range (lo hi x : Q) :
  lo <= hi -> lo <= Py.min hi (Py.max lo x) <= hi.
Proof.
  intro H. unfold Py.min, Py.max.
  destruct (Py.gt x lo) eqn:E1; [apply gt_true_iff in E1 | apply gt_false_iff in E1].
  - destruct (Py.lt x hi) eqn:E2; [apply lt_true_iff in E2 | apply lt_false_iff in E2]; lra.
  - destruct (Py.lt lo hi) eqn:E2; [apply lt_true_iff in E2 | apply lt_false_iff in E2]; lra.
Qed.

Lemma div_ok (a b : Q) : ~ b == 0 -> Py.div a b = Ok (a / b).
Proof.
  intro H. unfold Py.div.
  destruct (Qeq_bool b 0) eqn:E; [|reflexivity].
  apply Qeq_bool_eq in E. contradiction.
Qed.

Lemma div_inv (a b q : Q) : Py.div a b = Ok q -> ~ b == 0 /\ q = a / b.
Proof.
  unfold Py.div. destruct (Qeq_bool b 0) eqn:E; [discriminate|].
  intro H. injection H as <-. split; [|reflexivity].
  now apply Qeq_bool_neq.
Qed.

(** ** The anomaly scorer *)

Module DetectorFacts.

Import Random ActivityShiftDetector.

(** A draw of [random()] lies in the unit interval. *)
Lemma random_unit (g : RandomState) : 0 <= fst (random g) < 1.
Proof.
  unfold random. cbn [fst].
  set (k := N.modulo (tape g (cursor g)) (Npos two53)).
  assert (Hk : (k < Npos two53)%N) by (apply N.mod_lt; discriminate).
  unfold Qle, Qlt. cbn [Qnum Qden]. split; [lia|].
  rewrite Z.mul_1_r, Z.mul_1_l. change (Z.pos two53) with (Z.of_N (Npos two53)).
  lia.
Qed.

Lemma uniform_30_80 (g : RandomState) : 30 <= fst (uniform 30 80 g) < 80.
Proof.
  unfold uniform. pose proof (random_unit g) as H.
  destruct (random g) as [r g']. cbn [fst] in *. lra.
Qed.

Lemma bind_ok_inv {A B} (r : Py.result A) (k : A -> Py.result B) (b : B) :
  Py.bind r k = Ok b -> exists a, r = Ok a /\ k a = Ok b.
Proof.
  destruct r as [a|e]; cbn; [|discriminate]. intro H. now exists a.
Qed.

(** The rule-based branch of [compute_scores], as the code computes it when
    the call counter is at most 20. *)
Lemma rule_branch_shape (self : t) (g : RandomState) (features : FeatureVector)
      (s : AnomalyScores) :
  (_baseline self <> None /\ (20 <? S (counter self))%nat = false) ->
  fst (fst (compute_scores self g features)) = Ok s ->
  exists sc,
    s = set_overall sc (Py.max3 (idle_burst sc) (focus_instability sc)
                                (behavioral_drift sc)).
Proof.
  intros [Hb Hc]. unfold compute_scores.
  destruct (_baseline self) as [b|]; [|congruence].
  cbn [counter]. rewrite Hc. cbn [fst]. intro H.
  apply bind_ok_inv in H as (s1 & _ & H).
  apply bind_ok_inv in H as (fr & _ & H).
  apply bind_ok_inv in H as (s2 & _ & H).
  apply bind_ok_inv in H as (s3 & _ & H).
  injection H as <-. now exists s3.
Qed.

(** C7.  Whenever [compute_scores] returns scores -- with or without a
    baseline, on any call count and for any draws of the generator -- their
    [overall] field is the maximum of the [idle_burst], [focus_instability]
    and [behavioral_drift] fields of the same result. *)
Theorem compute_scores_overall_is_max
        (self : t) (g : RandomState) (features : FeatureVector)
        (s : AnomalyScores) :
  fst (fst (compute_scores self g features)) = Ok s ->
  overall s = Qmax (Qmax (idle_burst s) (focus_instability s))
                   (behavioral_drift s).
Proof.
  intro H.
  destruct (_baseline self) as [b|] eqn:Hb.
  - destruct (20 <? S (counter self))%nat eqn:Hc.
    + (* the branch taken after 20 calls *)
      unfold compute_scores in H. rewrite Hb in H. cbn [counter] in H.
      rewrite Hc in H.
      destruct (random g) as [rand g1].
      pose proof (uniform_30_80 g1) as Hu.
      destruct (uniform 30 80 g1) as [u g2]. cbn [fst] in Hu.
      assert (Hu0 : Qmax u 0 = u).
      { rewrite <- max_is_Qmax. unfold Py.max.
        destruct (Py.gt 0 u) eqn:E; [|reflexivity].
        apply gt_true_iff in E. lra. }
      assert (H0u : Qmax 0 u = u).
      { rewrite <- max_is_Qmax. unfold Py.max.
        destruct (Py.gt u 0) eqn:E; [reflexivity|].
        apply gt_false_iff in E. lra. }
      destruct (Py.lt rand 0.33); [|destruct (Py.lt rand 0.66)];
        cbn in H; injection H as <-; cbn;
        change (Qmax 0 0) with 0;
        repeat first [rewrite Hu0 | rewrite H0u]; reflexivity.
    + destruct (rule_branch_shape self g features s) as [sc ->]; auto.
      { split; [congruence|assumption]. }
      cbn. unfold Py.max3. now rewrite !max_is_Qmax.
  - unfold compute_scores in H. rewrite Hb in H. cbn in H.
    injection H as <-. reflexivity.
Qed.

Import Samples.

Lemma compute_scores_overall_is_max_witness :
  exists s,
    fst (fst (compute_scores (init (Some baseline_100)) (constant_draws draw_zero)
                             fast_typing)) = Ok s /\
    overall s = Qmax (Qmax (idle_burst s) (focus_instability s))
                     (behavioral_drift s).
Proof.
  eexists. split.
  - reflexivity.
  - apply (compute_scores_overall_is_max
             (init (Some baseline_100)) (constant_draws draw_zero) fast_typing).
    reflexivity.
Defined.

(** In the rule-based branch every component score is clipped to [0, 70]. *)
Lemma rule_branch_scores_in_range
      (self : t) (g : RandomState) (features : FeatureVector) (s : AnomalyScores) :
  (_baseline self <> None /\ (20 <? S (counter self))%nat = false) ->
  fst (fst (compute_scores self g features)) = Ok s ->
  0 <= idle_burst s <= 70 /\
  0 <= focus_instability s <= 70 /\
  0 <= behavioral_drift s <= 70.
Proof.
  intros [Hb Hc]. unfold compute_scores.
  destruct (_baseline self) as [b|]; [|congruence].
  cbn [counter]. rewrite Hc. cbn [fst]. intro H.
  assert (Hclip : forall x, 0 <= Py.min 70.0 (Py.max 0.0 x) <= 70).
  { intro x. pose proof (clip_range 0.0 70.0 x). lra. }
  apply bind_ok_inv in H as (s1 & H1 & H).
  apply bind_ok_inv in H as (fr & _ & H).
  apply bind_ok_inv in H as (s2 & H2 & H).
  apply bind_ok_inv in H as (s3 & H3 & H).
  injection H as <-. cbn [idle_burst focus_instability behavioral_drift set_overall].
  assert (A1 : 0 <= idle_burst s1 <= 70).
  { destruct (Py.gt (avg_idle_duration features) _) in H1;
      [destruct (Py.gt (avg_typing_speed features) _) in H1|].
    - apply bind_ok_inv in H1 as (ratio & _ & H1). injection H1 as <-.
      cbn. apply Hclip.
    - injection H1 as <-. cbn. lra.
    - injection H1 as <-. cbn. lra. }
  assert (A2 : 0 <= idle_burst s2 <= 70 /\ 0 <= focus_instability s2 <= 70).
  { destruct (Py.gt fr _) in H2.
    - apply bind_ok_inv in H2 as (ratio & _ & H2). injection H2 as <-.
      cbn. split; [exact A1 | apply Hclip].
    - injection H2 as <-. cbn. split; [exact A1 | lra]. }
  destruct A2 as [A2 A2'].
  destruct (Py.gt (BaselineProfile.avg_typing_speed b) 0) in H3.
  - apply bind_ok_inv in H3 as (dev & _ & H3).
    destruct (Py.gt dev 0.3) in H3; injection H3 as <-; cbn;
      repeat split; try tauto; try apply Hclip; lra.
  - injection H3 as <-. cbn. repeat split; try tauto; lra.
Qed.

(** C1.  [compute_scores] is not a function of the feature vector and the
    baseline alone: on one detector fed the same window 21 times, the first
    20 calls return the rule-based scores and the 21st returns scores drawn
    from the generator, which change with the draws. *)
Theorem compute_scores_randomized_after_20_calls :
  let rule_based := Ok (mkAnomalyScores 0 0 70 70) in
  let outcomes (k : N) :=
    run (init (Some baseline_100)) (constant_draws k) (repeat fast_typing 21) in
  Forall (fun r => same_outcome r rule_based) (firstn 20 (outcomes draw_zero)) /\
  same_outcome (nth 20 (outcomes draw_zero) rule_based)
               (Ok (mkAnomalyScores 30 0 0 30)) /\
  same_outcome (nth 20 (outcomes draw_half) rule_based)
               (Ok (mkAnomalyScores 0 55 0 55)) /\
  ~ same_outcome (nth 0 (outcomes draw_zero) rule_based)
                 (nth 20 (outcomes draw_zero) rule_based) /\
  ~ same_outcome (nth 20 (outcomes draw_zero) rule_based)
                 (nth 20 (outcomes draw_half) rule_based).
Proof.
  cbv zeta. split; [|split; [|split; [|split]]].
  - repeat (constructor; [vm_compute; repeat split; reflexivity|]).
    constructor.
  - vm_compute. repeat split; reflexivity.
  - vm_compute. repeat split; reflexivity.
  - vm_compute. intros (H & _). discriminate.
  - vm_compute. intros (H & _). discriminate.
Qed.

(** C2.  With a baseline typing speed of 0 the Idle-to-Burst rule divides by
    it, and with a baseline focus rate of 0 the Focus Instability rule
    divides by it: both calls raise [ZeroDivisionError].  Only the
    Behavioral Drift rule tests its divisor and scores 0. *)
Theorem compute_scores_zero_baseline_raises :
  fst (fst (compute_scores (init (Some baseline_no_typing))
                           (constant_draws draw_zero) burst_after_idle))
    = Raise ZeroDivisionError /\
  fst (fst (compute_scores (init (Some baseline_no_focus_loss))
                           (constant_draws draw_zero) one_focus_loss))
    = Raise ZeroDivisionError /\
  same_outcome
    (fst (fst (compute_scores (init (Some baseline_no_typing))
                              (constant_draws draw_zero) quiet_window)))
    (Ok (mkAnomalyScores 0 0 0 0)).
Proof.
  split; [|split]; vm_compute; repeat split; reflexivity.
Qed.

(** C3.  On the 21st call the score is [uniform(30, 80)], which the draw
    [15/16] puts at [76.875], above the cap of 70. *)
Theorem compute_scores_score_above_cap :
  exists s,
    fst (fst (compute_scores (after_20_calls baseline_100)
                             (constant_draws draw_high) fast_typing)) = Ok s /\
    behavioral_drift s == 76.875 /\
    ~ behavioral_drift s <= 70.
Proof.
  eexists. split; [reflexivity|]. split.
  - vm_compute. reflexivity.
  - vm_compute. intro H. apply H. reflexivity.
Qed.

End DetectorFacts.

(** ** The baseline calibrator *)

Module BaselineFacts.

Import BaselineBuilder Spec.

Lemma sum_is_total_from (xs : list Q) (a : Q) :
  fold_left Qplus xs a == a + total xs.
Proof.
  revert a. induction xs as [|x xs IH]; intro a; cbn [fold_left total fold_right].
  - lra.
  - fold (total xs). rewrite IH. lra.
Qed.

Lemma sum_is_total (xs : list Q) : Py.sum xs == total xs.
Proof. unfold Py.sum. rewrite sum_is_total_from. lra. Qed.

(** What the accumulation loop of [_build_baseline] leaves in its four
    variables. *)
Lemma accumulate_totals (h : list FeatureVector) (a b c : Q) (n : Z) :
  let '(a', b', c', n') := fold_left accumulate h (a, b, c, n) in
  a' == a + total (map avg_typing_speed h) /\
  b' == b + total (map avg_idle_duration h) /\
  c' == c + total (map (fun fv => Py.of_int (focus_loss_count fv)) h) /\
  n' = (n + Z.of_nat (length h))%Z.
Proof.
  revert a b c n. induction h as [|fv h IH]; intros a b c n.
  - cbn [fold_left map total fold_right length Z.of_nat].
    repeat split; try lra. lia.
  - cbn [fold_left accumulate].
    specialize (IH (a + avg_typing_speed fv) (b + avg_idle_duration fv)
                   (c + Py.of_int (focus_loss_count fv)) (n + 1)%Z).
    destruct (fold_left accumulate h _) as [[[a' b'] c'] n'].
    destruct IH as (Ha & Hb & Hc & Hn). cbn [map total fold_right length].
    repeat split; try (rewrite ?Ha, ?Hb, ?Hc; unfold total; lra). lia.
Qed.

Lemma of_int_pos_nonzero (n : Z) : (0 < n)%Z -> ~ Py.of_int n == 0.
Proof.
  intros Hn H. unfold Py.of_int, Qeq in H. cbn in H. lia.
Qed.

Lemma window_duration_or_30_pos (first : FeatureVector) :
  0 < window_duration_or_30 first.
Proof.
  unfold window_duration_or_30.
  destruct (Qle_bool _ 0) eqn:E; [lra|].
  apply le_false_iff in E. exact E.
Qed.

(** [_build_baseline] on a non-empty history returns, clears the history
    and stores the means. *)
Lemma build_baseline_nonempty (self : t) (first : FeatureVector)
      (rest : list FeatureVector) :
  _feature_history self = first :: rest ->
  exists p,
    _build_baseline self =
      Ok (mk (calibration_duration self) [] (Some p) (_calibration_start self)) /\
    is_mean_profile (first :: rest) first p.
Proof.
  intro Hh. unfold _build_baseline. rewrite Hh.
  pose proof (accumulate_totals (first :: rest) 0.0 0.0 0.0 0%Z) as Hacc.
  destruct (fold_left accumulate (first :: rest) _) as [[[a b] c] n].
  destruct Hacc as (Ha & Hb & Hc & Hn).
  assert (Hpos : (0 < n)%Z) by (rewrite Hn; cbn [length]; lia).
  pose proof (of_int_pos_nonzero n Hpos) as Hnz.
  rewrite !(div_ok _ _ Hnz). cbn [Py.bind].
  apply Z.ltb_lt in Hpos. rewrite Hpos. cbn [Py.bind].
  pose proof (window_duration_or_30_pos first) as Hwd.
  assert (Hsame :
    (if Py.le (window_end first - window_start first) 0 then 30.0
     else window_end first - window_start first) == window_duration_or_30 first).
  { unfold window_duration_or_30, Py.le. destruct (Qle_bool _ 0); reflexivity. }
  rewrite div_ok by (rewrite Hsame; lra). cbn [Py.bind].
  eexists. split; [reflexivity|].
  assert (Hlen : Py.of_int n == inject_Z (Z.of_nat (length (first :: rest)))).
  { unfold Py.of_int. rewrite Hn. reflexivity. }
  unfold is_mean_profile, arithmetic_mean.
  cbn [BaselineProfile.avg_typing_speed BaselineProfile.avg_idle_duration BaselineProfile.avg_focus_rate].
  rewrite !length_map, Ha, Hb, Hc, Hlen, Hsame.
  unfold Py.of_int.
  repeat split.
  - apply Qdiv_comp; [lra | reflexivity].
  - apply Qdiv_comp; [lra | reflexivity].
  - apply Qmult_comp.
    + apply Qdiv_comp; [lra | reflexivity].
    + apply Qdiv_comp; reflexivity.
Qed.

Lemma update_calibrating_within (self : t) (start : Q)
      (features : FeatureVector) (at_time : Q) :
  _baseline self = None ->
  _calibration_start self = Some start ->
  at_time - start <= calibration_duration self ->
  update self features at_time =
    Ok (mk (calibration_duration self) (_feature_history self ++ [features])
           None (Some start)).
Proof.
  intros Hb Hs Hle. unfold update. rewrite Hb, Hs.
  apply le_true_iff in Hle. rewrite Hle. now rewrite Hb, Hs.
Qed.

Lemma update_calibrating_elapsed (self : t) (start : Q)
      (features : FeatureVector) (at_time : Q) :
  _baseline self = None ->
  _calibration_start self = Some start ->
  calibration_duration self < at_time - start ->
  update self features at_time = _build_baseline self.
Proof.
  intros Hb Hs Hlt. unfold update. rewrite Hb, Hs.
  apply le_false_iff in Hlt. now rewrite Hlt.
Qed.

(** The first [update] on a fresh builder starts the calibration at the
    time of the call and records the vector. *)
Lemma update_uninitialized (d : Q) (features : FeatureVector) (at_time : Q) :
  0 <= d ->
  update (init d) features at_time = Ok (mk d [features] None (Some at_time)).
Proof.
  intro Hd. unfold update, init. cbn.
  assert (H : Py.le (at_time - at_time) d = true) by (apply le_true_iff; lra).
  now rewrite H.
Qed.

(** A run of calls that all fall within the calibration period records
    every vector, in order. *)
Lemma feed_within (calls : list (FeatureVector * Q)) (self : t) (start : Q) :
  _baseline self = None ->
  _calibration_start self = Some start ->
  Forall (fun c => snd c - start <= calibration_duration self) calls ->
  feed self calls =
    Ok (mk (calibration_duration self)
           (_feature_history self ++ map fst calls) None (Some start)).
Proof.
  revert self. induction calls as [|[fv t] calls IH]; intros self Hb Hs Hall.
  - cbn. rewrite app_nil_r. destruct self; cbn in *. now subst.
  - inversion Hall as [|c cs Hc Hcs]; subst. cbn [snd] in Hc.
    cbn [feed]. rewrite (update_calibrating_within self start fv t Hb Hs Hc).
    cbn [Py.bind]. rewrite IH by (cbn; auto).
    cbn. now rewrite <- app_assoc.
Qed.

Lemma feed_app (l1 l2 : list (FeatureVector * Q)) (self : t) :
  feed self (l1 ++ l2) = (self' <- feed self l1 ;; feed self' l2).
Proof.
  revert self. induction l1 as [|[fv t] l1 IH]; intro self; cbn.
  - reflexivity.
  - destruct (update self fv t); cbn; auto.
Qed.

Lemma at_seconds_from_times (first : nat) (vs : list FeatureVector) (bound : Z) :
  (Z.of_nat (first + length vs) <= bound)%Z ->
  Forall (fun c => snd c - 0 <= inject_Z bound) (at_seconds_from first vs).
Proof.
  intro Hb. apply Forall_forall. intros [v t] Hin. cbn [snd].
  apply in_combine_r, in_map_iff in Hin. destruct Hin as (k & <- & Hk).
  apply in_seq in Hk.
  assert (H : inject_Z (Z.of_nat k) <= inject_Z bound).
  { rewrite <- Zle_Qle. lia. }
  lra.
Qed.

Lemma at_seconds_from_vectors (first : nat) (vs : list FeatureVector) :
  map fst (at_seconds_from first vs) = vs.
Proof.
  unfold at_seconds_from. revert first.
  induction vs as [|v vs IH]; intro first; cbn; [reflexivity|].
  now rewrite IH.
Qed.

Import Samples.

(** C4.  While calibrating, [update] at a time within [calibration_duration]
    of the start appends the feature vector; the first [update] past it
    freezes, from the stored vectors alone, the means of their
    [avg_typing_speed] and [avg_idle_duration] and the mean
    [focus_loss_count] times [60 / window_duration], the duration being that
    of the first stored vector, or 30 when it is not positive.  With
    [calibration_duration = 180], vectors at [t = 0 .. 179] and then one at
    [t = 181] freeze the profile of the first 180. *)
Theorem update_calibrates_then_freezes_means :
  (forall self start features at_time,
     _baseline self = None ->
     _calibration_start self = Some start ->
     at_time - start <= calibration_duration self ->
     update self features at_time =
       Ok (mk (calibration_duration self) (_feature_history self ++ [features])
              None (Some start))) /\
  (forall self start features at_time first rest,
     _baseline self = None ->
     _calibration_start self = Some start ->
     calibration_duration self < at_time - start ->
     _feature_history self = first :: rest ->
     exists p,
       update self features at_time =
         Ok (mk (calibration_duration self) [] (Some p) (Some start)) /\
       is_mean_profile (first :: rest) first p) /\
  (forall vs trigger first,
     length vs = 180%nat ->
     hd_error vs = Some first ->
     exists p,
       feed (init 180) (at_seconds_from 0 vs ++ [(trigger, 181)]) =
         Ok (mk 180 [] (Some p) (Some 0)) /\
       is_mean_profile vs first p).
Proof.
  split; [|split].
  - exact update_calibrating_within.
  - intros self start features at_time first rest Hb Hs Hlt Hh.
    rewrite (update_calibrating_elapsed self start features at_time Hb Hs Hlt).
    destruct (build_baseline_nonempty self first rest Hh) as (p & Hp & Hm).
    exists p. split; [|exact Hm]. now rewrite Hp, Hs.
  - intros vs trigger first Hlen Hhd.
    destruct vs as [|v vs]; [discriminate|]. injection Hhd as ->.
    rewrite feed_app.
    change (at_seconds_from 0 (first :: vs))
      with ((first, inject_Z 0) :: at_seconds_from 1 vs).
    cbn [feed]. rewrite update_uninitialized by lra. cbn [Py.bind].
    rewrite (feed_within _ _ 0) by
      (try reflexivity; apply (at_seconds_from_times 1 vs 180);
       cbn [length] in Hlen; lia).
    cbn [Py.bind calibration_duration _feature_history app feed].
    rewrite at_seconds_from_vectors.
    set (st := mk 180 (first :: vs) None (Some 0)).
    rewrite (update_calibrating_elapsed st 0 trigger 181) by
      (try reflexivity; cbn; lra).
    destruct (build_baseline_nonempty st first vs eq_refl) as (p & Hp & Hm).
    exists p. split; [|exact Hm]. rewrite Hp. reflexivity.
Qed.

Lemma update_calibrates_then_freezes_means_witness :
  update (mk 180 [quiet_window] None (Some 0)) fast_typing 100 =
    Ok (mk 180 [quiet_window; fast_typing] None (Some 0)) /\
  (exists p,
     update (mk 180 [quiet_window; fast_typing] None (Some 0)) burst_after_idle 181 =
       Ok (mk 180 [] (Some p) (Some 0)) /\
     is_mean_profile [quiet_window; fast_typing] quiet_window p) /\
  (exists p,
     feed (init 180)
          (at_seconds_from 0 (repeat fast_typing 180) ++ [(quiet_window, 181)]) =
       Ok (mk 180 [] (Some p) (Some 0)) /\
     is_mean_profile (repeat fast_typing 180) fast_typing p).
Proof.
  destruct update_calibrates_then_freezes_means as (A & B & C).
  split; [|split].
  - apply (A (mk 180 [quiet_window] None (Some 0)) 0 fast_typing 100);
      try reflexivity.
    vm_compute. discriminate.
  - apply (B (mk 180 [quiet_window; fast_typing] None (Some 0)) 0
             burst_after_idle 181 quiet_window [fast_typing]);
      try reflexivity.
  - apply (C (repeat fast_typing 180) quiet_window fast_typing); reflexivity.
Defined.

(** C8.  Once a baseline is frozen, [update] returns at once for any
    arguments: the builder, and so its baseline and its history, are left as
    they were, over any number of calls; [reset] is what clears the
    baseline. *)
Theorem update_after_calibrated_is_noop (self : t) :
  is_calibrated self = true ->
  (forall features at_time, update self features at_time = Ok self) /\
  (forall calls, feed self calls = Ok self) /\
  is_calibrated (reset self) = false /\
  baseline (reset self) = None.
Proof.
  unfold is_calibrated. intro Hc.
  assert (Hu : forall features at_time, update self features at_time = Ok self).
  { intros features at_time. unfold update.
    destruct (_baseline self); [reflexivity | discriminate]. }
  split; [exact Hu|]. split; [|split; reflexivity].
  induction calls as [|[fv t] calls IH]; cbn; [reflexivity|].
  rewrite Hu. exact IH.
Qed.

Lemma update_after_calibrated_is_noop_witness :
  let frozen := mk 180 [] (Some baseline_100) (Some 0) in
  update frozen fast_typing 500 = Ok frozen /\
  feed frozen [(fast_typing, 1); (quiet_window, 1000)] = Ok frozen.
Proof.
  cbv zeta.
  destruct (update_after_calibrated_is_noop
              (mk 180 [] (Some baseline_100) (Some 0)) eq_refl) as (A & B & _).
  split; [apply A | apply B].
Defined.

(** C9.  When the calibration period ends with no stored vector,
    [_build_baseline] returns normally with the fixed profile
    [(150.0, 2.0, 0.5)], and so does the [update] that ends the period. *)
Theorem empty_history_gives_default_profile (self : t) :
  _feature_history self = [] ->
  _build_baseline self =
    Ok (mk (calibration_duration self) []
           (Some (BaselineProfile.mk 150.0 2.0 0.5)) (_calibration_start self)) /\
  (forall start features at_time,
     _baseline self = None ->
     _calibration_start self = Some start ->
     calibration_duration self < at_time - start ->
     update self features at_time =
       Ok (mk (calibration_duration self) []
              (Some (BaselineProfile.mk 150.0 2.0 0.5)) (Some start))).
Proof.
  intro Hh.
  assert (Hb : _build_baseline self =
    Ok (mk (calibration_duration self) []
           (Some (BaselineProfile.mk 150.0 2.0 0.5)) (_calibration_start self))).
  { unfold _build_baseline. rewrite Hh. reflexivity. }
  split; [exact Hb|].
  intros start features at_time Hn Hs Hlt.
  rewrite (update_calibrating_elapsed self start features at_time Hn Hs Hlt).
  now rewrite Hb, Hs.
Qed.

Lemma empty_history_gives_default_profile_witness :
  update (start_calibration (init 180) 0) fast_typing 200 =
    Ok (mk 180 [] (Some (BaselineProfile.mk 150.0 2.0 0.5)) (Some 0)).
Proof.
  destruct (empty_history_gives_default_profile
              (start_calibration (init 180) 0) eq_refl) as (_ & U).
  apply (U 0 fast_typing 200); try reflexivity.
Defined.

End BaselineFacts.

(** ** The risk aggregator *)

Module RiskFacts.

Import RiskEngine Spec.

(** Appending to the bounded deque keeps the last [maxlen] items. *)
Lemma deque_append_last_n (n : nat) (xs : list Q) (x : Q) :
  deque_append n (last_n n xs) x = last_n n (xs ++ [x]).
Proof.
  unfold deque_append, last_n.
  rewrite !length_app, length_skipn. cbn [length].
  destruct (Nat.ltb_spec n (length xs - (length xs - n) + 1)) as [Hlt|Hge].
  - (* the deque was full *)
    assert (Hn : (n <= length xs)%nat) by lia.
    replace (tl (skipn (length xs - n) xs ++ [x]))
      with (skipn 1 (skipn (length xs - n) xs ++ [x])) by reflexivity.
    rewrite !skipn_app, skipn_skipn, length_skipn.
    replace (1 + (length xs - n))%nat with (length xs + 1 - n)%nat by lia.
    replace (1 - (length xs - (length xs - n)))%nat
      with (length xs + 1 - n - length xs)%nat by lia.
    reflexivity.
  - assert (Hn : (length xs < n)%nat) by lia.
    replace (length xs - n)%nat with 0%nat by lia.
    replace (length xs + 1 - n)%nat with 0%nat by lia.
    reflexivity.
Qed.

Lemma len_nonzero {A} (xs : list A) : (0 < length xs)%nat -> ~ Py.len xs == 0.
Proof.
  intros Hn H. unfold Py.len, Qeq in H. cbn in H. lia.
Qed.

(** One call of [compute_risk] on an engine with the weights of [init]. *)
Lemma compute_risk_step (sw : nat) (h : list Q) (lr ls : Q) (s : AnomalyScores) :
  (0 < sw)%nat ->
  let h' := deque_append sw h (weighted_raw_risk s) in
  compute_risk (mk sw h lr ls 0.4 0.3 0.3) s =
    Ok (Py.sum h' / Py.len h',
        mk sw h' (weighted_raw_risk s) (Py.sum h' / Py.len h') 0.4 0.3 0.3).
Proof.
  intros Hsw h'. unfold compute_risk.
  cbn [weight_idle_burst weight_focus_instability weight_behavioral_drift
       smoothing_window _risk_history].
  rewrite max_is_Qmax, min_is_Qmin.
  change (Qmax 0.0 (Qmin 100.0 _)) with (weighted_raw_risk s). fold h'.
  assert (Hlen : (0 < length h')%nat).
  { unfold h', deque_append.
    destruct (Nat.ltb_spec sw (length (h ++ [weighted_raw_risk s]))) as [Hlt|Hge];
      rewrite length_app in *; cbn [length] in *.
    - destruct h; cbn in *; [lia|]. rewrite length_app. cbn. lia.
    - lia. }
  apply Nat.ltb_lt in Hlen as Hb. rewrite Hb.
  rewrite (div_ok _ _ (len_nonzero h' Hlen)). reflexivity.
Qed.

(** A run of calls from any engine whose deque holds the last
    [smoothing_window] raw values of the calls before. *)
Lemma feed_invariant (sw : nat) (inputs prev : list AnomalyScores)
      (lr ls last : Q) (s : AnomalyScores) :
  (0 < sw)%nat ->
  let h := last_n sw (map weighted_raw_risk (prev ++ inputs ++ [s])) in
  feed (mk sw (last_n sw (map weighted_raw_risk prev)) lr ls 0.4 0.3 0.3)
       last (inputs ++ [s]) =
    Ok (Py.sum h / Py.len h,
        mk sw h (weighted_raw_risk s) (Py.sum h / Py.len h) 0.4 0.3 0.3).
Proof.
  intro Hsw. revert prev lr ls last.
  induction inputs as [|i inputs IH]; intros prev lr ls last h.
  - cbn [app feed]. rewrite compute_risk_step by assumption.
    cbn [Py.bind fst snd feed]. unfold h.
    rewrite deque_append_last_n, map_app. reflexivity.
  - cbn [app feed]. rewrite compute_risk_step by assumption.
    cbn [Py.bind fst snd]. rewrite deque_append_last_n.
    change [weighted_raw_risk i] with (map weighted_raw_risk [i]).
    rewrite <- map_app.
    rewrite (IH (prev ++ [i])). unfold h.
    now rewrite <- !app_assoc.
Qed.

Import Samples.

(** C5.  Each [compute_risk] call clips the weighted sum
    [0.4 idle_burst + 0.3 focus_instability + 0.3 behavioral_drift] to
    [0, 100], appends it to a sequence that keeps the last
    [smoothing_window] raw values, and returns the arithmetic mean of that
    sequence.  With a window of 5, the raw values [10, 20, 30, 40, 50] give
    [30.0], and a sixth value [60] evicts [10] and gives [40.0]. *)
Theorem compute_risk_moving_average :
  (forall sw inputs s,
     (0 < sw)%nat ->
     exists smoothed self',
       feed (init sw) 0.0 (inputs ++ [s]) = Ok (smoothed, self') /\
       raw_risk self' = weighted_raw_risk s /\
       _risk_history self' = last_n sw (map weighted_raw_risk (inputs ++ [s])) /\
       (length (_risk_history self') <= sw)%nat /\
       smoothed == arithmetic_mean (_risk_history self') /\
       current_risk self' = smoothed) /\
  run_yields (feed (init default_smoothing_window) 0.0
                   (map level [10; 20; 30; 40; 50]))
             30.0 [10; 20; 30; 40; 50] /\
  run_yields (feed (init default_smoothing_window) 0.0
                   (map level [10; 20; 30; 40; 50; 60]))
             40.0 [20; 30; 40; 50; 60].
Proof.
  split; [|split].
  - intros sw inputs s Hsw.
    pose proof (feed_invariant sw inputs [] 0.0 0.0 0.0 s Hsw) as H.
    cbn zeta in H. cbn [app map] in H.
    change (last_n sw []) with (@nil Q) in H.
    do 2 eexists. split; [exact H|].
    cbn [raw_risk current_risk _last_raw_risk _last_smoothed_risk _risk_history].
    repeat split.
    + unfold last_n. rewrite length_skipn. lia.
    + unfold arithmetic_mean, Py.len.
      now rewrite BaselineFacts.sum_is_total.
  - vm_compute. repeat split; repeat constructor.
  - vm_compute. repeat split; repeat constructor.
Qed.

Lemma compute_risk_moving_average_witness :
  exists smoothed self',
    feed (init 5) 0.0 (map level [10; 20] ++ [level 30]) = Ok (smoothed, self') /\
    raw_risk self' = weighted_raw_risk (level 30) /\
    _risk_history self' =
      last_n 5 (map weighted_raw_risk (map level [10; 20] ++ [level 30])) /\
    (length (_risk_history self') <= 5)%nat /\
    smoothed == arithmetic_mean (_risk_history self') /\
    current_risk self' = smoothed.
Proof.
  apply (proj1 compute_risk_moving_average 5%nat (map level [10; 20]) (level 30)).
  lia.
Defined.

End RiskFacts.

(** ** The feature extractor *)

Module ExtractorFacts.

Import FeatureExtractor Spec.

Lemma rightmost_inv (buffer : list BaseEvent) (newest : BaseEvent) :
  rightmost buffer = Some newest ->
  exists older, buffer = older ++ [newest].
Proof.
  unfold rightmost. destruct (rev buffer) as [|e r] eqn:E; [discriminate|].
  intro H. injection H as ->. exists (rev r).
  rewrite <- (rev_involutive buffer), E. reflexivity.
Qed.

Lemma rightmost_none (buffer : list BaseEvent) :
  rightmost buffer = None -> buffer = [].
Proof.
  unfold rightmost. destruct (rev buffer) as [|e r] eqn:E; [|discriminate].
  intros _. rewrite <- (rev_involutive buffer), E. reflexivity.
Qed.

Lemma chronological_snoc (buffer : list BaseEvent) (event : BaseEvent) :
  chronological buffer ->
  Forall (fun e => timestamp e <= timestamp event) buffer ->
  chronological (buffer ++ [event]).
Proof.
  unfold chronological. induction 1 as [|e rest Hs IH Hall]; intro Hle; cbn.
  - repeat constructor.
  - inversion Hle as [|? ? He Hrest]; subst. constructor.
    + apply IH, Hrest.
    + apply Forall_app. split; [exact Hall | repeat constructor; exact He].
Qed.

(** In a chronological buffer the rightmost event is the newest. *)
Lemma chronological_newest (older : list BaseEvent) (newest : BaseEvent) :
  chronological (older ++ [newest]) ->
  Forall (fun e => timestamp e <= timestamp newest) (older ++ [newest]).
Proof.
  unfold chronological. induction older as [|e older IH]; cbn; intro H.
  - repeat constructor. lra.
  - inversion H as [|? ? Hs Hall]; subst. constructor.
    + apply Forall_app in Hall. destruct Hall as [_ Hn].
      now inversion Hn.
    + apply IH, Hs.
Qed.

Lemma insert_scan_in (event x : BaseEvent) (buffer : list BaseEvent) :
  In x (insert_scan event buffer) -> x = event \/ In x buffer.
Proof.
  induction buffer as [|e rest IH]; cbn; [tauto|].
  destruct (Py.lt (timestamp event) (timestamp e)); cbn.
  - intros [<-|[<-|H]]; auto.
  - intros [<-|H]; auto. destruct (IH H); auto.
Qed.

Lemma insert_scan_chronological (event : BaseEvent) (buffer : list BaseEvent) :
  chronological buffer -> chronological (insert_scan event buffer).
Proof.
  unfold chronological. induction 1 as [|e rest Hs IH Hall]; cbn.
  - constructor.
  - destruct (Py.lt (timestamp event) (timestamp e)) eqn:E.
    + apply lt_true_iff in E. constructor; [now constructor|].
      constructor; [lra|].
      eapply Forall_impl; [|exact Hall]. cbn. intros a Ha. lra.
    + apply lt_false_iff in E. constructor; [exact IH|].
      apply Forall_forall. intros x Hx.
      apply insert_scan_in in Hx as [->|Hx]; [exact E|].
      rewrite Forall_forall in Hall. now apply Hall.
Qed.

Lemma add_event_chronological (self : t) (event : BaseEvent) :
  chronological (_event_buffer self) ->
  chronological (_event_buffer (add_event self event)).
Proof.
  intro Hs. unfold add_event.
  destruct (rightmost (_event_buffer self)) as [newest|] eqn:Er.
  - destruct (Py.ge (timestamp event) (timestamp newest)) eqn:E; cbn.
    + apply chronological_snoc; [exact Hs|].
      apply rightmost_inv in Er as [older Ho]. rewrite Ho in *.
      apply le_true_iff in E.
      eapply Forall_impl; [|apply chronological_newest, Hs].
      cbn. intros a Ha. lra.
    + now apply insert_scan_chronological.
  - apply rightmost_none in Er. rewrite Er. cbn. repeat constructor.
Qed.

Lemma popleft_chronological (cutoff : Q) (buffer : list BaseEvent) :
  chronological buffer -> chronological (popleft_while_older cutoff buffer).
Proof.
  unfold chronological. induction 1 as [|e rest Hs IH Hall]; cbn.
  - constructor.
  - destruct (Py.lt (timestamp e) cutoff); [exact IH | now constructor].
Qed.

(** On a chronological buffer the pruning loop removes exactly the events
    older than the cutoff. *)
Lemma popleft_is_filter (cutoff : Q) (buffer : list BaseEvent) :
  chronological buffer ->
  popleft_while_older cutoff buffer =
    filter (fun e => Py.ge (timestamp e) cutoff) buffer.
Proof.
  unfold chronological. induction 1 as [|e rest Hs IH Hall]; cbn.
  - reflexivity.
  - unfold Py.lt, Py.ge. destruct (Qle_bool cutoff (timestamp e)) eqn:E; cbn.
    + f_equal. symmetry. apply forallb_filter_id.
      apply forallb_forall. intros x Hx.
      rewrite Forall_forall in Hall. specialize (Hall x Hx).
      apply Qle_bool_iff in E. apply Qle_bool_iff. lra.
    + exact IH.
Qed.

Lemma total_nonneg (xs : list Q) :
  Forall (fun x => 0 <= x) xs -> 0 <= total xs.
Proof.
  induction 1 as [|x xs Hx Hxs IH]; cbn [total fold_right].
  - lra.
  - fold (total xs). lra.
Qed.

Lemma div_nonneg (a b : Q) : 0 <= a -> 0 < b -> 0 <= a / b.
Proof.
  intros Ha Hb. apply Qle_shift_div_l; [exact Hb | lra].
Qed.

Lemma len_nonneg {A} (xs : list A) : 0 <= Py.len xs.
Proof.
  unfold Py.len. change 0 with (inject_Z 0). rewrite <- Zle_Qle. lia.
Qed.

Lemma len_pos {A} (xs : list A) : (0 < length xs)%nat -> 0 < Py.len xs.
Proof.
  intro H. unfold Py.len. change 0 with (inject_Z 0). rewrite <- Zlt_Qlt. lia.
Qed.

Lemma mean_nonneg (xs : list Q) :
  (0 < length xs)%nat -> Forall (fun x => 0 <= x) xs ->
  0 <= Py.sum xs / Py.len xs.
Proof.
  intros Hn Hall. apply div_nonneg; [|now apply len_pos].
  rewrite BaselineFacts.sum_is_total. now apply total_nonneg.
Qed.

Lemma intervals_of_length (p : list Q) :
  length (intervals_of p) = (length p - 1)%nat.
Proof.
  induction p as [|a [|b p] IH]; try reflexivity.
  cbn [intervals_of length] in *. rewrite IH. lia.
Qed.

Lemma intervals_of_nonneg (p : list Q) :
  StronglySorted Qle p -> Forall (fun d => 0 <= d) (intervals_of p).
Proof.
  induction 1 as [|a p Hs IH Hall]; [constructor|].
  destruct p as [|b p]; [constructor|].
  cbn [intervals_of]. constructor; [|exact IH].
  inversion Hall; subst. lra.
Qed.



(** The keystroke block returns, its values are non-negative on sorted
    press times, and both are 0 below two key presses. *)
Lemma keystroke_features_ok (p : list Q) (ct ws : Q) :
  exists iki speed,
    keystroke_features p ct ws = Ok (iki, speed) /\
    0 <= speed /\
    (StronglySorted Qle p -> 0 <= iki) /\
    ((length p < 2)%nat -> iki = 0.0 /\ speed = 0.0).
Proof.
  unfold keystroke_features.
  destruct (Nat.leb_spec 2 (length p)) as [Hge|Hlt].
  - assert (Hn : (0 < length (intervals_of p))%nat)
      by (rewrite intervals_of_length; lia).
    rewrite (div_ok _ _ (RiskFacts.len_nonzero _ Hn)). cbn [Py.bind].
    destruct (Py.gt (ct - ws) 0) eqn:E.
    + apply gt_true_iff in E.
      rewrite div_ok by lra. cbn [Py.bind].
      do 2 eexists. split; [reflexivity|]. split; [|split].
      * pose proof (div_nonneg (Py.len p) (ct - ws) (len_nonneg p) E). lra.
      * intro Hs. apply mean_nonneg; [exact Hn|].
        now apply intervals_of_nonneg.
      * lia.
    + do 2 eexists. split; [reflexivity|]. split; [lra|]. split; [|lia].
      intro Hs. apply mean_nonneg; [exact Hn|].
      now apply intervals_of_nonneg.
  - do 2 eexists. split; [reflexivity|]. split; [lra|]. split; [lra|].
    intros _. split; reflexivity.
Qed.

(** The idle block returns the mean of the idle durations, and 0 when
    there is none. *)
Lemma idle_feature_ok (ds : list Q) :
  exists idle,
    idle_feature ds = Ok idle /\
    (Forall (fun d => 0 <= d) ds -> 0 <= idle) /\
    (ds = [] -> idle = 0.0) /\
    (ds <> [] -> idle == arithmetic_mean ds).
Proof.
  unfold idle_feature. destruct ds as [|d ds].
  - exists 0.0. split; [reflexivity|]. split; [lra|]. split; [reflexivity|].
    congruence.
  - assert (Hn : (0 < length (d :: ds))%nat) by (cbn; lia).
    rewrite (div_ok _ _ (RiskFacts.len_nonzero _ Hn)).
    eexists. split; [reflexivity|]. split; [|split].
    + intro Hall. now apply mean_nonneg.
    + discriminate.
    + intros _. unfold arithmetic_mean, Py.len.
      now rewrite BaselineFacts.sum_is_total.
Qed.

(** The focus block counts the focus-lost events. *)
Lemma focus_loss_count_from (events : list BaseEvent) (n : Z) :
  fold_left (fun focus_loss_count ev =>
    match ev with
    | FocusEvent _ FOCUS_LOST _ => (focus_loss_count + 1)%Z
    | _ => focus_loss_count
    end) events n
  = (n + Z.of_nat (length (filter is_focus_lost events)))%Z.
Proof.
  revert n. induction events as [|ev events IH]; intro n; cbn [fold_left filter].
  - cbn. lia.
  - rewrite IH. destruct ev as [| |ts [] lf|]; cbn [is_focus_lost length]; lia.
Qed.

Lemma focus_loss_count_is_count (events : list BaseEvent) :
  focus_loss_count_of events = Z.of_nat (length (filter is_focus_lost events)).
Proof.
  unfold focus_loss_count_of. rewrite focus_loss_count_from. lia.
Qed.

Lemma window_duration_step (math_sqrt : Q -> Q) (self : t) (o : op) :
  window_duration (step math_sqrt self o) = window_duration self.
Proof.
  destruct o as [event|ct|]; cbn; try reflexivity.
  unfold add_event.
  destruct (rightmost (_event_buffer self)) as [newest|]; [|reflexivity].
  destruct (Py.ge (timestamp event) (timestamp newest)); reflexivity.
Qed.

Lemma compute_features_buffer (math_sqrt : Q -> Q) (self : t)
      (current_time : option Q) :
  snd (compute_features math_sqrt self current_time) =
    _prune_buffer self (reference_time (_event_buffer self) current_time).
Proof. reflexivity. Qed.

Lemma step_chronological (math_sqrt : Q -> Q) (self : t) (o : op) :
  chronological (_event_buffer self) ->
  chronological (_event_buffer (step math_sqrt self o)).
Proof.
  intro Hs. destruct o as [event|ct|]; cbn [step].
  - now apply add_event_chronological.
  - rewrite compute_features_buffer. cbn. now apply popleft_chronological.
  - constructor.
Qed.

(** Every extractor reached from a fresh one keeps its window duration and
    a chronological buffer, whatever the order of arrival. *)
Lemma run_invariant (math_sqrt : Q -> Q) (ops : list op) (self : t) :
  chronological (_event_buffer self) ->
  window_duration (run math_sqrt self ops) = window_duration self /\
  chronological (_event_buffer (run math_sqrt self ops)).
Proof.
  unfold run. revert self. induction ops as [|o ops IH]; intros self Hs; cbn.
  - split; [reflexivity | exact Hs].
  - destruct (IH (step math_sqrt self o)) as [Hw Hc].
    + now apply step_chronological.
    + split; [|exact Hc]. now rewrite Hw, window_duration_step.
Qed.


Section MouseBlock.

Variable math_sqrt : Q -> Q.
Hypothesis math_sqrt_nonneg : forall x, 0 <= x -> 0 <= math_sqrt x.



End MouseBlock.

(** The mouse block returns, and returns 0 below two mouse moves. *)
Lemma mouse_feature_ok (math_sqrt : Q -> Q) (mp : list (Q * Q * Q)) :
  exists m,
    mouse_feature math_sqrt mp = Ok m /\
    ((length mp < 2)%nat -> m = 0.0).
Proof.
  unfold mouse_feature.
  destruct (Nat.leb_spec 2 (length mp)) as [Hge|Hlt].
  - match goal with |- context [Py.gt ?ts 0] => destruct (Py.gt ts 0) eqn:E end.
    + apply gt_true_iff in E. rewrite div_ok by lra.
      eexists. split; [reflexivity | lia].
    + eexists. split; [reflexivity | lia].
  - eexists. split; [reflexivity | reflexivity].
Qed.

(** [compute_features] never raises: its result is assembled from the
    three blocks and the focus count over the pruned buffer. *)
Lemma compute_features_returns (math_sqrt : Q -> Q) (self : t)
      (current_time : option Q) :
  let ct := reference_time (_event_buffer self) current_time in
  let wd := window_duration self in
  let window := popleft_while_older (ct - wd) (_event_buffer self) in
  exists iki speed idle mouse,
    keystroke_features (press_timestamps_of window) ct (ct - wd) = Ok (iki, speed) /\
    idle_feature (idle_durations_of window) = Ok idle /\
    mouse_feature math_sqrt (mouse_positions_of window) = Ok mouse /\
    compute_features math_sqrt self current_time =
      (Ok (mkFeatureVector speed idle (focus_loss_count_of window) mouse iki
                           (ct - wd) ct),
       mk wd window).
Proof.
  intros ct wd window.
  destruct (keystroke_features_ok (press_timestamps_of window) ct (ct - wd))
    as (iki & speed & Hk & _).
  destruct (idle_feature_ok (idle_durations_of window)) as (idle & Hi & _).
  destruct (mouse_feature_ok math_sqrt (mouse_positions_of window))
    as (mouse & Hm & _).
  exists iki, speed, idle, mouse. repeat split; try assumption.
  unfold compute_features.
  change (match current_time with
          | Some ct0 => ct0
          | None => match rightmost (_event_buffer self) with
                    | Some newest => timestamp newest
                    | None => 0.0
                    end
          end) with ct.
  cbn [_prune_buffer _event_buffer window_duration]. fold wd. fold window.
  rewrite Hk, Hi, Hm. reflexivity.
Qed.

Import Samples.



End ExtractorFacts.

(** * Further properties of the code *)

(** ** The event buffer *)

Module BufferFacts.

Import FeatureExtractor Spec.

Lemma insert_scan_permutation (event : BaseEvent) (buffer : list BaseEvent) :
  Exists (fun e => timestamp event < timestamp e) buffer ->
  Permutation (event :: buffer) (insert_scan event buffer).
Proof.
  induction buffer as [|e rest IH]; intro Hex.
  - inversion Hex.
  - cbn [insert_scan]. destruct (Py.lt (timestamp event) (timestamp e)) eqn:E.
    + reflexivity.
    + apply lt_false_iff in E.
      inversion Hex as [? ? Hlt | ? ? Hrest]; subst; [lra|].
      rewrite perm_swap. constructor. now apply IH.
Qed.

Lemma add_event_permutation (self : t) (event : BaseEvent) :
  Permutation (event :: _event_buffer self) (_event_buffer (add_event self event)).
Proof.
  unfold add_event.
  destruct (rightmost (_event_buffer self)) as [newest|] eqn:Er.
  - destruct (Py.ge (timestamp event) (timestamp newest)) eqn:E;
      cbn [_event_buffer].
    + apply Permutation_cons_append.
    + apply insert_scan_permutation.
      apply ExtractorFacts.rightmost_inv in Er as [older ->].
      apply Exists_app. right. constructor.
      now apply le_false_iff in E.
  - cbn [_event_buffer]. apply Permutation_cons_append.
Qed.

(** X1.  [add_event] stores the event exactly once, whatever the buffer
    holds: the new buffer is a rearrangement of the old one plus the event;
    the window duration is untouched. *)
Theorem add_event_stores_exactly_once (self : t) (event : BaseEvent) :
  Permutation (event :: _event_buffer self) (_event_buffer (add_event self event)) /\
  length (_event_buffer (add_event self event)) = S (length (_event_buffer self)) /\
  window_duration (add_event self event) = window_duration self.
Proof.
  pose proof (add_event_permutation self event) as Hp.
  split; [exact Hp|]. split.
  - now rewrite <- (Permutation_length Hp).
  - apply (ExtractorFacts.window_duration_step (fun x => x) self (Add event)).
Qed.

Lemma filter_none {A} (f : A -> bool) (l : list A) :
  Forall (fun x => f x = false) l -> filter f l = [].
Proof.
  induction 1 as [|x l Hx Hl IH]; cbn; [reflexivity|]. now rewrite Hx.
Qed.

Lemma filter_all {A} (f : A -> bool) (l : list A) :
  Forall (fun x => f x = true) l -> filter f l = l.
Proof.
  induction 1 as [|x l Hx Hl IH]; cbn; [reflexivity|]. now rewrite Hx, IH.
Qed.

Lemma insert_scan_position (event : BaseEvent) (buffer : list BaseEvent) :
  chronological buffer ->
  Exists (fun e => timestamp event < timestamp e) buffer ->
  insert_scan event buffer =
    filter (fun e => Py.le (timestamp e) (timestamp event)) buffer
    ++ event :: filter (fun e => Py.gt (timestamp e) (timestamp event)) buffer.
Proof.
  unfold chronological. induction 1 as [|e rest Hs IH Hall]; intro Hex.
  - inversion Hex.
  - cbn [insert_scan filter]. unfold Py.gt.
    destruct (Py.lt (timestamp event) (timestamp e)) eqn:E.
    + apply lt_true_iff in E.
      assert (Hle : Py.le (timestamp e) (timestamp event) = false)
        by now apply le_false_iff.
      rewrite Hle.
      assert (Hnone : filter (fun e0 => Py.le (timestamp e0) (timestamp event)) rest = []).
      { apply filter_none. eapply Forall_impl; [|exact Hall].
        cbn. intros a Ha. apply le_false_iff. lra. }
      assert (Hall' : filter (fun e0 => Py.lt (timestamp event) (timestamp e0)) rest = rest).
      { apply filter_all. eapply Forall_impl; [|exact Hall].
        cbn. intros a Ha. apply lt_true_iff. lra. }
      now rewrite Hnone, Hall'.
    + apply lt_false_iff in E. apply le_true_iff in E as Hle. rewrite Hle.
      inversion Hex as [? ? Hlt | ? ? Hrest]; subst; [lra|].
      cbn [app]. f_equal. now apply IH.
Qed.

Import Samples.

(** X2.  On a chronological buffer [add_event] puts the event after every
    buffered event that is not later than it (so after those of the same
    time) and before every later one, and the buffer stays chronological. *)
Theorem add_event_inserts_in_order (self : t) (event : BaseEvent) :
  chronological (_event_buffer self) ->
  _event_buffer (add_event self event) =
    filter (fun e => Py.le (timestamp e) (timestamp event)) (_event_buffer self)
    ++ event
    :: filter (fun e => Py.gt (timestamp e) (timestamp event)) (_event_buffer self) /\
  chronological (_event_buffer (add_event self event)).
Proof.
  intro Hc. split; [|now apply ExtractorFacts.add_event_chronological].
  unfold add_event.
  destruct (rightmost (_event_buffer self)) as [newest|] eqn:Er.
  - apply ExtractorFacts.rightmost_inv in Er as [older Ho].
    rewrite Ho in *.
    destruct (Py.ge (timestamp event) (timestamp newest)) eqn:E;
      cbn [_event_buffer].
    + apply le_true_iff in E.
      pose proof (ExtractorFacts.chronological_newest older newest Hc) as Hall.
      rewrite filter_all, filter_none; [reflexivity| |].
      * eapply Forall_impl; [|exact Hall]. cbn. intros a Ha.
        apply gt_false_iff. lra.
      * eapply Forall_impl; [|exact Hall]. cbn. intros a Ha.
        apply le_true_iff. lra.
    + apply insert_scan_position; [exact Hc|].
      apply Exists_app. right. constructor. now apply le_false_iff in E.
  - apply ExtractorFacts.rightmost_none in Er. rewrite Er. reflexivity.
Qed.

Lemma add_event_inserts_in_order_witness :
  _event_buffer
    (add_event (run floor_sqrt (init 30) with_future_events)
               (FocusEvent 45 FOCUS_GAINED false)) =
    [KeystrokeEvent 10 KEY_PRESS; KeystrokeEvent 40 KEY_PRESS;
     KeystrokeEvent 45 KEY_PRESS; FocusEvent 45 FOCUS_GAINED false;
     KeystrokeEvent 70 KEY_PRESS; FocusEvent 100 FOCUS_LOST true].
Proof.
  rewrite (proj1 (add_event_inserts_in_order
                    (run floor_sqrt (init 30) with_future_events)
                    (FocusEvent 45 FOCUS_GAINED false)
                    (proj2 (ExtractorFacts.run_invariant floor_sqrt
                              with_future_events (init 30)
                              (SSorted_nil _))))).
  reflexivity.
Defined.

Lemma popleft_idempotent (cutoff : Q) (buffer : list BaseEvent) :
  popleft_while_older cutoff (popleft_while_older cutoff buffer) =
    popleft_while_older cutoff buffer.
Proof.
  induction buffer as [|e rest IH]; cbn [popleft_while_older]; [reflexivity|].
  destruct (Py.lt (timestamp e) cutoff) eqn:E; [exact IH|].
  cbn [popleft_while_older]. now rewrite E.
Qed.

Lemma popleft_drops_prefix (cutoff : Q) (buffer : list BaseEvent) :
  exists dropped,
    buffer = dropped ++ popleft_while_older cutoff buffer /\
    Forall (fun e => timestamp e < cutoff) dropped.
Proof.
  induction buffer as [|e rest (dropped & Hd & Hall)]; cbn [popleft_while_older].
  - exists []. split; [reflexivity | constructor].
  - destruct (Py.lt (timestamp e) cutoff) eqn:E.
    + exists (e :: dropped). split.
      * cbn. now rewrite <- Hd.
      * constructor; [now apply lt_true_iff | exact Hall].
    + exists []. split; [reflexivity | constructor].
Qed.

(** X3.  The pruning of [compute_features] removes a leading run of events
    older than [current_time - window_duration] and nothing else, and
    asking again for the same [current_time] returns the same vector and
    leaves the buffer as it is. *)
Theorem compute_features_prunes_prefix_once
        (math_sqrt : Q -> Q) (self : t) (current_time : Q) :
  let out := compute_features math_sqrt self (Some current_time) in
  (exists dropped,
     _event_buffer self = dropped ++ _event_buffer (snd out) /\
     Forall (fun e => timestamp e < current_time - window_duration self) dropped) /\
  compute_features math_sqrt (snd out) (Some current_time) = out.
Proof.
  cbv zeta. split.
  - apply popleft_drops_prefix.
  - unfold compute_features.
    cbn [snd _prune_buffer _event_buffer window_duration].
    rewrite popleft_idempotent. f_equal.
    unfold _prune_buffer. cbn [_event_buffer window_duration].
    now rewrite popleft_idempotent.
Qed.

(** X4.  No division of [compute_features] has a zero divisor, on any
    buffer and for any reference time: the call never raises
    [ZeroDivisionError], since the number of intervals, the window length,
    the number of idle durations and the time span of the mouse moves are
    each tested before they divide.  The vector returned ends its window at
    the reference time. *)
Theorem compute_features_no_zero_division
        (math_sqrt : Q -> Q) (self : t) (current_time : option Q) :
  fst (compute_features math_sqrt self current_time) <> Raise ZeroDivisionError /\
  forall fv,
    fst (compute_features math_sqrt self current_time) = Ok fv ->
    window_end fv = reference_time (_event_buffer self) current_time.
Proof.
  destruct (ExtractorFacts.compute_features_returns math_sqrt self current_time)
    as (iki & speed & idle & mouse & _ & _ & _ & Hout).
  cbv zeta in Hout. rewrite Hout. cbn [fst].
  split; [discriminate|].
  intros fv H. injection H as <-. reflexivity.
Qed.

Lemma compute_features_no_zero_division_witness :
  exists fv,
    fst (compute_features floor_sqrt (run floor_sqrt (init 30) with_future_moves)
                          None) = Ok fv /\
    window_end fv = 90.
Proof.
  eexists. split; [reflexivity|].
  exact (proj2 (compute_features_no_zero_division
                  floor_sqrt (run floor_sqrt (init 30) with_future_moves) None)
               _ eq_refl).
Defined.

Lemma popleft_all_older (cutoff : Q) (buffer : list BaseEvent) :
  Forall (fun e => timestamp e < cutoff) buffer ->
  popleft_while_older cutoff buffer = [].
Proof.
  induction 1 as [|e rest He Hrest IH]; cbn [popleft_while_older]; [reflexivity|].
  apply lt_true_iff in He. now rewrite He.
Qed.

(** X5.  When the buffer is empty, or every buffered event is older than
    the window, [compute_features] empties the buffer and returns the
    all-zero vector, with the window still set from the reference time. *)
Theorem compute_features_without_current_events
        (math_sqrt : Q -> Q) (self : t) (current_time : option Q) :
  let ct := reference_time (_event_buffer self) current_time in
  Forall (fun e => timestamp e < ct - window_duration self) (_event_buffer self) ->
  compute_features math_sqrt self current_time =
    (Ok (mkFeatureVector 0.0 0.0 0 0.0 0.0 (ct - window_duration self) ct),
     mk (window_duration self) []).
Proof.
  intros ct Hall. unfold compute_features.
  change (match current_time with
          | Some ct0 => ct0
          | None => match rightmost (_event_buffer self) with
                    | Some newest => timestamp newest
                    | None => 0.0
                    end
          end) with ct.
  unfold _prune_buffer. cbn [_event_buffer window_duration].
  rewrite (popleft_all_older _ _ Hall). reflexivity.
Qed.

Lemma compute_features_without_current_events_witness :
  compute_features floor_sqrt (init 30) None =
    (Ok (mkFeatureVector 0.0 0.0 0 0.0 0.0 (0.0 - 30) 0.0), init 30) /\
  compute_features floor_sqrt (run floor_sqrt (init 30) with_future_events)
                   (Some 500) =
    (Ok (mkFeatureVector 0.0 0.0 0 0.0 0.0 (500 - 30) 500), init 30).
Proof.
  split.
  - apply (compute_features_without_current_events floor_sqrt (init 30) None).
    constructor.
  - apply (compute_features_without_current_events
             floor_sqrt (run floor_sqrt (init 30) with_future_events) (Some 500)).
    repeat constructor.
Defined.

(** The consecutive differences of a sequence add up to last minus first. *)
Lemma intervals_telescope (a : Q) (p : list Q) :
  total (intervals_of (a :: p)) == last (a :: p) 0 - a.
Proof.
  revert a. induction p as [|b p IH]; intro a.
  - cbn. ring.
  - change (intervals_of (a :: b :: p)) with ((b - a) :: intervals_of (b :: p)).
    change (last (a :: b :: p) 0) with (last (b :: p) 0).
    cbn [total fold_right]. fold (total (intervals_of (b :: p))).
    rewrite IH. ring.
Qed.

Lemma len_intervals (p : list Q) :
  (1 <= length p)%nat -> Py.len (intervals_of p) == Py.len p - 1.
Proof.
  intro H. unfold Py.len. rewrite ExtractorFacts.intervals_of_length.
  rewrite Nat2Z.inj_sub by exact H. unfold Z.sub.
  rewrite inject_Z_plus, inject_Z_opp. reflexivity.
Qed.

Lemma keystroke_features_value (p : list Q) (ct ws iki speed : Q) :
  (2 <= length p)%nat ->
  keystroke_features p ct ws = Ok (iki, speed) ->
  iki == (last p 0 - hd 0 p) / (Py.len p - 1) /\
  (0 < ct - ws -> speed == Py.len p * 60 / (ct - ws)) /\
  (ct - ws <= 0 -> speed == 0).
Proof.
  intros Hlen. unfold keystroke_features.
  apply Nat.leb_le in Hlen as Hb. rewrite Hb.
  assert (Hn : (0 < length (intervals_of p))%nat)
    by (rewrite ExtractorFacts.intervals_of_length; lia).
  rewrite (div_ok _ _ (RiskFacts.len_nonzero _ Hn)). cbn [Py.bind].
  assert (Hiki : Py.sum (intervals_of p) / Py.len (intervals_of p)
                 == (last p 0 - hd 0 p) / (Py.len p - 1)).
  { rewrite BaselineFacts.sum_is_total, len_intervals by lia.
    destruct p as [|a p]; [cbn in Hlen; lia|].
    rewrite intervals_telescope. reflexivity. }
  destruct (Py.gt (ct - ws) 0) eqn:E.
  - apply gt_true_iff in E. rewrite div_ok by lra. cbn [Py.bind].
    intro H. injection H as <- <-. split; [exact Hiki|]. split.
    + intros _. field. lra.
    + intro Hle. lra.
  - apply gt_false_iff in E. intro H. injection H as <- <-.
    split; [exact Hiki|]. split.
    + intro Hpos. lra.
    + intros _. reflexivity.
Qed.

(** X6.  With at least two key presses in the window, [inter_key_interval]
    is the time from the first to the last press divided by the number of
    presses minus one, and [avg_typing_speed] is the number of presses
    times 60 over the window duration; with a window duration that is not
    positive the typing speed stays 0. *)
Theorem keystroke_features_closed_form
        (math_sqrt : Q -> Q) (self : t) (current_time : option Q)
        (fv : FeatureVector) :
  let out := compute_features math_sqrt self current_time in
  let presses := press_timestamps_of (_event_buffer (snd out)) in
  fst out = Ok fv ->
  (2 <= length presses)%nat ->
  inter_key_interval fv == (last presses 0 - hd 0 presses) / (Py.len presses - 1) /\
  (0 < window_duration self ->
   avg_typing_speed fv == Py.len presses * 60 / window_duration self) /\
  (window_duration self <= 0 -> avg_typing_speed fv == 0).
Proof.
  intros out presses.
  destruct (ExtractorFacts.compute_features_returns math_sqrt self current_time)
    as (iki & speed & idle & mouse & Hk & _ & _ & Hout).
  cbv zeta in Hk, Hout.
  set (ct := reference_time (_event_buffer self) current_time) in *.
  unfold presses, out. rewrite Hout. cbn [fst snd _event_buffer].
  intros H Hlen. injection H as <-.
  cbn [inter_key_interval avg_typing_speed].
  destruct (keystroke_features_value _ _ _ _ _ Hlen Hk) as (Hi & Hpos & Hneg).
  assert (Hwd : ct - (ct - window_duration self) == window_duration self) by ring.
  split; [exact Hi|]. split.
  - intro Hp. rewrite Hpos by (rewrite Hwd; exact Hp). now rewrite Hwd.
  - intro Hn. apply Hneg. rewrite Hwd. exact Hn.
Qed.

Lemma keystroke_features_closed_form_witness :
  exists fv,
    fst (compute_features floor_sqrt (run floor_sqrt (init 30) with_future_events)
                          (Some 50)) = Ok fv /\
    inter_key_interval fv == (70 - 40) / (3 - 1) /\
    avg_typing_speed fv == 3 * 60 / 30.
Proof.
  eexists. split; [reflexivity|].
  destruct (keystroke_features_closed_form
              floor_sqrt (run floor_sqrt (init 30) with_future_events) (Some 50)
              _ eq_refl) as (Hi & Hs & _).
  - cbn. lia.
  - split; [exact Hi|]. apply Hs. reflexivity.
Defined.

Lemma rightmost_snoc (older : list BaseEvent) (newest : BaseEvent) :
  rightmost (older ++ [newest]) = Some newest.
Proof. unfold rightmost. now rewrite rev_unit. Qed.

(** X7.  When [current_time] is omitted on a non-empty buffer reached from
    a fresh extractor with a non-negative window duration, the window ends
    at the newest buffered event, that event is kept, and every kept event
    lies between [window_start] and [window_end]. *)
Theorem compute_features_default_time_window
        (math_sqrt : Q -> Q) (wd : Q) (ops : list op) (newest : BaseEvent) :
  let self := run math_sqrt (init wd) ops in
  let out := compute_features math_sqrt self None in
  0 <= wd ->
  rightmost (_event_buffer self) = Some newest ->
  exists fv,
    fst out = Ok fv /\
    window_end fv = timestamp newest /\
    rightmost (_event_buffer (snd out)) = Some newest /\
    Forall (fun e => window_start fv <= timestamp e <= window_end fv)
           (_event_buffer (snd out)).
Proof.
  intros self out Hwd Hr.
  destruct (ExtractorFacts.run_invariant math_sqrt ops (init wd)) as [Hw Hc];
    [constructor|]. fold self in Hw, Hc. cbn in Hw.
  destruct (ExtractorFacts.compute_features_returns math_sqrt self None)
    as (iki & speed & idle & mouse & _ & _ & _ & Hout).
  cbv zeta in Hout. unfold reference_time in Hout. rewrite Hr, Hw in Hout.
  unfold out. rewrite Hout. cbn [fst snd _event_buffer].
  eexists. split; [reflexivity|]. cbn [window_start window_end].
  split; [reflexivity|].
  rewrite (ExtractorFacts.popleft_is_filter _ _ Hc).
  apply ExtractorFacts.rightmost_inv in Hr as [older Ho]. rewrite Ho in *.
  pose proof (ExtractorFacts.chronological_newest older newest Hc) as Hall.
  split.
  - rewrite filter_app. cbn [filter].
    assert (E : Py.ge (timestamp newest) (timestamp newest - wd) = true)
      by (apply Qle_bool_iff; lra).
    rewrite E. apply rightmost_snoc.
  - apply Forall_forall. intros e He. apply filter_In in He as [Hin Hge].
    apply Qle_bool_iff in Hge. rewrite Forall_forall in Hall.
    specialize (Hall e Hin). split; assumption.
Qed.

Lemma compute_features_default_time_window_witness :
  exists fv,
    fst (compute_features floor_sqrt (run floor_sqrt (init 30) with_future_events)
                          None) = Ok fv /\
    window_end fv = 100 /\
    Forall (fun e => window_start fv <= timestamp e <= window_end fv)
           (_event_buffer
              (snd (compute_features floor_sqrt
                      (run floor_sqrt (init 30) with_future_events) None))).
Proof.
  destruct (compute_features_default_time_window
              floor_sqrt 30 with_future_events (FocusEvent 100 FOCUS_LOST true))
    as (fv & H1 & H2 & _ & H4).
  - vm_compute. discriminate.
  - reflexivity.
  - exists fv. repeat split; assumption.
Defined.

End BufferFacts.

(** ** The features of a window *)

Module WindowFacts.

Import FeatureExtractor Spec.

(** The selection loops of [compute_features] pick the events of one kind,
    in the order of the buffer. *)
Lemma press_timestamps_are_key_press_times (events : list BaseEvent) :
  press_timestamps_of events = key_press_times events.
Proof.
  unfold press_timestamps_of, key_press_times.
  induction events as [|ev events IH]; [reflexivity|].
  cbn [flat_map filter]. rewrite IH.
  destruct ev as [ts ty|ts ty x y|ts ty l|ts ty d]; try reflexivity.
  destruct ty; reflexivity.
Qed.

Lemma idle_durations_are_idle_durations (events : list BaseEvent) :
  idle_durations_of events = idle_durations events.
Proof.
  unfold idle_durations_of, idle_durations.
  induction events as [|ev events IH]; [reflexivity|].
  cbn [flat_map filter]. rewrite IH.
  destruct ev as [ts ty|ts ty x y|ts ty l|ts ty d]; reflexivity.
Qed.

Lemma mouse_positions_are_mouse_moves (events : list BaseEvent) :
  mouse_positions_of events =
    map (fun ev => (timestamp ev, fst (position_of ev), snd (position_of ev)))
        (mouse_moves events).
Proof.
  unfold mouse_positions_of, mouse_moves.
  induction events as [|ev events IH]; [reflexivity|].
  cbn [flat_map filter]. rewrite IH.
  destruct ev as [ts ty|ts ty x y|ts ty l|ts ty d]; try reflexivity.
  destruct ty; reflexivity.
Qed.

(** The distance loop adds up the length of the path through the
    positions. *)
Lemma total_distance_is_path_length
      (math_sqrt : Q -> Q) (moves : list BaseEvent) (acc : Q) :
  total_distance_of math_sqrt acc
    (map (fun ev => (timestamp ev, fst (position_of ev), snd (position_of ev)))
         moves)
  == acc + path_length math_sqrt (map position_of moves).
Proof.
  revert acc. induction moves as [|e1 moves IH]; intro acc.
  - cbn [map total_distance_of path_length]. lra.
  - destruct moves as [|e2 moves].
    + cbn [map total_distance_of path_length]. lra.
    + set (d := math_sqrt
                  ((fst (position_of e2) - fst (position_of e1))
                   * (fst (position_of e2) - fst (position_of e1))
                   + (snd (position_of e2) - snd (position_of e1))
                     * (snd (position_of e2) - snd (position_of e1)))).
      change (total_distance_of math_sqrt (acc + d)
                (map (fun ev => (timestamp ev, fst (position_of ev),
                                 snd (position_of ev))) (e2 :: moves))
              == acc + (d + path_length math_sqrt (map position_of (e2 :: moves)))).
      rewrite IH. lra.
Qed.

(** [mouse_positions[-1][0] - mouse_positions[0][0]] on a non-empty list. *)
Lemma time_span_is_last_minus_first (mp : list (Q * Q * Q)) :
  mp <> [] ->
  match rev mp, mp with
  | (t_last, _, _) :: _, (t_first, _, _) :: _ => t_last - t_first
  | _, _ => 0.0
  end
  = last (map (fun p => fst (fst p)) mp) 0 - hd 0 (map (fun p => fst (fst p)) mp).
Proof.
  intro Hne. destruct mp as [|[[t1 x1] y1] rest]; [congruence|].
  destruct (rev ((t1, x1, y1) :: rest)) as [|[[tl xl] yl] r] eqn:E.
  - apply (f_equal (@length _)) in E. rewrite length_rev in E. discriminate.
  - assert (H : (t1, x1, y1) :: rest = rev r ++ [(tl, xl, yl)]).
    { rewrite <- (rev_involutive ((t1, x1, y1) :: rest)), E. reflexivity. }
    assert (Hlast : last (map (fun p : Q * Q * Q => fst (fst p))
                              ((t1, x1, y1) :: rest)) 0 = tl).
    { rewrite H, map_app. cbn [map]. rewrite last_last. reflexivity. }
    rewrite Hlast. reflexivity.
Qed.

(** The mouse block on two or more moves: the length of the path over the
    time from the first to the last move, or 0 when that time is not
    positive. *)
Lemma mouse_feature_value
      (math_sqrt : Q -> Q) (moves : list BaseEvent) (m : Q) :
  let span := last (map timestamp moves) 0 - hd 0 (map timestamp moves) in
  (2 <= length moves)%nat ->
  mouse_feature math_sqrt
    (map (fun ev => (timestamp ev, fst (position_of ev), snd (position_of ev)))
         moves) = Ok m ->
  (0 < span -> m == path_length math_sqrt (map position_of moves) / span) /\
  (span <= 0 -> m == 0).
Proof.
  intros span Hlen. unfold mouse_feature.
  rewrite length_map. apply Nat.leb_le in Hlen as Hb. rewrite Hb.
  rewrite time_span_is_last_minus_first
    by (destruct moves; [cbn in Hlen; lia | discriminate]).
  rewrite map_map. cbn [fst].
  change (map (fun x : BaseEvent => timestamp x) moves) with (map timestamp moves).
  fold span.
  destruct (Py.gt span 0) eqn:E.
  - apply gt_true_iff in E. intro H. apply div_inv in H as [_ ->].
    split; [intros _ | intro Hle; lra].
    rewrite total_distance_is_path_length.
    assert (H0 : 0.0 + path_length math_sqrt (map position_of moves)
                 == path_length math_sqrt (map position_of moves)) by lra.
    rewrite H0. reflexivity.
  - apply gt_false_iff in E. intro H. injection H as <-.
    split; [intro Hpos; lra | intros _; reflexivity].
Qed.

(** Every field of the vector [compute_features] returns is the feature of
    the events it keeps. *)
Lemma compute_features_values
      (math_sqrt : Q -> Q) (self : t) (current_time : option Q)
      (fv : FeatureVector) :
  let ct := reference_time (_event_buffer self) current_time in
  let wd := window_duration self in
  let kept := popleft_while_older (ct - wd) (_event_buffer self) in
  fst (compute_features math_sqrt self current_time) = Ok fv ->
  window_start fv = ct - wd /\ window_end fv = ct /\
  features_of math_sqrt wd kept fv.
Proof.
  intros ct wd kept.
  destruct (ExtractorFacts.compute_features_returns math_sqrt self current_time)
    as (iki & speed & idle & mouse & Hk & Hi & Hm & Hout).
  cbv zeta in Hk, Hi, Hm, Hout. fold ct wd in Hk, Hi, Hm, Hout.
  fold kept in Hk, Hi, Hm, Hout.
  rewrite Hout. cbn [fst]. intro H. injection H as <-.
  cbn [window_start window_end].
  split; [reflexivity|]. split; [reflexivity|].
  unfold features_of. cbv zeta.
  cbn [focus_loss_count avg_idle_duration inter_key_interval avg_typing_speed
       avg_mouse_speed].
  rewrite press_timestamps_are_key_press_times in Hk.
  rewrite idle_durations_are_idle_durations in Hi.
  rewrite mouse_positions_are_mouse_moves in Hm.
  destruct (ExtractorFacts.keystroke_features_ok (key_press_times kept) ct (ct - wd))
    as (iki' & speed' & Hk' & _ & _ & Hfew).
  rewrite Hk in Hk'. injection Hk' as <- <-.
  destruct (ExtractorFacts.idle_feature_ok (idle_durations kept))
    as (idle' & Hi' & _ & Hi0 & Himean).
  rewrite Hi in Hi'. injection Hi' as <-.
  split; [apply ExtractorFacts.focus_loss_count_is_count|].
  split; [intro He; rewrite (Hi0 He); reflexivity|].
  split; [exact Himean|].
  split; [intro Hlt; destruct (Hfew Hlt) as [-> ->]; split; reflexivity|].
  split.
  { intro Hge.
    destruct (BufferFacts.keystroke_features_value _ _ _ _ _ Hge Hk)
      as (Hiki & Hpos & Hnon).
    unfold Py.len in Hiki, Hpos.
    split; [exact Hiki|]. split.
    - intro Hwd. rewrite Hpos by lra. field. lra.
    - intro Hwd. apply Hnon. lra. }
  split.
  { intro Hlt.
    destruct (ExtractorFacts.mouse_feature_ok math_sqrt
                (map (fun ev => (timestamp ev, fst (position_of ev),
                                 snd (position_of ev))) (mouse_moves kept)))
      as (mouse' & Hm' & Hm0).
    rewrite Hm in Hm'. injection Hm' as <-.
    rewrite Hm0 by (rewrite length_map; exact Hlt). reflexivity. }
  intro Hge. exact (mouse_feature_value math_sqrt (mouse_moves kept) mouse Hge Hm).
Qed.

Import Samples.



(** C10.  On every reachable extractor, [compute_features] keeps exactly
    the buffered events whose timestamp is at least
    [current_time - window_duration]; with a non-negative window duration an
    event at or after [current_time] is therefore kept.  No division has a
    zero divisor, and the vector returned reports the window
    [current_time - window_duration, current_time), while every one of its
    fields is computed from all the kept events: the focus count and the
    mean idle duration, the typing speed and the key interval over the kept
    key presses, and the mouse speed over the kept mouse moves.  In the
    first sample, events delivered out of order at times 40,
    45, 70 and 100 all enter the features computed at time 50 (typing speed
    6, key interval 15, one focus loss), where the events up to time 50
    alone give typing speed 4, key interval 5 and no focus loss; in the
    second, a mouse move at time 60 and an idle period at time 90 enter
    the mouse speed and the idle duration computed at time 50. *)
Theorem compute_features_prunes_lower_bound_only :
  (forall (math_sqrt : Q -> Q) (wd : Q) (ops : list op) (current_time : option Q),
     let self := run math_sqrt (init wd) ops in
     let ct := reference_time (_event_buffer self) current_time in
     let out := compute_features math_sqrt self current_time in
     let kept :=
       filter (fun e => Py.ge (timestamp e) (ct - wd)) (_event_buffer self) in
     _event_buffer (snd out) = kept /\
     (0 <= wd ->
      forall e, In e (_event_buffer self) -> ct <= timestamp e -> In e kept) /\
     fst out <> Raise ZeroDivisionError /\
     forall fv, fst out = Ok fv ->
       window_start fv = ct - wd /\
       window_end fv = ct /\
       features_of math_sqrt wd kept fv) /\
  (let out := compute_features floor_sqrt
                (run floor_sqrt (init 30) with_future_events) (Some 50) in
   let without := compute_features floor_sqrt
                    (run floor_sqrt (init 30) without_future_events) (Some 50) in
   _event_buffer (snd out) =
     [KeystrokeEvent 40 KEY_PRESS; KeystrokeEvent 45 KEY_PRESS;
      KeystrokeEvent 70 KEY_PRESS; FocusEvent 100 FOCUS_LOST true] /\
   (exists fv,
      fst out = Ok fv /\
      window_start fv == 20 /\ window_end fv == 50 /\
      focus_loss_count fv = 1%Z /\
      avg_typing_speed fv == 6 /\
      inter_key_interval fv == 15) /\
   (exists fv,
      fst without = Ok fv /\
      window_start fv == 20 /\ window_end fv == 50 /\
      focus_loss_count fv = 0%Z /\
      avg_typing_speed fv == 4 /\
      inter_key_interval fv == 5)) /\
  (let out := compute_features floor_sqrt
                (run floor_sqrt (init 30) with_future_moves) (Some 50) in
   _event_buffer (snd out) =
     [MouseEvent 40 MOUSE_MOVE 0 0; MouseEvent 60 MOUSE_MOVE 3 4;
      IdleEvent 90 IDLE_PERIOD 8] /\
   exists fv,
     fst out = Ok fv /\
     window_start fv == 20 /\ window_end fv == 50 /\
     avg_mouse_speed fv == 1 # 4 /\
     avg_idle_duration fv == 8).
Proof.
  split; [|split].
  - intros math_sqrt wd ops current_time self ct out kept.
    destruct (ExtractorFacts.run_invariant math_sqrt ops (init wd)) as [Hwd Hchron];
      [constructor|]. fold self in Hwd, Hchron. cbn in Hwd.
    destruct (ExtractorFacts.compute_features_returns math_sqrt self current_time)
      as (iki & speed & idle & mouse & _ & _ & _ & Hout).
    cbv zeta in Hout. fold ct in Hout. rewrite Hwd in Hout.
    assert (Hf : popleft_while_older (ct - wd) (_event_buffer self) = kept)
      by (now apply ExtractorFacts.popleft_is_filter).
    split; [unfold out; rewrite Hout; exact Hf|]. split.
    + intros Hnn e Hin Hle. apply filter_In. split; [exact Hin|].
      apply Qle_bool_iff. lra.
    + split; [unfold out; rewrite Hout; discriminate|].
      intros fv Hfv.
      pose proof (compute_features_values math_sqrt self current_time fv Hfv) as V.
      cbv zeta in V. fold ct in V. rewrite Hwd, Hf in V. exact V.
  - cbv zeta. split; [reflexivity|]. split.
    + eexists. split; [reflexivity|]. repeat split; vm_compute; reflexivity.
    + eexists. split; [reflexivity|]. repeat split; vm_compute; reflexivity.
  - cbv zeta. split; [reflexivity|].
    eexists. split; [reflexivity|]. repeat split; vm_compute; reflexivity.
Qed.

Lemma compute_features_prunes_lower_bound_only_witness :
  let self := run floor_sqrt (init 30) with_future_events in
  let out := compute_features floor_sqrt self (Some 50) in
  In (KeystrokeEvent 70 KEY_PRESS) (_event_buffer (snd out)) /\
  In (FocusEvent 100 FOCUS_LOST true) (_event_buffer (snd out)) /\
  exists fv,
    fst out = Ok fv /\ window_end fv = 50 /\ focus_loss_count fv = 1%Z.
Proof.
  cbv zeta.
  destruct (proj1 compute_features_prunes_lower_bound_only
              floor_sqrt 30 with_future_events (Some 50))
    as (Hbuf & Hkeep & _ & Hfv).
  assert (Hwd : 0 <= 30) by (vm_compute; discriminate).
  split; [|split].
  - rewrite Hbuf. apply (Hkeep Hwd); [cbn; tauto | vm_compute; discriminate].
  - rewrite Hbuf. apply (Hkeep Hwd); [cbn; tauto | vm_compute; discriminate].
  - eexists. split; [reflexivity|].
    destruct (Hfv _ eq_refl) as (_ & Hend & Hfocus & _).
    split; [exact Hend | exact Hfocus].
Defined.

End WindowFacts.

(** ** The calibration state machine *)

Module CalibrationFacts.

Import BaselineBuilder Spec Samples.
Import BaselineOps (well_formed).

(** [_build_baseline] always returns, with a baseline and no history. *)
Lemma build_baseline_result (self : t) :
  exists p,
    _build_baseline self =
      Ok (mk (calibration_duration self) [] (Some p) (_calibration_start self)).
Proof.
  destruct (_feature_history self) as [|first rest] eqn:Hh.
  - exists default_profile. unfold _build_baseline. now rewrite Hh.
  - destruct (BaselineFacts.build_baseline_nonempty self first rest Hh)
      as (p & Hp & _).
    now exists p.
Qed.

Lemma update_well_formed (d : Q) (self : t) (features : FeatureVector)
      (current_time : Q) :
  well_formed d self ->
  exists self',
    update self features current_time = Ok self' /\ well_formed d self'.
Proof.
  intros (Hd & Hcal & Hnone). unfold update.
  destruct (_baseline self) as [b|] eqn:Hb.
  - exists self. split; [reflexivity|].
    unfold well_formed, is_calibrated in *. rewrite Hb in *. auto.
  - destruct (_calibration_start self) as [start|] eqn:Hs.
    + destruct (Py.le (current_time - start) (calibration_duration self)).
      * eexists. split; [reflexivity|]. unfold well_formed, is_calibrated.
        cbn. rewrite Hb, Hs. repeat split; try assumption; discriminate.
      * destruct (build_baseline_result self) as (p & Hp). rewrite Hp, Hs.
        eexists. split; [reflexivity|]. unfold well_formed, is_calibrated.
        cbn. repeat split; try assumption; discriminate.
    + cbn [start_calibration calibration_duration _feature_history _baseline
           _calibration_start].
      destruct (Py.le (current_time - current_time) (calibration_duration self)).
      * eexists. split; [reflexivity|]. unfold well_formed, is_calibrated.
        cbn. repeat split; try assumption; discriminate.
      * eexists. split; [reflexivity|]. unfold well_formed, is_calibrated.
        cbn. repeat split; try assumption; discriminate.
Qed.

(** X8.  No sequence of [start_calibration], [update] and [reset] calls on
    a fresh builder raises, and after any of them a frozen baseline comes
    with an empty history, while a builder without a calibration start has
    neither history nor baseline. *)
Theorem builder_calls_never_raise (d : Q) (ops : list BaselineOps.op) :
  exists self,
    BaselineOps.run (init d) ops = Ok self /\
    calibration_duration self = d /\
    (is_calibrated self = true -> _feature_history self = []) /\
    (_calibration_start self = None ->
     _feature_history self = [] /\ _baseline self = None).
Proof.
  assert (H : forall self, well_formed d self ->
            exists self', BaselineOps.run self ops = Ok self' /\ well_formed d self').
  { induction ops as [|o ops IH]; intros self Hwf.
    - exists self. split; [reflexivity | exact Hwf].
    - cbn [BaselineOps.run].
      assert (Hstep : exists self1,
                BaselineOps.step self o = Ok self1 /\ well_formed d self1).
      { destruct o as [start_time|features current_time|]; cbn [BaselineOps.step].
        - eexists. split; [reflexivity|]. destruct Hwf as (Hd & _).
          unfold well_formed, is_calibrated. cbn.
          repeat split; try assumption; discriminate.
        - now apply update_well_formed.
        - eexists. split; [reflexivity|]. destruct Hwf as (Hd & _).
          unfold well_formed, is_calibrated. cbn.
          repeat split; try assumption; discriminate. }
      destruct Hstep as (self1 & -> & Hwf1). cbn [Py.bind]. now apply IH. }
  destruct (H (init d)) as (self & Hrun & Hwf).
  - unfold well_formed, is_calibrated. cbn. repeat split; discriminate.
  - exists self. split; [exact Hrun | exact Hwf].
Qed.

(** X9.  On a builder that has no calibration start, [update] starts the
    calibration at the time of the call and drops any stale history; it
    then records the vector when [calibration_duration] is non-negative,
    and with a negative duration it freezes the default profile at once and
    records nothing. *)
Theorem update_on_unstarted_builder (self : t) (features : FeatureVector)
        (current_time : Q) :
  _baseline self = None ->
  _calibration_start self = None ->
  (0 <= calibration_duration self ->
   update self features current_time =
     Ok (mk (calibration_duration self) [features] None (Some current_time))) /\
  (calibration_duration self < 0 ->
   update self features current_time =
     Ok (mk (calibration_duration self) [] (Some (BaselineProfile.mk 150.0 2.0 0.5))
            (Some current_time))).
Proof.
  intros Hb Hs. unfold update. rewrite Hb, Hs.
  cbn [start_calibration calibration_duration _feature_history _baseline
       _calibration_start].
  split; intro Hd.
  - assert (E : Py.le (current_time - current_time) (calibration_duration self) = true)
      by (apply le_true_iff; lra).
    rewrite E. reflexivity.
  - assert (E : Py.le (current_time - current_time) (calibration_duration self) = false)
      by (apply le_false_iff; lra).
    rewrite E. reflexivity.
Qed.

Lemma update_on_unstarted_builder_witness :
  update (mk 180 [quiet_window] None None) fast_typing 7 =
    Ok (mk 180 [fast_typing] None (Some 7)) /\
  update (init (-1)) fast_typing 7 =
    Ok (mk (-1) [] (Some (BaselineProfile.mk 150.0 2.0 0.5)) (Some 7)).
Proof.
  split.
  - apply (proj1 (update_on_unstarted_builder
                    (mk 180 [quiet_window] None None) fast_typing 7
                    eq_refl eq_refl)).
    vm_compute. discriminate.
  - apply (proj2 (update_on_unstarted_builder (init (-1)) fast_typing 7
                    eq_refl eq_refl)).
    reflexivity.
Defined.

(** X10.  A baseline frozen by [update] from vectors whose typing speed,
    idle duration and focus-loss count are non-negative has non-negative
    fields (the default profile included). *)
Theorem frozen_baseline_is_nonnegative
        (self self' : t) (features : FeatureVector) (current_time : Q)
        (p : BaselineProfile.t) :
  _baseline self = None ->
  Forall (fun v => 0 <= avg_typing_speed v /\ 0 <= avg_idle_duration v /\
                   (0 <= focus_loss_count v)%Z) (_feature_history self) ->
  update self features current_time = Ok self' ->
  _baseline self' = Some p ->
  0 <= BaselineProfile.avg_typing_speed p /\
  0 <= BaselineProfile.avg_idle_duration p /\
  0 <= BaselineProfile.avg_focus_rate p.
Proof.
  intros Hb Hall Hu Hp.
  assert (Hdefault : 0 <= BaselineProfile.avg_typing_speed default_profile /\
                     0 <= BaselineProfile.avg_idle_duration default_profile /\
                     0 <= BaselineProfile.avg_focus_rate default_profile)
    by (cbn; repeat split; lra).
  unfold update in Hu. rewrite Hb in Hu.
  destruct (_calibration_start self) as [start|] eqn:Hs.
  - destruct (Py.le (current_time - start) (calibration_duration self)).
    + injection Hu as <-. cbn in Hp. congruence.
    + destruct (_feature_history self) as [|first rest] eqn:Hh.
      * unfold _build_baseline in Hu. rewrite Hh in Hu.
        injection Hu as <-. cbn in Hp. injection Hp as <-. exact Hdefault.
      * destruct (BaselineFacts.build_baseline_nonempty self first rest Hh)
          as (q & Hq & Ht & Hi & Hf).
        rewrite Hq in Hu. injection Hu as <-. cbn in Hp. injection Hp as <-.
        assert (Hlen : 0 < inject_Z (Z.of_nat (length (first :: rest)))).
        { change 0 with (inject_Z 0). rewrite <- Zlt_Qlt. cbn [length]. lia. }
        assert (Hmean : forall xs, length xs = length (first :: rest) ->
                  Forall (fun x => 0 <= x) xs -> 0 <= arithmetic_mean xs).
        { intros xs Hl Hxs. unfold arithmetic_mean. rewrite Hl.
          apply ExtractorFacts.div_nonneg; [|exact Hlen].
          now apply ExtractorFacts.total_nonneg. }
        rewrite Ht, Hi, Hf. repeat split.
        -- apply Hmean; [apply length_map|]. apply Forall_map.
           eapply Forall_impl; [|exact Hall]. cbn. tauto.
        -- apply Hmean; [apply length_map|]. apply Forall_map.
           eapply Forall_impl; [|exact Hall]. cbn. tauto.
        -- apply Qmult_le_0_compat.
           ++ apply Hmean; [apply length_map|]. apply Forall_map.
              eapply Forall_impl; [|exact Hall]. cbn. intros v (_ & _ & Hv).
              change 0 with (inject_Z 0). now rewrite <- Zle_Qle.
           ++ apply ExtractorFacts.div_nonneg; [lra|].
              apply BaselineFacts.window_duration_or_30_pos.
  - cbn [start_calibration calibration_duration _feature_history _baseline
         _calibration_start] in Hu.
    destruct (Py.le (current_time - current_time) (calibration_duration self)).
    + injection Hu as <-. cbn in Hp. discriminate.
    + cbn in Hu. injection Hu as <-. cbn in Hp. injection Hp as <-.
      exact Hdefault.
Qed.

Lemma frozen_baseline_is_nonnegative_witness :
  exists self' p,
    update (mk 180 [quiet_window; fast_typing] None (Some 0)) burst_after_idle 181
      = Ok self' /\
    _baseline self' = Some p /\
    0 <= BaselineProfile.avg_typing_speed p /\
    0 <= BaselineProfile.avg_idle_duration p /\
    0 <= BaselineProfile.avg_focus_rate p.
Proof.
  assert (Hu : exists self' p,
            update (mk 180 [quiet_window; fast_typing] None (Some 0))
                   burst_after_idle 181 = Ok self' /\
            _baseline self' = Some p)
    by (do 2 eexists; split; reflexivity).
  destruct Hu as (self' & p & Hu & Hp).
  exists self', p. split; [exact Hu|]. split; [exact Hp|].
  apply (frozen_baseline_is_nonnegative
           (mk 180 [quiet_window; fast_typing] None (Some 0)) self'
           burst_after_idle 181 p eq_refl); [|exact Hu|exact Hp].
  repeat constructor; vm_compute; discriminate.
Defined.

End CalibrationFacts.

(** ** The smoothed risk *)

Module SmoothingFacts.

Import RiskEngine Spec Samples.

Lemma weighted_raw_risk_range (s : AnomalyScores) :
  0 <= weighted_raw_risk s <= 100.
Proof.
  unfold weighted_raw_risk, clip.
  rewrite <- min_is_Qmin, <- max_is_Qmax. unfold Py.max, Py.min.
  set (x := 0.4 * idle_burst s + 0.3 * focus_instability s + 0.3 * behavioral_drift s).
  destruct (Py.lt x 100.0) eqn:E1;
    [apply lt_true_iff in E1 | apply lt_false_iff in E1].
  - destruct (Py.gt x 0.0) eqn:E2;
      [apply gt_true_iff in E2 | apply gt_false_iff in E2]; lra.
  - destruct (Py.gt 100.0 0.0) eqn:E2;
      [apply gt_true_iff in E2 | apply gt_false_iff in E2]; lra.
Qed.

Lemma total_bounds (lo hi : Q) (xs : list Q) :
  Forall (fun x => lo <= x <= hi) xs ->
  Py.len xs * lo <= total xs <= Py.len xs * hi.
Proof.
  induction 1 as [|x xs Hx Hxs IH].
  - unfold Py.len. cbn [length Z.of_nat total fold_right].
    change (inject_Z 0) with 0. lra.
  - assert (Hlen : Py.len (x :: xs) == Py.len xs + 1).
    { unfold Py.len. cbn [length]. rewrite Nat2Z.inj_succ. unfold Z.succ.
      rewrite inject_Z_plus. reflexivity. }
    rewrite Hlen. cbn [total fold_right]. fold (total xs). lra.
Qed.

(** The mean of a non-empty sequence lies between any bounds of its items. *)
Lemma mean_bounds (lo hi : Q) (xs : list Q) :
  (0 < length xs)%nat ->
  Forall (fun x => lo <= x <= hi) xs ->
  lo <= Py.sum xs / Py.len xs <= hi.
Proof.
  intros Hn Hall. pose proof (total_bounds lo hi xs Hall) as [Hl Hh].
  pose proof (ExtractorFacts.len_pos xs Hn) as Hpos.
  rewrite BaselineFacts.sum_is_total. split.
  - apply Qle_shift_div_l; [exact Hpos | lra].
  - apply Qle_shift_div_r; [exact Hpos | lra].
Qed.

Lemma deque_append_within (sw : nat) (lo hi : Q) (d : list Q) (x : Q) :
  (length d <= sw)%nat ->
  Forall (fun y => lo <= y <= hi) d ->
  lo <= x <= hi ->
  (length (deque_append sw d x) <= sw)%nat /\
  Forall (fun y => lo <= y <= hi) (deque_append sw d x) /\
  (sw = 0%nat -> deque_append sw d x = []).
Proof.
  intros Hlen Hall Hx. unfold deque_append.
  assert (Hall' : Forall (fun y => lo <= y <= hi) (d ++ [x]))
    by (apply Forall_app; split; [exact Hall | repeat constructor; apply Hx]).
  destruct (Nat.ltb_spec sw (length (d ++ [x]))) as [Hlt|Hge].
  - destruct (d ++ [x]) as [|y rest] eqn:E; cbn [tl].
    + cbn in Hlt. lia.
    + assert (Hl : length (y :: rest) = S (length d))
        by (rewrite <- E, length_app; cbn; lia).
      cbn [length] in Hl. repeat split.
      * lia.
      * now inversion Hall'.
      * intros ->. destruct rest; [reflexivity | cbn in Hl; lia].
  - repeat split; [exact Hge | exact Hall'|].
    intros ->. rewrite length_app in Hge. cbn in Hge. lia.
Qed.

(** One call on an engine within bounds. *)
Lemma compute_risk_within (sw : nat) (lo hi : Q) (self : t) (s : AnomalyScores) :
  engine_within sw lo hi self ->
  lo <= weighted_raw_risk s <= hi ->
  exists r self',
    compute_risk self s = Ok (r, self') /\
    engine_within sw lo hi self' /\
    lo <= r <= hi /\
    current_risk self' = r /\
    raw_risk self' = weighted_raw_risk s /\
    (sw = 0%nat -> r = weighted_raw_risk s /\ _risk_history self' = []).
Proof.
  intros (Hsw & Hw1 & Hw2 & Hw3 & Hlen & Hall) Hx.
  unfold compute_risk. rewrite Hsw, Hw1, Hw2, Hw3.
  rewrite max_is_Qmax, min_is_Qmin.
  change (Qmax 0.0 (Qmin 100.0 _)) with (weighted_raw_risk s).
  destruct (deque_append_within sw lo hi (_risk_history self)
              (weighted_raw_risk s) Hlen Hall Hx) as (Hl' & Ha' & H0).
  set (h' := deque_append sw (_risk_history self) (weighted_raw_risk s)) in *.
  destruct (Nat.ltb_spec 0 (length h')) as [Hpos|Hzero].
  - rewrite (div_ok _ _ (RiskFacts.len_nonzero h' Hpos)). cbn [Py.bind fst snd].
    do 2 eexists. split; [reflexivity|].
    split; [unfold engine_within; cbn; auto 10|].
    split; [now apply mean_bounds|].
    split; [reflexivity|]. split; [reflexivity|].
    intros ->. rewrite (H0 eq_refl) in Hpos. cbn in Hpos. lia.
  - cbn [Py.bind fst snd]. do 2 eexists. split; [reflexivity|].
    split; [unfold engine_within; cbn; auto 10|].
    split; [exact Hx|]. split; [reflexivity|]. split; [reflexivity|].
    intros _. split; [reflexivity|].
    destruct h'; [reflexivity | cbn in Hzero; lia].
Qed.

Lemma init_within (sw : nat) (lo hi : Q) : engine_within sw lo hi (init sw).
Proof. unfold engine_within. cbn. repeat split; auto. lia. Qed.

(** A run of calls on an engine within bounds. *)
Lemma run_within (sw : nat) (lo hi : Q) (inputs : list AnomalyScores)
      (self : t) (last : Q) (s : AnomalyScores) :
  engine_within sw lo hi self ->
  Forall (fun i => lo <= weighted_raw_risk i <= hi) (inputs ++ [s]) ->
  exists r self',
    feed self last (inputs ++ [s]) = Ok (r, self') /\
    engine_within sw lo hi self' /\
    lo <= r <= hi /\
    current_risk self' = r /\
    raw_risk self' = weighted_raw_risk s /\
    (sw = 0%nat -> r = weighted_raw_risk s /\ _risk_history self' = []).
Proof.
  revert self last. induction inputs as [|i inputs IH]; intros self last Hin Hall.
  - inversion Hall as [|? ? Hs _]; subst. cbn [app feed].
    destruct (compute_risk_within sw lo hi self s Hin Hs)
      as (r & self' & -> & H). cbn [Py.bind fst snd feed].
    now exists r, self'.
  - inversion Hall as [|? ? Hi Hrest]; subst. cbn [app feed].
    destruct (compute_risk_within sw lo hi self i Hin Hi)
      as (r & self' & -> & Hin' & _). cbn [Py.bind fst snd].
    now apply IH.
Qed.

(** X11.  The smoothed risk returned after a run of [compute_risk] calls
    on a fresh engine lies between any lower and upper bound of the raw
    risks of the run, for every smoothing window. *)
Theorem smoothed_risk_between_raw_bounds
        (sw : nat) (inputs : list AnomalyScores) (s : AnomalyScores) (lo hi : Q) :
  Forall (fun i => lo <= weighted_raw_risk i <= hi) (inputs ++ [s]) ->
  exists r self',
    feed (init sw) 0.0 (inputs ++ [s]) = Ok (r, self') /\
    lo <= r <= hi.
Proof.
  intro Hall.
  destruct (run_within sw lo hi inputs (init sw) 0.0 s (init_within sw lo hi) Hall)
    as (r & self' & Hf & _ & Hr & _).
  now exists r, self'.
Qed.

Lemma smoothed_risk_between_raw_bounds_witness :
  exists r self',
    feed (init 5) 0.0 (map level [10; 20; 30] ++ [level 25]) = Ok (r, self') /\
    10 <= r <= 30.
Proof.
  apply (smoothed_risk_between_raw_bounds 5 (map level [10; 20; 30]) (level 25) 10 30).
  repeat constructor; vm_compute; discriminate.
Defined.

(** X12.  On a fresh engine no run of [compute_risk] calls raises; the
    value returned, [current_risk] and [raw_risk] stay within [0, 100], and
    the stored sequence never holds more than [smoothing_window] values,
    each within [0, 100]. *)
Theorem compute_risk_never_raises_and_stays_in_range
        (sw : nat) (inputs : list AnomalyScores) (s : AnomalyScores) :
  exists r self',
    feed (init sw) 0.0 (inputs ++ [s]) = Ok (r, self') /\
    0 <= r <= 100 /\
    0 <= current_risk self' <= 100 /\
    0 <= raw_risk self' <= 100 /\
    (length (_risk_history self') <= sw)%nat /\
    Forall (fun x => 0 <= x <= 100) (_risk_history self').
Proof.
  assert (Hall : Forall (fun i => 0 <= weighted_raw_risk i <= 100) (inputs ++ [s])).
  { apply Forall_forall. intros i _. apply weighted_raw_risk_range. }
  destruct (run_within sw 0 100 inputs (init sw) 0.0 s (init_within sw 0 100) Hall)
    as (r & self' & Hf & (_ & _ & _ & _ & Hlen & Hh) & Hr & Hc & Hraw & _).
  exists r, self'. rewrite Hc, Hraw.
  repeat split; try assumption; try apply Hr; apply weighted_raw_risk_range.
Qed.

(** X13.  With [smoothing_window = 0] the deque stays empty and every call
    returns the raw risk of its own scores. *)
Theorem compute_risk_without_smoothing
        (inputs : list AnomalyScores) (s : AnomalyScores) :
  exists self',
    feed (init 0) 0.0 (inputs ++ [s]) = Ok (weighted_raw_risk s, self') /\
    _risk_history self' = [] /\
    current_risk self' = weighted_raw_risk s.
Proof.
  assert (Hall : Forall (fun i => 0 <= weighted_raw_risk i <= 100) (inputs ++ [s])).
  { apply Forall_forall. intros i _. apply weighted_raw_risk_range. }
  destruct (run_within 0 0 100 inputs (init 0) 0.0 s (init_within 0 0 100) Hall)
    as (r & self' & Hf & _ & _ & Hc & _ & H0).
  destruct (H0 eq_refl) as [-> Hh].
  exists self'. repeat split; assumption.
Qed.

Lemma compute_risk_keeps_settings (self self' : t) (s : AnomalyScores) (r : Q) :
  compute_risk self s = Ok (r, self') ->
  reset self' = reset self.
Proof.
  unfold compute_risk. intro H.
  apply DetectorFacts.bind_ok_inv in H as (x & _ & H).
  injection H as _ <-. reflexivity.
Qed.

(** X14.  [reset] after any run of [compute_risk] calls gives back the
    engine as [RiskEngine(smoothing_window)] creates it. *)
Theorem reset_restores_fresh_engine
        (sw : nat) (inputs : list AnomalyScores) (last r : Q) (self' : t) :
  feed (init sw) last inputs = Ok (r, self') ->
  reset self' = init sw.
Proof.
  assert (H : forall self, feed self last inputs = Ok (r, self') ->
                           reset self' = reset self).
  { revert last. induction inputs as [|i inputs IH]; intros last self Hf.
    - cbn in Hf. now injection Hf as _ <-.
    - cbn [feed] in Hf.
      apply DetectorFacts.bind_ok_inv in Hf as ([r1 self1] & Hc & Hf).
      cbn [fst snd] in Hf. rewrite (IH _ _ Hf).
      exact (compute_risk_keeps_settings _ _ _ _ Hc). }
  intro Hf. now rewrite (H _ Hf).
Qed.

Lemma reset_restores_fresh_engine_witness :
  exists r self',
    feed (init 5) 0.0 (map level [10; 20; 30]) = Ok (r, self') /\
    reset self' = init 5.
Proof.
  do 2 eexists. split; [reflexivity|].
  eapply (reset_restores_fresh_engine 5 (map level [10; 20; 30]) 0.0).
  reflexivity.
Defined.

End SmoothingFacts.

(** ** The detection rules *)

Module RuleFacts.

Import Random ActivityShiftDetector Spec Samples.

Lemma rule_branch_when (self : t) :
  (counter self < 20)%nat -> (20 <? S (counter self))%nat = false.
Proof. intro H. apply Nat.ltb_ge. lia. Qed.

(** In its rule-based branch [compute_scores] runs the three rules in
    order and takes the maximum. *)
Lemma rule_branch_runs_rules
      (self : t) (b : BaselineProfile.t) (g : RandomState) (f : FeatureVector) :
  _baseline self = Some b ->
  (counter self < 20)%nat ->
  fst (fst (compute_scores self g f)) =
    (a <- idle_to_burst b f ;;
     i <- focus_instability_rule b f ;;
     d <- behavioral_drift_rule b f ;;
     Ok (mkAnomalyScores a i d (Py.max3 a i d))).
Proof.
  intros Hb Hc. apply rule_branch_when in Hc.
  unfold compute_scores. rewrite Hb. cbn [counter]. rewrite Hc. cbn [fst].
  unfold idle_to_burst, focus_instability_rule, behavioral_drift_rule.
  repeat (match goal with
          | |- context [Py.div ?x ?y] => destruct (Py.div x y)
          | |- context [if ?c then _ else _] => destruct c
          end; cbn [Py.bind]);
    reflexivity.
Qed.

Lemma idle_to_burst_raises (b : BaselineProfile.t) (f : FeatureVector) :
  idle_to_burst b f = Raise ZeroDivisionError <->
  (BaselineProfile.avg_typing_speed b == 0 /\
   BaselineProfile.avg_idle_duration b * 1.2 < avg_idle_duration f /\
   0 < avg_typing_speed f).
Proof.
  unfold idle_to_burst.
  destruct (Py.gt (avg_idle_duration f) _) eqn:Ei;
    [apply gt_true_iff in Ei | apply gt_false_iff in Ei].
  - destruct (Py.gt (avg_typing_speed f) _) eqn:Es;
      [apply gt_true_iff in Es | apply gt_false_iff in Es].
    + unfold Py.div.
      destruct (Qeq_bool (BaselineProfile.avg_typing_speed b) 0) eqn:E0;
        [apply Qeq_bool_eq in E0 | apply Qeq_bool_neq in E0]; cbn [Py.bind].
      * split; [intros _; repeat split; [exact E0 | exact Ei | lra] | reflexivity].
      * split; [discriminate | tauto].
    + split; [discriminate|]. intros (H0 & _ & Hpos). lra.
  - split; [discriminate|]. intros (_ & Hi & _). lra.
Qed.

Lemma focus_rate_step (f : FeatureVector) :
  exists fr,
    (if Py.gt (window_end f - window_start f) 0 then
       per_minute <- Py.div 60.0 (window_end f - window_start f) ;;
       Ok (Py.of_int (focus_loss_count f) * per_minute)
     else Ok 0.0) = Ok fr /\
    fr == focus_rate f.
Proof.
  unfold focus_rate, Py.gt, Py.lt, Py.of_int.
  destruct (Qle_bool (window_end f - window_start f) 0) eqn:E; cbn [negb].
  - exists 0.0. split; reflexivity.
  - apply le_false_iff in E. rewrite div_ok by lra. cbn [Py.bind].
    eexists. split; [reflexivity|].
    apply Qmult_comp; [reflexivity|]. apply Qdiv_comp; reflexivity.
Qed.

Lemma focus_instability_rule_raises (b : BaselineProfile.t) (f : FeatureVector) :
  focus_instability_rule b f = Raise ZeroDivisionError <->
  (BaselineProfile.avg_focus_rate b == 0 /\ 0 < focus_rate f).
Proof.
  unfold focus_instability_rule.
  destruct (focus_rate_step f) as (fr & -> & Hfr). cbn [Py.bind].
  destruct (Py.gt fr _) eqn:E; [apply gt_true_iff in E | apply gt_false_iff in E].
  - unfold Py.div.
    destruct (Qeq_bool (BaselineProfile.avg_focus_rate b) 0) eqn:E0;
      [apply Qeq_bool_eq in E0 | apply Qeq_bool_neq in E0]; cbn [Py.bind].
    + split; [intros _; split; [exact E0 | lra] | reflexivity].
    + split; [discriminate | tauto].
  - split; [discriminate|]. intros (H0 & Hpos). lra.
Qed.

Lemma behavioral_drift_rule_returns (b : BaselineProfile.t) (f : FeatureVector) :
  exists d, behavioral_drift_rule b f = Ok d.
Proof.
  unfold behavioral_drift_rule.
  destruct (Py.gt (BaselineProfile.avg_typing_speed b) 0) eqn:E;
    [|eexists; reflexivity].
  apply gt_true_iff in E. rewrite div_ok by lra. cbn [Py.bind].
  destruct (Py.gt _ 0.3); eexists; reflexivity.
Qed.

Lemma only_zero_division {A} (r : Py.result A) :
  (exists a, r = Ok a) \/ r = Raise ZeroDivisionError.
Proof. destruct r as [a|[]]; [left; now exists a | now right]. Qed.

(** X15.  In its rule-based branch [compute_scores] raises exactly when the
    Idle-to-Burst rule fires against a baseline typing speed of 0, or the
    focus-loss rate of the window is positive against a baseline focus rate
    of 0; in every other case it returns scores. *)
Theorem compute_scores_raises_exactly_when
        (self : t) (b : BaselineProfile.t) (g : RandomState) (f : FeatureVector) :
  _baseline self = Some b ->
  (counter self < 20)%nat ->
  let fires_on_zero :=
    (BaselineProfile.avg_typing_speed b == 0 /\
     BaselineProfile.avg_idle_duration b * 1.2 < avg_idle_duration f /\
     0 < avg_typing_speed f) \/
    (BaselineProfile.avg_focus_rate b == 0 /\ 0 < focus_rate f) in
  (fst (fst (compute_scores self g f)) = Raise ZeroDivisionError <-> fires_on_zero) /\
  ((exists s, fst (fst (compute_scores self g f)) = Ok s) <-> ~ fires_on_zero).
Proof.
  intros Hb Hc. cbv zeta.
  rewrite (rule_branch_runs_rules self b g f Hb Hc).
  pose proof (idle_to_burst_raises b f) as HA.
  pose proof (focus_instability_rule_raises b f) as HB.
  destruct (behavioral_drift_rule_returns b f) as [d Hd].
  destruct (only_zero_division (idle_to_burst b f)) as [[a Ha]|Ha];
    destruct (only_zero_division (focus_instability_rule b f)) as [[i Hi]|Hi];
    rewrite Ha, ?Hi, ?Hd in *; cbn [Py.bind].
  - assert (HnA : ~ (BaselineProfile.avg_typing_speed b == 0 /\
                     BaselineProfile.avg_idle_duration b * 1.2 < avg_idle_duration f /\
                     0 < avg_typing_speed f))
      by (intro H; apply HA in H; discriminate).
    assert (HnB : ~ (BaselineProfile.avg_focus_rate b == 0 /\ 0 < focus_rate f))
      by (intro H; apply HB in H; discriminate).
    split; split; try tauto; try discriminate.
    intros _. eexists. reflexivity.
  - assert (HB' : BaselineProfile.avg_focus_rate b == 0 /\ 0 < focus_rate f)
      by (now apply HB).
    split; split; try tauto; try discriminate.
    intros [s Hs]. discriminate.
  - assert (HA' : BaselineProfile.avg_typing_speed b == 0 /\
                  BaselineProfile.avg_idle_duration b * 1.2 < avg_idle_duration f /\
                  0 < avg_typing_speed f) by (now apply HA).
    split; split; try tauto; try discriminate.
    intros [s Hs]. discriminate.
  - assert (HA' : BaselineProfile.avg_typing_speed b == 0 /\
                  BaselineProfile.avg_idle_duration b * 1.2 < avg_idle_duration f /\
                  0 < avg_typing_speed f) by (now apply HA).
    split; split; try tauto; try discriminate.
    intros [s Hs]. discriminate.
Qed.

Lemma compute_scores_raises_exactly_when_witness :
  fst (fst (compute_scores (init (Some baseline_no_focus_loss))
                           (constant_draws draw_zero) one_focus_loss))
    = Raise ZeroDivisionError /\
  exists s,
    fst (fst (compute_scores (init (Some baseline_100))
                             (constant_draws draw_zero) one_focus_loss)) = Ok s.
Proof.
  split.
  - apply (proj1 (compute_scores_raises_exactly_when
                    (init (Some baseline_no_focus_loss)) baseline_no_focus_loss
                    (constant_draws draw_zero) one_focus_loss eq_refl
                    (Nat.lt_0_succ 19))).
    right. split; vm_compute; reflexivity.
  - apply (proj2 (compute_scores_raises_exactly_when
                    (init (Some baseline_100)) baseline_100
                    (constant_draws draw_zero) one_focus_loss eq_refl
                    (Nat.lt_0_succ 19))).
    intros [(H & _)|(H & _)]; vm_compute in H; discriminate.
Defined.

(** The branch taken once 20 calls have been served. *)
Lemma random_branch_result
        (self : t) (b : BaselineProfile.t) (g : RandomState) (f : FeatureVector) :
  _baseline self = Some b ->
  (20 <= counter self)%nat ->
  exists s,
    compute_scores self g f =
      (Ok s, mk (Some b) (S (counter self)),
       mkRandomState (tape g) (S (S (cursor g)))) /\
    30 <= overall s < 80 /\
    (s = mkAnomalyScores (overall s) 0 0 (overall s) \/
     s = mkAnomalyScores 0 (overall s) 0 (overall s) \/
     s = mkAnomalyScores 0 0 (overall s) (overall s)) /\
    forall f', compute_scores self g f' = compute_scores self g f.
Proof.
  intros Hb Hc.
  assert (Hlt : (20 <? S (counter self))%nat = true) by (apply Nat.ltb_lt; lia).
  unfold compute_scores. rewrite Hb. cbn [counter]. rewrite Hlt.
  pose proof (DetectorFacts.uniform_30_80
                (mkRandomState (tape g) (S (cursor g)))) as Hu.
  unfold random at 1. cbn [fst snd].
  destruct (uniform 30 80 (mkRandomState (tape g) (S (cursor g))))
    as [u g2] eqn:Eu.
  assert (Hg2 : g2 = mkRandomState (tape g) (S (S (cursor g)))).
  { unfold uniform, random in Eu. cbn in Eu. now injection Eu as _ <-. }
  cbn [fst] in Hu. subst g2.
  destruct (Py.lt _ 0.33); [|destruct (Py.lt _ 0.66)];
    (eexists; split; [reflexivity|]; cbn [overall]; split; [exact Hu|];
     split; [cbn; auto | reflexivity]).
Qed.

(** X16.  Once 20 calls have been served with a baseline, [compute_scores]
    no longer reads the feature vector: it consumes two draws of the
    generator, returns scores with exactly one component set, to a value in
    [30, 80) that is also [overall], and never raises. *)
Theorem compute_scores_after_20_calls
        (self : t) (b : BaselineProfile.t) (g : RandomState) (f : FeatureVector) :
  _baseline self = Some b ->
  (20 <= counter self)%nat ->
  exists s,
    compute_scores self g f =
      (Ok s, mk (Some b) (S (counter self)),
       mkRandomState (tape g) (S (S (cursor g)))) /\
    30 <= overall s < 80 /\
    (s = mkAnomalyScores (overall s) 0 0 (overall s) \/
     s = mkAnomalyScores 0 (overall s) 0 (overall s) \/
     s = mkAnomalyScores 0 0 (overall s) (overall s)) /\
    forall f', compute_scores self g f' = compute_scores self g f.
Proof. exact (random_branch_result self b g f). Qed.

Lemma compute_scores_after_20_calls_witness :
  exists s,
    fst (fst (compute_scores (after_20_calls baseline_100)
                             (constant_draws draw_half) fast_typing)) = Ok s /\
    30 <= overall s < 80.
Proof.
  destruct (compute_scores_after_20_calls
              (after_20_calls baseline_100) baseline_100
              (constant_draws draw_half) fast_typing eq_refl (le_n 20))
    as (s & Hs & Hr & _).
  exists s. split; [now rewrite Hs | exact Hr].
Defined.

(** What a returned result of the rule-based branch holds. *)
Lemma rule_branch_inv
      (self : t) (b : BaselineProfile.t) (g : RandomState) (f : FeatureVector)
      (s : AnomalyScores) :
  _baseline self = Some b ->
  (counter self < 20)%nat ->
  fst (fst (compute_scores self g f)) = Ok s ->
  idle_to_burst b f = Ok (idle_burst s) /\
  focus_instability_rule b f = Ok (focus_instability s) /\
  behavioral_drift_rule b f = Ok (behavioral_drift s).
Proof.
  intros Hb Hc. rewrite (rule_branch_runs_rules self b g f Hb Hc). intro H.
  apply DetectorFacts.bind_ok_inv in H as (a & Ha & H).
  apply DetectorFacts.bind_ok_inv in H as (i & Hi & H).
  apply DetectorFacts.bind_ok_inv in H as (d & Hd & H).
  injection H as <-. cbn. auto.
Qed.

Lemma rule_branch_overall
      (self : t) (b : BaselineProfile.t) (g : RandomState) (f : FeatureVector)
      (s : AnomalyScores) :
  _baseline self = Some b ->
  (counter self < 20)%nat ->
  fst (fst (compute_scores self g f)) = Ok s ->
  overall s = Py.max3 (idle_burst s) (focus_instability s) (behavioral_drift s).
Proof.
  intros Hb Hc. rewrite (rule_branch_runs_rules self b g f Hb Hc). intro H.
  apply DetectorFacts.bind_ok_inv in H as (a & Ha & H).
  apply DetectorFacts.bind_ok_inv in H as (i & Hi & H).
  apply DetectorFacts.bind_ok_inv in H as (d & Hd & H).
  injection H as <-. reflexivity.
Qed.

Lemma clip70_range (x : Q) : 0 <= Py.min 70.0 (Py.max 0.0 x) <= 70.
Proof. pose proof (clip_range 0.0 70.0 x). lra. Qed.

Lemma clip70_monotone (x y : Q) :
  x <= y -> Py.min 70.0 (Py.max 0.0 x) <= Py.min 70.0 (Py.max 0.0 y).
Proof.
  intro H. unfold Py.min, Py.max.
  repeat match goal with
         | |- context [Py.gt ?a ?b] =>
           let E := fresh "E" in
           destruct (Py.gt a b) eqn:E;
           [apply gt_true_iff in E | apply gt_false_iff in E]
         | |- context [Py.lt ?a ?b] =>
           let E := fresh "E" in
           destruct (Py.lt a b) eqn:E;
           [apply lt_true_iff in E | apply lt_false_iff in E]
         end; lra.
Qed.

Lemma abs_cases (x : Q) :
  (x < 0 /\ Py.abs x = - x) \/ (0 <= x /\ Py.abs x = x).
Proof.
  unfold Py.abs. destruct (Py.lt x 0) eqn:E;
    [apply lt_true_iff in E; left | apply lt_false_iff in E; right]; auto.
Qed.

(** The Behavioral Drift score as a function of the relative deviation. *)
Lemma behavioral_drift_rule_value (b : BaselineProfile.t) (f : FeatureVector)
      (d : Q) :
  0 < BaselineProfile.avg_typing_speed b ->
  behavioral_drift_rule b f = Ok d ->
  let dev := Py.abs (avg_typing_speed f - BaselineProfile.avg_typing_speed b)
             / BaselineProfile.avg_typing_speed b in
  (dev <= 0.3 /\ d = 0.0) \/
  (0.3 < dev /\ d = Py.min 70.0 (Py.max 0.0 ((dev - 0.3) * 200.0))).
Proof.
  intros Hpos. unfold behavioral_drift_rule.
  apply gt_true_iff in Hpos as E. rewrite E. apply gt_true_iff in E.
  rewrite div_ok by lra. cbn [Py.bind]. cbv zeta.
  destruct (Py.gt _ 0.3) eqn:Ed;
    [apply gt_true_iff in Ed | apply gt_false_iff in Ed];
    intro H; injection H as <-; [right | left]; split; auto.
Qed.

Lemma div_le_iff (a b c : Q) : 0 < b -> (a / b <= c <-> a <= c * b).
Proof.
  intro Hb. split; intro H.
  - assert (E : a == a / b * b) by (field; lra).
    rewrite E. apply Qmult_le_compat_r; lra.
  - apply Qle_shift_div_r; assumption.
Qed.

Lemma div_ge_iff (a b c : Q) : 0 < b -> (c <= a / b <-> c * b <= a).
Proof.
  intro Hb. split; intro H.
  - assert (E : a == a / b * b) by (field; lra).
    rewrite E. apply Qmult_le_compat_r; lra.
  - apply Qle_shift_div_l; assumption.
Qed.

Lemma div_gt_iff (a b c : Q) : 0 < b -> (c < a / b <-> c * b < a).
Proof.
  intro Hb. pose proof (div_le_iff a b c Hb) as H. split; intro Hlt.
  - apply Qnot_le_lt. intro Hle. apply H in Hle. lra.
  - apply Qnot_le_lt. intro Hle. apply H in Hle. lra.
Qed.

(** X17.  In the rule-based branch, against a positive baseline typing
    speed, [behavioral_drift] is 0 while the typing speed is within 30% of
    the baseline, positive outside that band, and 70 once the speed is at
    least 65% above or below the baseline; against a baseline speed that is
    not positive it is 0. *)
Theorem behavioral_drift_thresholds
        (self : t) (b : BaselineProfile.t) (g : RandomState) (f : FeatureVector)
        (s : AnomalyScores) :
  _baseline self = Some b ->
  (counter self < 20)%nat ->
  fst (fst (compute_scores self g f)) = Ok s ->
  let bt := BaselineProfile.avg_typing_speed b in
  let x := avg_typing_speed f in
  (bt <= 0 -> behavioral_drift s == 0) /\
  (0 < bt -> 0.7 * bt <= x <= 1.3 * bt -> behavioral_drift s == 0) /\
  (0 < bt -> x < 0.7 * bt \/ 1.3 * bt < x -> 0 < behavioral_drift s) /\
  (0 < bt -> x <= 0.35 * bt \/ 1.65 * bt <= x -> behavioral_drift s == 70).
Proof.
  intros Hb Hc Hs bt x.
  destruct (rule_branch_inv self b g f s Hb Hc Hs) as (_ & _ & Hd).
  split.
  { intro Hle. unfold behavioral_drift_rule in Hd. fold bt in Hd.
    apply gt_false_iff in Hle. rewrite Hle in Hd. injection Hd as <-. reflexivity. }
  assert (Hval : 0 < bt ->
    let dev := Py.abs (x - bt) / bt in
    (dev <= 0.3 /\ behavioral_drift s = 0.0) \/
    (0.3 < dev /\
     behavioral_drift s = Py.min 70.0 (Py.max 0.0 ((dev - 0.3) * 200.0)))).
  { intro Hpos. exact (behavioral_drift_rule_value b f _ Hpos Hd). }
  split; [|split].
  - intros Hpos Hband. destruct (Hval Hpos) as [[_ ->]|[Hdev _]]; [reflexivity|].
    apply div_gt_iff in Hdev; [|exact Hpos].
    destruct (abs_cases (x - bt)) as [[Hn Ha]|[Hn Ha]]; rewrite Ha in Hdev; lra.
  - intros Hpos Hout. destruct (Hval Hpos) as [[Hdev _]|[Hdev ->]].
    + apply div_le_iff in Hdev; [|exact Hpos].
      destruct (abs_cases (x - bt)) as [[Hn Ha]|[Hn Ha]]; rewrite Ha in Hdev; lra.
    + set (dev := Py.abs (x - bt) / bt) in *.
      unfold Py.min, Py.max.
      destruct (Py.gt ((dev - 0.3) * 200.0) 0.0) eqn:E1;
        [apply gt_true_iff in E1 | apply gt_false_iff in E1]; [|lra].
      destruct (Py.lt ((dev - 0.3) * 200.0) 70.0) eqn:E2; lra.
  - intros Hpos Hfar.
    assert (Hdev : 0.65 <= Py.abs (x - bt) / bt).
    { apply div_ge_iff; [exact Hpos|].
      destruct (abs_cases (x - bt)) as [[Hn Ha]|[Hn Ha]]; rewrite Ha; lra. }
    destruct (Hval Hpos) as [[Hle _]|[_ ->]]; [lra|].
    set (dev := Py.abs (x - bt) / bt) in *.
    unfold Py.min, Py.max.
    destruct (Py.gt ((dev - 0.3) * 200.0) 0.0) eqn:E1;
      [apply gt_true_iff in E1 | apply gt_false_iff in E1]; [|lra].
    destruct (Py.lt ((dev - 0.3) * 200.0) 70.0) eqn:E2;
      [apply lt_true_iff in E2 | apply lt_false_iff in E2]; lra.
Qed.

Lemma behavioral_drift_thresholds_witness :
  exists s,
    fst (fst (compute_scores (init (Some baseline_100))
                             (constant_draws draw_zero) fast_typing)) = Ok s /\
    behavioral_drift s == 70.
Proof.
  eexists. split; [reflexivity|].
  apply (behavioral_drift_thresholds
           (init (Some baseline_100)) baseline_100 (constant_draws draw_zero)
           fast_typing _ eq_refl (Nat.lt_0_succ 19) eq_refl).
  - reflexivity.
  - right. vm_compute. discriminate.
Defined.

(** X18.  In the rule-based branch, against a positive baseline typing
    speed, [behavioral_drift] does not decrease when the typing speed moves
    further from the baseline. *)
Theorem behavioral_drift_monotone
        (self : t) (b : BaselineProfile.t) (g : RandomState)
        (f1 f2 : FeatureVector) (s1 s2 : AnomalyScores) :
  _baseline self = Some b ->
  (counter self < 20)%nat ->
  0 < BaselineProfile.avg_typing_speed b ->
  fst (fst (compute_scores self g f1)) = Ok s1 ->
  fst (fst (compute_scores self g f2)) = Ok s2 ->
  Py.abs (avg_typing_speed f1 - BaselineProfile.avg_typing_speed b)
    <= Py.abs (avg_typing_speed f2 - BaselineProfile.avg_typing_speed b) ->
  behavioral_drift s1 <= behavioral_drift s2.
Proof.
  intros Hb Hc Hpos H1 H2 Habs.
  destruct (rule_branch_inv self b g f1 s1 Hb Hc H1) as (_ & _ & Hd1).
  destruct (rule_branch_inv self b g f2 s2 Hb Hc H2) as (_ & _ & Hd2).
  pose proof (behavioral_drift_rule_value b f1 _ Hpos Hd1) as V1.
  pose proof (behavioral_drift_rule_value b f2 _ Hpos Hd2) as V2.
  cbv zeta in V1, V2.
  set (bt := BaselineProfile.avg_typing_speed b) in *.
  set (a1 := Py.abs (avg_typing_speed f1 - bt)) in *.
  set (a2 := Py.abs (avg_typing_speed f2 - bt)) in *.
  assert (Hdev : a1 / bt <= a2 / bt).
  { apply div_le_iff; [exact Hpos|].
    assert (E : a2 / bt * bt == a2) by (field; lra). rewrite E. exact Habs. }
  destruct V1 as [[Hd1' ->]|[Hd1' ->]]; destruct V2 as [[Hd2' ->]|[Hd2' ->]].
  - lra.
  - pose proof (clip70_range ((a2 / bt - 0.3) * 200.0)). lra.
  - lra.
  - apply clip70_monotone. lra.
Qed.

Lemma behavioral_drift_monotone_witness :
  exists s1 s2,
    fst (fst (compute_scores (init (Some baseline_100))
                             (constant_draws draw_zero) quiet_window)) = Ok s1 /\
    fst (fst (compute_scores (init (Some baseline_100))
                             (constant_draws draw_zero) fast_typing)) = Ok s2 /\
    behavioral_drift s1 <= behavioral_drift s2.
Proof.
  do 2 eexists. split; [reflexivity|]. split; [reflexivity|].
  apply (behavioral_drift_monotone
           (init (Some baseline_100)) baseline_100 (constant_draws draw_zero)
           quiet_window fast_typing _ _ eq_refl (Nat.lt_0_succ 19)).
  - reflexivity.
  - reflexivity.
  - reflexivity.
  - vm_compute. discriminate.
Defined.

(** X19.  In the rule-based branch, against a positive baseline typing
    speed, the Idle-to-Burst score never exceeds the Behavioral Drift score,
    so [overall] is the larger of [focus_instability] and
    [behavioral_drift]. *)
Theorem idle_burst_below_behavioral_drift
        (self : t) (b : BaselineProfile.t) (g : RandomState) (f : FeatureVector)
        (s : AnomalyScores) :
  _baseline self = Some b ->
  (counter self < 20)%nat ->
  0 < BaselineProfile.avg_typing_speed b ->
  fst (fst (compute_scores self g f)) = Ok s ->
  idle_burst s <= behavioral_drift s /\
  overall s == Qmax (focus_instability s) (behavioral_drift s).
Proof.
  intros Hb Hc Hpos Hs.
  destruct (rule_branch_inv self b g f s Hb Hc Hs) as (Ha & _ & Hd).
  pose proof (behavioral_drift_rule_value b f _ Hpos Hd) as V. cbv zeta in V.
  set (bt := BaselineProfile.avg_typing_speed b) in *.
  set (x := avg_typing_speed f) in *.
  assert (Hle : idle_burst s <= behavioral_drift s).
  { assert (Hd0 : 0 <= behavioral_drift s).
    { destruct V as [[_ ->]|[_ ->]]; [lra|].
      apply clip70_range. }
    unfold idle_to_burst in Ha. fold bt x in Ha.
    destruct (Py.gt (avg_idle_duration f) _) in Ha;
      [|injection Ha as <-; lra].
    destruct (Py.gt x (1.3 * bt)) eqn:Ex in Ha;
      [apply gt_true_iff in Ex | injection Ha as <-; lra].
    rewrite div_ok in Ha by lra. cbn [Py.bind] in Ha. injection Ha as <-.
    assert (Hq : 1.3 < x / bt) by (apply div_gt_iff; [exact Hpos | lra]).
    assert (Hdev : Py.abs (x - bt) / bt == x / bt - 1).
    { destruct (abs_cases (x - bt)) as [[Hn _]|[_ ->]]; [lra|]. field. lra. }
    destruct V as [[Hlow _]|[_ ->]]; [lra|].
    set (q := x / bt) in *. set (dev := Py.abs (x - bt) / bt) in *.
    unfold Py.min, Py.max.
    repeat match goal with
           | |- context [Py.gt ?u ?v] =>
             let E := fresh "E" in
             destruct (Py.gt u v) eqn:E;
             [apply gt_true_iff in E | apply gt_false_iff in E]
           | |- context [Py.lt ?u ?v] =>
             let E := fresh "E" in
             destruct (Py.lt u v) eqn:E;
             [apply lt_true_iff in E | apply lt_false_iff in E]
           end; lra. }
  split; [exact Hle|].
  rewrite (rule_branch_overall self b g f s Hb Hc Hs).
  unfold Py.max3. rewrite !max_is_Qmax.
  destruct (Q.max_spec (idle_burst s) (focus_instability s)) as [[H1 E1]|[H1 E1]];
    destruct (Q.max_spec (focus_instability s) (behavioral_drift s))
      as [[H3 E3]|[H3 E3]];
    destruct (Q.max_spec (Qmax (idle_burst s) (focus_instability s))
                         (behavioral_drift s)) as [[H2 E2]|[H2 E2]];
    rewrite E2, E3; rewrite ?E1 in *; lra.
Qed.

Lemma idle_burst_below_behavioral_drift_witness :
  exists s,
    fst (fst (compute_scores (init (Some baseline_100))
                             (constant_draws draw_zero)
                             (mkFeatureVector 200 5 0 0 0 0 30))) = Ok s /\
    idle_burst s <= behavioral_drift s.
Proof.
  eexists. split; [reflexivity|].
  apply (idle_burst_below_behavioral_drift
           (init (Some baseline_100)) baseline_100 (constant_draws draw_zero)
           (mkFeatureVector 200 5 0 0 0 0 30) _ eq_refl (Nat.lt_0_succ 19)).
  - reflexivity.
  - reflexivity.
Defined.

End RuleFacts.

(** ** The loop of [run_simulation] *)

Module PipelineFacts.

Import Spec Samples.

(** Scores returned by [compute_scores], on any of its paths, weigh at most
    70, so the clip of [compute_risk] leaves the weighted sum as it is. *)
Lemma returned_scores_weigh_at_most_70
      (self : ActivityShiftDetector.t) (g : Random.RandomState)
      (f : FeatureVector) (s : AnomalyScores) :
  fst (fst (ActivityShiftDetector.compute_scores self g f)) = Ok s ->
  0 <= weighted_raw_risk s <= 70 /\
  weighted_raw_risk s ==
    0.4 * idle_burst s + 0.3 * focus_instability s + 0.3 * behavioral_drift s.
Proof.
  intro Hs.
  assert (Hsum : 0 <= 0.4 * idle_burst s + 0.3 * focus_instability s
                      + 0.3 * behavioral_drift s <= 70).
  { destruct (ActivityShiftDetector._baseline self) as [b|] eqn:Hb.
    - destruct (Nat.lt_ge_cases (ActivityShiftDetector.counter self) 20) as [Hc|Hc].
      + destruct (DetectorFacts.rule_branch_scores_in_range self g f s) as (A & B & C).
        * split; [congruence | now apply RuleFacts.rule_branch_when].
        * exact Hs.
        * lra.
      + destruct (RuleFacts.random_branch_result self b g f Hb Hc)
          as (s' & Hs' & Hr & Hshape & _).
        rewrite Hs' in Hs. cbn [fst] in Hs. injection Hs as <-.
        destruct Hshape as [E|[E|E]]; rewrite E; cbn; lra.
    - unfold ActivityShiftDetector.compute_scores in Hs. rewrite Hb in Hs.
      cbn in Hs. injection Hs as <-. cbn. lra. }
  set (x := 0.4 * idle_burst s + 0.3 * focus_instability s
            + 0.3 * behavioral_drift s) in *.
  assert (E : weighted_raw_risk s == x).
  { unfold weighted_raw_risk, clip. fold x.
    rewrite <- min_is_Qmin, <- max_is_Qmax. unfold Py.max, Py.min.
    destruct (Py.lt x 100.0) eqn:E1;
      [apply lt_true_iff in E1 | apply lt_false_iff in E1]; [|lra].
    destruct (Py.gt x 0.0) eqn:E2;
      [apply gt_true_iff in E2 | apply gt_false_iff in E2]; lra. }
  split; [rewrite E; exact Hsum | exact E].
Qed.

Lemma compute_scores_keeps_baseline
      (self : ActivityShiftDetector.t) (g : Random.RandomState) (f : FeatureVector) :
  ActivityShiftDetector._baseline (snd (fst (ActivityShiftDetector.compute_scores self g f)))
    = ActivityShiftDetector._baseline self.
Proof.
  unfold ActivityShiftDetector.compute_scores.
  destruct (ActivityShiftDetector._baseline self) as [b|] eqn:Hb;
    [|cbn; now rewrite Hb].
  destruct (20 <? _)%nat; [|reflexivity].
  destruct (Random.random g) as [rand g1].
  destruct (Random.uniform 30 80 g1) as [u g2].
  destruct (Py.lt rand 0.33); [|destruct (Py.lt rand 0.66)]; reflexivity.
Qed.

Lemma add_events_invariant (events : list FeatureExtractor.BaseEvent)
      (self : FeatureExtractor.t) :
  chronological (FeatureExtractor._event_buffer self) ->
  chronological (FeatureExtractor._event_buffer
                   (fold_left FeatureExtractor.add_event events self)) /\
  FeatureExtractor.window_duration (fold_left FeatureExtractor.add_event events self)
    = FeatureExtractor.window_duration self.
Proof.
  revert self. induction events as [|e events IH]; intros self Hc; cbn.
  - split; [exact Hc | reflexivity].
  - destruct (IH (FeatureExtractor.add_event self e)) as [H1 H2].
    + now apply ExtractorFacts.add_event_chronological.
    + split; [exact H1|]. rewrite H2.
      apply (ExtractorFacts.window_duration_step (fun x => x) self
               (FeatureExtractor.Add e)).
Qed.

(** [compute_scores] raises only against a baseline whose typing speed or
    focus rate is 0. *)
Lemma compute_scores_raise_needs_zero
      (self : ActivityShiftDetector.t) (g : Random.RandomState)
      (f : FeatureVector) (e : Py.exn) :
  fst (fst (ActivityShiftDetector.compute_scores self g f)) = Raise e ->
  exists b,
    ActivityShiftDetector._baseline self = Some b /\
    (BaselineProfile.avg_typing_speed b == 0 \/
     BaselineProfile.avg_focus_rate b == 0).
Proof.
  intro H. destruct e.
  destruct (ActivityShiftDetector._baseline self) as [b|] eqn:Hb.
  - exists b. split; [reflexivity|].
    destruct (Nat.lt_ge_cases (ActivityShiftDetector.counter self) 20) as [Hc|Hc].
    + rewrite (RuleFacts.rule_branch_runs_rules self b g f Hb Hc) in H.
      destruct (RuleFacts.only_zero_division (idle_to_burst b f)) as [[a Ha]|Ha].
      * rewrite Ha in H. cbn [Py.bind] in H.
        destruct (RuleFacts.only_zero_division (focus_instability_rule b f))
          as [[i Hi]|Hi].
        -- rewrite Hi in H. cbn [Py.bind] in H.
           destruct (RuleFacts.behavioral_drift_rule_returns b f) as [d Hd].
           rewrite Hd in H. discriminate.
        -- right. now apply RuleFacts.focus_instability_rule_raises in Hi.
      * left. now apply RuleFacts.idle_to_burst_raises in Ha.
    + destruct (RuleFacts.random_branch_result self b g f Hb Hc) as (s & Hs & _).
      rewrite Hs in H. discriminate.
  - unfold ActivityShiftDetector.compute_scores in H. rewrite Hb in H.
    discriminate.
Qed.

(** Step 5 of the loop on a detector that holds a baseline. *)
Lemma score_and_smooth
      (ext : FeatureExtractor.t) (bb : BaselineBuilder.t)
      (d : ActivityShiftDetector.t) (b : BaselineProfile.t)
      (eng : RiskEngine.t) (g : Random.RandomState) (fv : FeatureVector) :
  ActivityShiftDetector._baseline d = Some b ->
  engine_within 5 0 70 eng ->
  (exists d' eng' g' sc r,
     (let '(r, detector, g) := ActivityShiftDetector.compute_scores d g fv in
      anomaly_scores <- r ;;
      risk <- RiskEngine.compute_risk eng anomaly_scores ;;
      Ok (Main.mkSession ext bb detector (snd risk) g,
          Some (anomaly_scores, fst risk)))
     = Ok (Main.mkSession ext bb d' eng' g', Some (sc, r)) /\
     ActivityShiftDetector._baseline d' = Some b /\
     engine_within 5 0 70 eng' /\
     0 <= r <= 70 /\
     RiskEngine.current_risk eng' = r) \/
  ((let '(r, detector, g) := ActivityShiftDetector.compute_scores d g fv in
    anomaly_scores <- r ;;
    risk <- RiskEngine.compute_risk eng anomaly_scores ;;
    Ok (Main.mkSession ext bb detector (snd risk) g,
        Some (anomaly_scores, fst risk)))
   = Raise ZeroDivisionError /\
   (BaselineProfile.avg_typing_speed b == 0 \/
    BaselineProfile.avg_focus_rate b == 0)).
Proof.
  intros Hb Heng.
  pose proof (compute_scores_keeps_baseline d g fv) as Hkeep.
  pose proof (returned_scores_weigh_at_most_70 d g fv) as Hrange.
  pose proof (compute_scores_raise_needs_zero d g fv) as Hraise.
  destruct (ActivityShiftDetector.compute_scores d g fv) as [[r d'] g'].
  cbn [fst snd] in *.
  destruct r as [sc|e]; cbn [Py.bind].
  - destruct (Hrange sc eq_refl) as [Hr _].
    destruct (SmoothingFacts.compute_risk_within 5 0 70 eng sc Heng Hr)
      as (r & eng' & -> & Heng' & Hr' & Hcur & _).
    cbn [Py.bind fst snd]. left. exists d', eng', g', sc, r.
    split; [reflexivity|]. split; [congruence|].
    split; [exact Heng'|]. split; [exact Hr' | exact Hcur].
  - right. destruct e. split; [reflexivity|].
    destruct (Hraise ZeroDivisionError eq_refl) as (b' & Hb' & Hz).
    congruence.
Qed.

Lemma update_keeps_frozen (bb bb' : BaselineBuilder.t) (fv : FeatureVector)
      (t : Q) (b : BaselineProfile.t) :
  BaselineBuilder._baseline bb = Some b ->
  BaselineBuilder.update bb fv t = Ok bb' -> bb' = bb.
Proof.
  intros Hb Hu. unfold BaselineBuilder.update in Hu. rewrite Hb in Hu.
  now injection Hu as <-.
Qed.

(** One turn of the loop on a session that satisfies [session_ok]. *)
Lemma cycle_step (math_sqrt : Q -> Q) (s : Main.Session)
      (events : list FeatureExtractor.BaseEvent) :
  session_ok s ->
  match Main.cycle math_sqrt s events with
  | Ok (s', out) =>
    session_ok s' /\
    (BaselineBuilder._baseline (Main.baseline_builder s) <> None ->
     Main.baseline_builder s' = Main.baseline_builder s) /\
    match out with
    | None =>
      BaselineBuilder._baseline (Main.baseline_builder s') = None /\
      Main.detector s' = Main.detector s /\
      Main.risk_engine s' = Main.risk_engine s /\
      Main.generator s' = Main.generator s
    | Some (sc, r) =>
      BaselineBuilder._baseline (Main.baseline_builder s') <> None /\
      0 <= r <= 70 /\
      RiskEngine.current_risk (Main.risk_engine s') = r
    end /\
    exists fv,
      fst (FeatureExtractor.compute_features math_sqrt
             (fold_left FeatureExtractor.add_event events (Main.extractor s)) None)
        = Ok fv /\
      BaselineBuilder.update (Main.baseline_builder s) fv (window_end fv)
        = Ok (Main.baseline_builder s')
  | Raise _ =>
    exists fv bb b,
      BaselineBuilder.update (Main.baseline_builder s) fv (window_end fv) = Ok bb /\
      BaselineBuilder._baseline bb = Some b /\
      (BaselineProfile.avg_typing_speed b == 0 \/
       BaselineProfile.avg_focus_rate b == 0)
  end.
Proof.
  intros (Hdet & Hwf & Hwd & Hchr & Heng & Hfresh).
  unfold Main.cycle.
  destruct (add_events_invariant events (Main.extractor s) Hchr) as [Hchr1 Hwd1].
  set (ext1 := fold_left FeatureExtractor.add_event events (Main.extractor s)) in *.
  destruct (ExtractorFacts.compute_features_returns math_sqrt ext1 None)
    as (iki & speed & idle & mouse & _ & _ & _ & Hout).
  cbv zeta in Hout. rewrite Hout. clear Hout.
  set (ct := reference_time (FeatureExtractor._event_buffer ext1) None) in *.
  set (fv := mkFeatureVector _ _ _ _ _ _ _).
  set (ext2 := FeatureExtractor.mk _ _). cbn [fst].
  assert (Hext2 : FeatureExtractor.window_duration ext2 = 30.0 /\
                  chronological (FeatureExtractor._event_buffer ext2)).
  { unfold ext2. cbn. split; [congruence|].
    now apply ExtractorFacts.popleft_chronological. }
  destruct Hext2 as [Hwd2 Hchr2].
  clearbody ext2 fv. cbn [Py.bind].
  destruct (CalibrationFacts.update_well_formed
              180.0 (Main.baseline_builder s) fv (window_end fv) Hwf)
    as (bb' & Hu & Hwf').
  rewrite Hu. cbn [Py.bind]. unfold BaselineBuilder.baseline.
  destruct (BaselineBuilder._baseline (Main.baseline_builder s)) as [b|] eqn:Hb.
  - (* a baseline was already frozen *)
    pose proof (update_keeps_frozen _ _ _ _ _ Hb Hu) as ->.
    rewrite Hb, Hdet. rewrite Hdet.
    destruct (score_and_smooth ext2 (Main.baseline_builder s) (Main.detector s)
                b (Main.risk_engine s) (Main.generator s) fv Hdet Heng)
      as [(d' & eng' & g' & sc & r & -> & Hd' & Heng' & Hr & Hcur)|[-> Hz]].
    + cbn [Main.baseline_builder Main.risk_engine Main.detector Main.generator].
      split; [|split; [reflexivity|split]].
      * unfold session_ok. cbn. repeat split; try assumption; try apply Hwf;
          try apply Heng'; try congruence.
      * rewrite Hb. split; [discriminate|]. split; assumption.
      * exists fv. split; [reflexivity | exact Hu].
    + exists fv, (Main.baseline_builder s), b. auto.
  - (* still calibrating when the turn starts *)
    destruct (Hfresh eq_refl) as [Hd0 He0].
    rewrite Hdet.
    destruct (BaselineBuilder._baseline bb') as [p|] eqn:Hp.
    + (* the baseline is frozen in this turn *)
      cbn [ActivityShiftDetector.set_baseline ActivityShiftDetector._baseline].
      destruct (score_and_smooth ext2 bb'
                  (ActivityShiftDetector.set_baseline (Main.detector s) p)
                  p (Main.risk_engine s) (Main.generator s) fv eq_refl Heng)
        as [(d' & eng' & g' & sc & r & -> & Hd' & Heng' & Hr & Hcur)|[-> Hz]].
      * cbn [Main.baseline_builder Main.risk_engine Main.detector Main.generator].
        split; [|split; [congruence|split]].
        -- unfold session_ok. cbn. repeat split; try assumption; try apply Hwf';
             try apply Heng'; try congruence.
        -- rewrite Hp. split; [discriminate|]. split; assumption.
        -- exists fv. split; [reflexivity | exact Hu].
      * exists fv, bb', p. auto.
    + (* no baseline yet *)
      rewrite Hdet.
      cbn [Main.baseline_builder Main.risk_engine Main.detector Main.generator].
      split; [|split; [congruence|split]].
      * unfold session_ok. cbn. repeat split; try assumption; try apply Hwf';
          try apply Heng; try congruence.
      * repeat split; assumption.
      * exists fv. split; [reflexivity | exact Hu].
Qed.

Lemma below_high (r : Q) : r <= 70 -> Dashboard.alert_level r <> Some Dashboard.HIGH.
Proof.
  intro H. unfold Dashboard.alert_level.
  assert (E : Py.ge r 80 = false).
  { unfold Py.ge. apply (le_false_iff 80 r). lra. }
  rewrite E. destruct (Py.ge r 60); [discriminate|].
  destruct (Py.ge r 30); discriminate.
Qed.

Lemma start_ok (g : Random.RandomState) : session_ok (Main.start g).
Proof.
  unfold session_ok, Main.start. cbn.
  split; [reflexivity|]. split.
  { unfold BaselineOps.well_formed, BaselineBuilder.is_calibrated. cbn.
    repeat split; discriminate. }
  split; [reflexivity|]. split; [constructor|].
  split; [apply SmoothingFacts.init_within|]. auto.
Qed.

Lemma all_some_is_map {A} (l : list (option A)) :
  Forall is_some l -> exists xs, l = map Some xs.
Proof.
  induction 1 as [|o l Ho Hl (xs & ->)].
  - now exists [].
  - destruct o as [x|]; [|now elim Ho]. now exists (x :: xs).
Qed.

(** A run of turns from any session that satisfies [session_ok]. *)
Lemma cycles_from (math_sqrt : Q -> Q)
      (batches : list (list FeatureExtractor.BaseEvent))
      (s s' : Main.Session) (outs : list (option (AnomalyScores * Q))) :
  session_ok s ->
  Main.cycles math_sqrt s batches = Ok (s', outs) ->
  session_ok s' /\
  Forall bounded_output outs /\
  (BaselineBuilder._baseline (Main.baseline_builder s) <> None ->
   Forall is_some outs /\ Main.baseline_builder s' = Main.baseline_builder s) /\
  (exists n scored, outs = repeat None n ++ map Some scored) /\
  (BaselineBuilder._baseline (Main.baseline_builder s') = None ->
   outs = repeat None (length batches) /\
   Main.detector s' = Main.detector s /\
   Main.risk_engine s' = Main.risk_engine s).
Proof.
  revert s s' outs. induction batches as [|events rest IH]; intros s s' outs Hok H.
  - cbn in H. injection H as <- <-.
    split; [exact Hok|]. split; [constructor|].
    split; [intros _; split; [constructor | reflexivity]|].
    split; [exists 0%nat, []; reflexivity|]. intros _. repeat split.
  - cbn [Main.cycles] in H.
    pose proof (cycle_step math_sqrt s events Hok) as Hstep.
    destruct (Main.cycle math_sqrt s events) as [[s1 out1]|e]; [|discriminate].
    cbn [Py.bind fst snd] in H.
    destruct (Main.cycles math_sqrt s1 rest) as [[s2 outs2]|e] eqn:Hrest;
      [|discriminate].
    cbn [Py.bind fst snd] in H. injection H as <- <-.
    destruct Hstep as (Hok1 & Hkeep1 & Hout1 & _).
    destruct (IH s1 s2 outs2 Hok1 Hrest) as (Hok2 & Hb2 & Hsome2 & Hsplit2 & Hnone2).
    assert (Hbound1 : bounded_output out1).
    { destruct out1 as [[sc r]|]; cbn; [|trivial].
      destruct Hout1 as (_ & Hr & _). split; [exact Hr|]. apply below_high, Hr. }
    split; [exact Hok2|]. split; [constructor; assumption|]. split; [|split].
    + intro Hfrozen. pose proof (Hkeep1 Hfrozen) as Hsame.
      assert (Hfrozen1 : BaselineBuilder._baseline (Main.baseline_builder s1) <> None)
        by (rewrite Hsame; exact Hfrozen).
      destruct (Hsome2 Hfrozen1) as [Hall Heq]. split; [|congruence].
      constructor; [|exact Hall].
      destruct out1 as [x|]; [discriminate|]. destruct Hout1 as (Hn & _).
      contradiction.
    + destruct out1 as [[sc r]|].
      * destruct Hout1 as (Hfrozen1 & _).
        destruct (Hsome2 Hfrozen1) as [Hall _].
        destruct (all_some_is_map outs2 Hall) as (xs & ->).
        exists 0%nat, ((sc, r) :: xs). reflexivity.
      * destruct Hsplit2 as (n & scored & ->).
        exists (S n), scored. reflexivity.
    + intro Hnone.
      assert (Hnone1 : BaselineBuilder._baseline (Main.baseline_builder s1) = None).
      { destruct (BaselineBuilder._baseline (Main.baseline_builder s1)) as [b|] eqn:E;
          [|reflexivity].
        assert (Hf : Some b <> None) by discriminate.
        destruct (Hsome2 Hf) as [_ Heq]. rewrite Heq, E in Hnone. discriminate. }
      destruct (Hnone2 Hnone) as (-> & Hd & He).
      destruct out1 as [[sc r]|].
      * destruct Hout1 as (Hfrozen1 & _). contradiction.
      * destruct Hout1 as (_ & Hd1 & He1 & _). cbn [length repeat].
        repeat split; congruence.
Qed.

(** X20.  The weighted sum of scores returned by [compute_scores], on any
    of its paths, lies between 0 and 70: [compute_risk] on a fresh engine
    returns that sum unclipped, and it is below the HIGH alert level of the
    dashboard. *)
Theorem returned_scores_give_risk_at_most_70
        (self : ActivityShiftDetector.t) (g : Random.RandomState)
        (f : FeatureVector) (s : AnomalyScores) (sw : nat) :
  fst (fst (ActivityShiftDetector.compute_scores self g f)) = Ok s ->
  exists r eng,
    RiskEngine.compute_risk (RiskEngine.init sw) s = Ok (r, eng) /\
    r == 0.4 * idle_burst s + 0.3 * focus_instability s + 0.3 * behavioral_drift s /\
    0 <= r <= 70 /\
    Dashboard.alert_level r <> Some Dashboard.HIGH.
Proof.
  intro Hs.
  destruct (returned_scores_weigh_at_most_70 self g f s Hs) as [Hr Hsum].
  destruct (SmoothingFacts.compute_risk_within
              sw (weighted_raw_risk s) (weighted_raw_risk s)
              (RiskEngine.init sw) s
              (SmoothingFacts.init_within sw _ _)) as (r & eng & Hc & _ & Hb & _).
  { lra. }
  exists r, eng. split; [exact Hc|].
  assert (E : r == weighted_raw_risk s) by lra.
  split; [now rewrite E|]. split; [lra|]. apply below_high. lra.
Qed.

Lemma returned_scores_give_risk_at_most_70_witness :
  exists s r eng,
    fst (fst (ActivityShiftDetector.compute_scores
                (after_20_calls baseline_100) (constant_draws draw_high)
                fast_typing)) = Ok s /\
    RiskEngine.compute_risk (RiskEngine.init 5) s = Ok (r, eng) /\
    0 <= r <= 70.
Proof.
  destruct (returned_scores_give_risk_at_most_70
              (after_20_calls baseline_100) (constant_draws draw_high)
              fast_typing _ 5 eq_refl) as (r & eng & H1 & _ & H2 & _).
  eexists. exists r, eng. split; [reflexivity|]. split; assumption.
Defined.

(** X21.  After any run of loop turns from the start of [run_simulation],
    the next turn either leaves the session without a baseline, emits
    nothing and leaves detector, risk engine and generator untouched; or
    emits scores with a risk between 0 and 70, which is the engine's
    [current_risk]; or raises, and then against a frozen baseline whose
    typing speed or focus rate is 0. *)
Theorem loop_turn_outcomes
        (math_sqrt : Q -> Q) (g : Random.RandomState)
        (batches : list (list FeatureExtractor.BaseEvent))
        (s : Main.Session) (outs : list (option (AnomalyScores * Q)))
        (events : list FeatureExtractor.BaseEvent) :
  Main.cycles math_sqrt (Main.start g) batches = Ok (s, outs) ->
  match Main.cycle math_sqrt s events with
  | Ok (s', None) =>
    BaselineBuilder.is_calibrated (Main.baseline_builder s') = false /\
    Main.detector s' = Main.detector s /\
    Main.risk_engine s' = Main.risk_engine s /\
    Main.generator s' = Main.generator s
  | Ok (s', Some (sc, r)) =>
    BaselineBuilder.is_calibrated (Main.baseline_builder s') = true /\
    0 <= r <= 70 /\
    RiskEngine.current_risk (Main.risk_engine s') = r
  | Raise _ =>
    exists fv bb b,
      BaselineBuilder.update (Main.baseline_builder s) fv (window_end fv) = Ok bb /\
      BaselineBuilder._baseline bb = Some b /\
      (BaselineProfile.avg_typing_speed b == 0 \/
       BaselineProfile.avg_focus_rate b == 0)
  end.
Proof.
  intro Hrun.
  destruct (cycles_from math_sqrt batches (Main.start g) s outs (start_ok g) Hrun)
    as (Hok & _).
  pose proof (cycle_step math_sqrt s events Hok) as Hstep.
  destruct (Main.cycle math_sqrt s events) as [[s' [[sc r]|]]|e].
  - destruct Hstep as (_ & _ & (Hb & Hr & Hc) & _).
    unfold BaselineBuilder.is_calibrated.
    destruct (BaselineBuilder._baseline (Main.baseline_builder s'));
      [auto | contradiction].
  - destruct Hstep as (_ & _ & (Hb & Hrest) & _).
    unfold BaselineBuilder.is_calibrated. rewrite Hb. auto.
  - exact Hstep.
Qed.

Lemma loop_turn_outcomes_witness :
  exists s',
    Main.cycle floor_sqrt (Main.start (constant_draws draw_zero)) late_first_event
      = Ok (s', None) /\
    BaselineBuilder.is_calibrated (Main.baseline_builder s') = false.
Proof.
  pose proof (loop_turn_outcomes floor_sqrt (constant_draws draw_zero) []
                (Main.start (constant_draws draw_zero)) [] late_first_event
                eq_refl) as H.
  assert (E : exists s',
             Main.cycle floor_sqrt (Main.start (constant_draws draw_zero))
                        late_first_event = Ok (s', None)).
  { let v := eval vm_compute in
        (Main.cycle floor_sqrt (Main.start (constant_draws draw_zero))
                    late_first_event) in
    match v with
    | Ok (?s, None) => exists s; vm_compute; reflexivity
    end. }
  destruct E as (s' & E). rewrite E in H.
  exists s'. split; [exact E | apply H].
Defined.

(** X22.  A run of loop turns from the start of [run_simulation] that does
    not raise emits nothing for a number of turns and then a result on
    every turn; every emitted risk lies between 0 and 70, below the HIGH
    alert level; the detector holds the builder's baseline; and as long as
    no baseline is frozen the detector and the risk engine are as
    created. *)
Theorem loop_run_outputs
        (math_sqrt : Q -> Q) (g : Random.RandomState)
        (batches : list (list FeatureExtractor.BaseEvent))
        (s : Main.Session) (outs : list (option (AnomalyScores * Q))) :
  Main.cycles math_sqrt (Main.start g) batches = Ok (s, outs) ->
  (exists n scored, outs = repeat None n ++ map Some scored) /\
  Forall bounded_output outs /\
  ActivityShiftDetector._baseline (Main.detector s) =
    BaselineBuilder._baseline (Main.baseline_builder s) /\
  (BaselineBuilder.is_calibrated (Main.baseline_builder s) = false ->
   outs = repeat None (length batches) /\
   Main.detector s = ActivityShiftDetector.init None /\
   Main.risk_engine s = RiskEngine.init 5).
Proof.
  intro Hrun.
  destruct (cycles_from math_sqrt batches (Main.start g) s outs (start_ok g) Hrun)
    as (Hok & Hb & _ & Hsplit & Hnone).
  split; [exact Hsplit|]. split; [exact Hb|]. split; [apply Hok|].
  unfold BaselineBuilder.is_calibrated. intro Hc. apply Hnone.
  destruct (BaselineBuilder._baseline (Main.baseline_builder s));
    [discriminate | reflexivity].
Qed.

Lemma loop_run_outputs_witness :
  exists s outs,
    Main.cycles floor_sqrt (Main.start (constant_draws draw_zero)) three_turns
      = Ok (s, outs) /\
    (exists n scored, outs = repeat None n ++ map Some scored) /\
    Forall bounded_output outs.
Proof.
  assert (E : exists s outs,
             Main.cycles floor_sqrt (Main.start (constant_draws draw_zero))
                         three_turns = Ok (s, outs)).
  { let v := eval vm_compute in
        (Main.cycles floor_sqrt (Main.start (constant_draws draw_zero))
                     three_turns) in
    match v with
    | Ok (?s, ?o) => exists s, o; vm_compute; reflexivity
    end. }
  destruct E as (s & outs & E).
  destruct (loop_run_outputs floor_sqrt (constant_draws draw_zero)
              three_turns s outs E) as (H1 & H2 & _).
  exists s, outs. repeat split; assumption.
Defined.

Lemma add_events_keep (events : list FeatureExtractor.BaseEvent)
      (self : FeatureExtractor.t) (x : FeatureExtractor.BaseEvent) :
  In x (FeatureExtractor._event_buffer self) \/ In x events ->
  In x (FeatureExtractor._event_buffer
          (fold_left FeatureExtractor.add_event events self)).
Proof.
  revert self. induction events as [|e events IH]; intros self H; cbn.
  - destruct H as [H|[]]. exact H.
  - apply IH.
    pose proof (BufferFacts.add_event_permutation self e) as Hp.
    destruct H as [H|[->|H]]; auto.
    + left. apply (Permutation_in _ Hp). now right.
    + left. apply (Permutation_in _ Hp). now left.
Qed.

Lemma reference_time_is_newest (buffer : list FeatureExtractor.BaseEvent)
      (e : FeatureExtractor.BaseEvent) :
  chronological buffer -> In e buffer ->
  FeatureExtractor.timestamp e <= reference_time buffer None.
Proof.
  intros Hc Hin. unfold reference_time.
  destruct (FeatureExtractor.rightmost buffer) as [newest|] eqn:Er.
  - apply ExtractorFacts.rightmost_inv in Er as [older ->].
    pose proof (ExtractorFacts.chronological_newest older newest Hc) as Hall.
    rewrite Forall_forall in Hall. now apply Hall.
  - apply ExtractorFacts.rightmost_none in Er. subst. contradiction.
Qed.

(** X23.  When the first turn of the loop delivers no event, the
    calibration starts at time 0 on an all-zero feature vector; the first
    later turn that delivers an event stamped after 180 then freezes a
    baseline whose three fields are 0, and emits its first result. *)
Theorem first_turn_without_events_freezes_zero_baseline
        (math_sqrt : Q -> Q) (g : Random.RandomState)
        (events : list FeatureExtractor.BaseEvent)
        (s : Main.Session) (outs : list (option (AnomalyScores * Q))) :
  Exists (fun e => 180 < FeatureExtractor.timestamp e) events ->
  Main.cycles math_sqrt (Main.start g) [[]; events] = Ok (s, outs) ->
  exists b o,
    BaselineBuilder._baseline (Main.baseline_builder s) = Some b /\
    BaselineProfile.avg_typing_speed b == 0 /\
    BaselineProfile.avg_idle_duration b == 0 /\
    BaselineProfile.avg_focus_rate b == 0 /\
    outs = [None; Some o].
Proof.
  intros Hex Hrun.
  set (zero := mkFeatureVector 0.0 0.0 0 0.0 0.0 (0.0 - 30.0) 0.0).
  set (bb1 := BaselineBuilder.mk 180.0 [zero] None (Some 0.0)).
  set (s1 := Main.mkSession (FeatureExtractor.mk 30.0 []) bb1
                            (ActivityShiftDetector.init None) (RiskEngine.init 5) g).
  assert (H1 : Main.cycle math_sqrt (Main.start g) [] = Ok (s1, None))
    by reflexivity.
  assert (Hok1 : session_ok s1).
  { pose proof (cycle_step math_sqrt (Main.start g) [] (start_ok g)) as Hs.
    rewrite H1 in Hs. apply Hs. }
  cbn [Main.cycles] in Hrun. rewrite H1 in Hrun. cbn [Py.bind fst snd] in Hrun.
  pose proof (cycle_step math_sqrt s1 events Hok1) as Hstep.
  destruct (Main.cycle math_sqrt s1 events) as [[s2 out2]|e]; [|discriminate].
  cbn [Py.bind fst snd] in Hrun. injection Hrun as <- <-.
  destruct Hstep as (_ & _ & Hout & fv & Hfv & Hu).
  cbn [Main.extractor Main.baseline_builder s1] in Hfv, Hu.
  set (ext1 := fold_left FeatureExtractor.add_event events
                         (FeatureExtractor.mk 30.0 [])) in *.
  destruct (add_events_invariant events (FeatureExtractor.mk 30.0 []))
    as [Hchr _]; [constructor|]. fold ext1 in Hchr.
  assert (Hlate : 180 < window_end fv).
  { destruct (ExtractorFacts.compute_features_returns math_sqrt ext1 None)
      as (iki & speed & idle & mouse & _ & _ & _ & Hret).
    cbv zeta in Hret. rewrite Hret in Hfv. cbn [fst] in Hfv.
    injection Hfv as <-. cbn [window_end].
    apply Exists_exists in Hex as (e & Hin & Hlt).
    pose proof (reference_time_is_newest
                  (FeatureExtractor._event_buffer ext1) e Hchr
                  (add_events_keep events _ e (or_intror Hin))) as Hnew.
    unfold reference_time in *. lra. }
  rewrite (BaselineFacts.update_calibrating_elapsed bb1 0.0 fv (window_end fv))
    in Hu by (try reflexivity; cbn; lra).
  destruct (BaselineFacts.build_baseline_nonempty bb1 zero [] eq_refl)
    as (p & Hp & Ht & Hi & Hf).
  rewrite Hp in Hu. injection Hu as Hbb.
  assert (Hb : BaselineBuilder._baseline (Main.baseline_builder s2) = Some p)
    by now rewrite <- Hbb.
  destruct out2 as [o|].
  - exists p, o. split; [exact Hb|].
    split; [rewrite Ht; reflexivity|]. split; [rewrite Hi; reflexivity|].
    split; [rewrite Hf; reflexivity | reflexivity].
  - destruct Hout as (Hn & _). congruence.
Qed.

Lemma first_turn_without_events_freezes_zero_baseline_witness :
  exists s outs b,
    Main.cycles floor_sqrt (Main.start (constant_draws draw_zero))
                [[]; late_first_event] = Ok (s, outs) /\
    BaselineBuilder._baseline (Main.baseline_builder s) = Some b /\
    BaselineProfile.avg_typing_speed b == 0.
Proof.
  assert (H : exists s outs,
             Main.cycles floor_sqrt (Main.start (constant_draws draw_zero))
                         [[]; late_first_event] = Ok (s, outs)).
  { let v := eval vm_compute in
        (Main.cycles floor_sqrt (Main.start (constant_draws draw_zero))
                     [[]; late_first_event]) in
    match v with
    | Ok (?s, ?o) => exists s, o; vm_compute; reflexivity
    end. }
  destruct H as (s & outs & H).
  destruct (first_turn_without_events_freezes_zero_baseline
              floor_sqrt (constant_draws draw_zero) late_first_event s outs)
    as (b & o & Hb & Ht & _).
  - constructor. reflexivity.
  - exact H.
  - exists s, outs, b. repeat split; assumption.
Defined.

End PipelineFacts.

(** ** What the rules never score *)

Module ThresholdFacts.

Import Random ActivityShiftDetector Spec Samples.

(** X24.  In the rule-based branch a score is positive only past the
    rule's thresholds: [idle_burst] only when the idle duration exceeds
    1.2 times and the typing speed 1.3 times their baselines,
    [focus_instability] only when the focus-loss rate of the window is at
    least 1.5 times the baseline rate, and [behavioral_drift] only against
    a positive baseline speed from which the typing speed deviates by more
    than 30%.  The bound on the focus-loss rate is not strict: the code
    compares the product [focus_loss_count * (60.0 / window_duration)] as
    it is rounded, which can exceed the threshold when the rate equals
    it. *)
Theorem rules_fire_only_past_thresholds
        (self : t) (b : BaselineProfile.t) (g : RandomState) (f : FeatureVector)
        (s : AnomalyScores) :
  _baseline self = Some b ->
  (counter self < 20)%nat ->
  fst (fst (compute_scores self g f)) = Ok s ->
  (0 < idle_burst s ->
   BaselineProfile.avg_idle_duration b * 1.2 < avg_idle_duration f /\
   1.3 * BaselineProfile.avg_typing_speed b < avg_typing_speed f) /\
  (0 < focus_instability s ->
   1.5 * BaselineProfile.avg_focus_rate b <= focus_rate f) /\
  (0 < behavioral_drift s ->
   0 < BaselineProfile.avg_typing_speed b /\
   (avg_typing_speed f < 0.7 * BaselineProfile.avg_typing_speed b \/
    1.3 * BaselineProfile.avg_typing_speed b < avg_typing_speed f)).
Proof.
  intros Hb Hc Hs.
  destruct (RuleFacts.rule_branch_inv self b g f s Hb Hc Hs) as (Ha & Hi & Hd).
  split; [|split].
  - intro Hpos. unfold idle_to_burst in Ha.
    destruct (Py.gt (avg_idle_duration f) _) eqn:E1 in Ha;
      [apply gt_true_iff in E1 | injection Ha as Ha; rewrite <- Ha in Hpos; lra].
    destruct (Py.gt (avg_typing_speed f) _) eqn:E2 in Ha;
      [apply gt_true_iff in E2 | injection Ha as Ha; rewrite <- Ha in Hpos; lra].
    split; assumption.
  - intro Hpos. unfold focus_instability_rule in Hi.
    destruct (RuleFacts.focus_rate_step f) as (fr & Hfr & Hval).
    rewrite Hfr in Hi. cbn [Py.bind] in Hi.
    destruct (Py.gt fr _) eqn:E in Hi;
      [apply gt_true_iff in E | injection Hi as Hi; rewrite <- Hi in Hpos; lra].
    lra.
  - intro Hpos.
    destruct (Qlt_le_dec 0 (BaselineProfile.avg_typing_speed b)) as [Hbt|Hbt].
    + split; [exact Hbt|].
      pose proof (RuleFacts.behavioral_drift_rule_value b f _ Hbt Hd) as V.
      cbv zeta in V. destruct V as [[_ V]|[Hdev _]];
        [rewrite V in Hpos; lra|].
      apply RuleFacts.div_gt_iff in Hdev; [|exact Hbt].
      destruct (RuleFacts.abs_cases
                  (avg_typing_speed f - BaselineProfile.avg_typing_speed b))
        as [[Hn Habs]|[Hn Habs]]; rewrite Habs in Hdev; [left | right]; lra.
    + exfalso. unfold behavioral_drift_rule in Hd.
      apply gt_false_iff in Hbt. rewrite Hbt in Hd.
      injection Hd as Hd. rewrite <- Hd in Hpos. lra.
Qed.

Lemma rules_fire_only_past_thresholds_witness :
  exists s,
    fst (fst (compute_scores (init (Some baseline_100))
                             (constant_draws draw_zero) fast_typing)) = Ok s /\
    1.3 * 100 < 250.
Proof.
  eexists. split; [reflexivity|].
  destruct (rules_fire_only_past_thresholds
              (init (Some baseline_100)) baseline_100 (constant_draws draw_zero)
              fast_typing _ eq_refl (Nat.lt_0_succ 19) eq_refl)
    as (_ & _ & Hd).
  destruct Hd as (_ & [Hlow|Hhigh]).
  - vm_compute. reflexivity.
  - vm_compute in Hlow. discriminate.
  - exact Hhigh.
Defined.

End ThresholdFacts.
